(** * CodeSage: incremental indexing and thermally throttled processing

    A shallow embedding of the indexing pipeline of CodeSage
    ([main.go], [temperature monitor]) and the properties its
    specification states about it.

    Layout: the embedding comes first (strings and paths, file discovery,
    the temperature monitor, the indexing loop, the vector store and the
    query path), the theorems follow. *)

From Stdlib Require Import ZArith String Ascii List Bool Lia.
From stdpp Require Import gmap strings list.

Open Scope string_scope.
Open Scope Z_scope.

(* ===================================================================== *)
(** * Go's [strings] package, on byte strings *)
(* ===================================================================== *)

Module Strings.

(** [strings.HasPrefix]: [len(s) >= len(prefix) && s[:len(prefix)] == prefix]. *)
Definition HasPrefix (s prefix : string) : bool :=
  (String.length prefix <=? String.length s)%nat &&
  String.eqb (String.substring 0 (String.length prefix) s) prefix.

(** [strings.HasSuffix]: [len(s) >= len(suffix) && s[len(s)-len(suffix):] == suffix]. *)
Definition HasSuffix (s suffix : string) : bool :=
  (String.length suffix <=? String.length s)%nat &&
  String.eqb
    (String.substring (String.length s - String.length suffix)
                      (String.length suffix) s)
    suffix.

(** [strings.TrimPrefix]. *)
Definition TrimPrefix (s prefix : string) : string :=
  if HasPrefix s prefix
  then String.substring (String.length prefix)
                        (String.length s - String.length prefix) s
  else s.

(** [strings.TrimSuffix]. *)
Definition TrimSuffix (s suffix : string) : string :=
  if HasSuffix s suffix
  then String.substring 0 (String.length s - String.length suffix) s
  else s.

(** [strings.Contains s substr]: [substr] occurs somewhere in [s]. *)
Fixpoint Contains (s substr : string) : bool :=
  if HasPrefix s substr then true
  else match s with
       | EmptyString => false
       | String _ rest => Contains rest substr
       end.

End Strings.

(* ===================================================================== *)
(** * Go's [path/filepath] package (Unix separator) *)
(* ===================================================================== *)

Module Filepath.

Definition Separator : ascii := "/"%char.

Definition IsPathSeparator (c : ascii) : bool := Ascii.eqb c Separator.

(** The bytes of a path split at every separator. *)
Fixpoint split_sep (cur : list ascii) (s : list ascii) : list (list ascii) :=
  match s with
  | [] => [rev cur]
  | c :: rest =>
      if IsPathSeparator c then rev cur :: split_sep [] rest
      else split_sep (c :: cur) rest
  end.

Definition is_dot (c : list ascii) : bool :=
  match c with ["."%char] => true | _ => false end.

Definition is_dotdot (c : list ascii) : bool :=
  match c with ["."%char; "."%char] => true | _ => false end.

(** One element of the lexical processing of [Clean]; [out] holds the
    elements written so far, innermost first. *)
Definition clean_step (rooted : bool) (out : list (list ascii))
           (c : list ascii) : list (list ascii) :=
  match c with
  | [] => out
  | _ =>
      if is_dot c then out
      else if is_dotdot c then
        match out with
        | top :: below => if is_dotdot top then c :: out else below
        | [] => if rooted then [] else [c]
        end
      else c :: out
  end.

Fixpoint join_sep (elems : list (list ascii)) : list ascii :=
  match elems with
  | [] => []
  | [e] => e
  | e :: rest => (e ++ Separator :: join_sep rest)%list
  end.

(** [filepath.Clean]: the shortest path name equivalent to [path] by
    purely lexical processing. *)
Definition Clean (path : string) : string :=
  match list_ascii_of_string path with
  | [] => "."
  | (c0 :: _) as cs =>
      let rooted := IsPathSeparator c0 in
      let out := rev (fold_left (clean_step rooted) (split_sep [] cs) []) in
      let body := join_sep out in
      match rooted, body with
      | true, _ => string_of_list_ascii (Separator :: body)
      | false, [] => "."
      | false, _ => string_of_list_ascii body
      end
  end.

(** [filepath.Join] of two elements: empty elements are ignored, the
    rest is joined by the separator and cleaned; all empty gives [""]. *)
Definition Join (a b : string) : string :=
  match a, b with
  | EmptyString, EmptyString => ""
  | EmptyString, _ => Clean b
  | _, EmptyString => Clean a
  | _, _ => Clean (a +:+ "/" +:+ b)
  end.

Fixpoint drop_separators (r : list ascii) : list ascii :=
  match r with
  | c :: rest => if IsPathSeparator c then drop_separators rest else r
  | [] => []
  end.

Fixpoint take_element (r : list ascii) : list ascii :=
  match r with
  | c :: rest => if IsPathSeparator c then [] else c :: take_element rest
  | [] => []
  end.

(** [filepath.Base]: the last element of [path]; trailing separators
    are removed first; [""] gives ["."], only separators give ["/"]. *)
Definition Base (path : string) : string :=
  match path with
  | EmptyString => "."
  | _ =>
      let r := rev (list_ascii_of_string path) in
      match take_element (drop_separators r) with
      | [] => "/"
      | last_rev => string_of_list_ascii (rev last_rev)
      end
  end.

(** The scan of [filepath.Ext], from the last byte backwards: stop at a
    separator, return from the first dot met. *)
Fixpoint ext_scan (r : list ascii) (acc : list ascii) : list ascii :=
  match r with
  | [] => []
  | c :: before =>
      if IsPathSeparator c then []
      else if Ascii.eqb c "."%char then c :: acc
      else ext_scan before (c :: acc)
  end.

(** [filepath.Ext]: the suffix beginning at the final dot in the final
    element of [path]; empty if there is no dot. *)
Definition Ext (path : string) : string :=
  string_of_list_ascii (ext_scan (rev (list_ascii_of_string path)) []).

End Filepath.

(* ===================================================================== *)
(** * The file system seen by [filepath.Walk] *)
(* ===================================================================== *)

(** A directory entry. [Dir name readable entries] lists its entries in
    the order [readDirNames] returns them (sorted by name) and is
    unreadable when listing it fails; [Broken name] is an entry whose
    [lstat] fails. *)
#[local] Unset Elimination Schemes.
Inductive Entry : Type :=
| File (name : string)
| Dir (name : string) (readable : bool) (entries : list Entry)
| Broken (name : string).
#[local] Set Elimination Schemes.

Definition entry_name (e : Entry) : string :=
  match e with
  | File n => n
  | Dir n _ _ => n
  | Broken n => n
  end.

Definition entry_is_dir (e : Entry) : bool :=
  match e with
  | Dir _ _ _ => true
  | _ => false
  end.

(** The part of [os.FileInfo] the program reads. *)
Record FileInfo : Type := { IsDir : bool }.

(** A non-nil Go [error] as the walk distinguishes them: the sentinel
    [filepath.SkipDir], or any other error. *)
Inductive error : Type :=
| SkipDir
| IOError (msg : string).

Module Walker.
Section Walk.

(** The state the callback closes over. *)
Context {S : Type}.

(** [filepath.WalkFunc]: [fn(path, info, err)]. [info] is nil (here
    [None]) only when [err] reports a failed [lstat]. *)
Definition WalkFunc : Type :=
  string -> option FileInfo -> option error -> S -> S * option error.

Variable fn : WalkFunc.

(** The loop of [filepath.walk] over the names of a directory, with
    [visit] for the recursive call. A [SkipDir] from a directory (or
    from the callback on an entry that cannot be examined) skips that
    entry only; from a file it ends the walk of the containing
    directory; any other error ends the walk. *)
Definition walkNames (visit : string -> Entry -> S -> S * option error)
           (path : string) : list Entry -> S -> S * option error :=
  fix loop (names : list Entry) (st : S) : S * option error :=
    match names with
    | [] => (st, None)
    | c :: rest =>
        let filename := Filepath.Join path (entry_name c) in
        let '(st2, err2) := visit filename c st in
        match c, err2 with
        | _, None => loop rest st2
        | Broken _, Some SkipDir => loop rest st2
        | Dir _ _ _, Some SkipDir => loop rest st2
        | _, Some e2 => (st2, Some e2)
        end
    end.

(** [filepath.walk]: call [fn] on [e] at [path], then walk its entries
    in order if it is a directory that could be listed and [fn]
    returned nil. An entry whose [lstat] failed is reported to [fn]
    with the error. *)
Fixpoint walk (path : string) (e : Entry) (st : S) : S * option error :=
  match e with
  | File _ => fn path (Some {| IsDir := false |}) None st
  | Broken _ => fn path None (Some (IOError "lstat")) st
  | Dir _ readable entries =>
      let err := if readable then None else Some (IOError "readdirnames") in
      let '(st1, err1) := fn path (Some {| IsDir := true |}) err st in
      match err, err1 with
      | None, None => walkNames walk path entries st1
      | _, _ => (st1, err1)
      end
  end.

(** [filepath.Walk]: a [SkipDir] that reaches the top is not an error. *)
Definition Walk (root : string) (tree : Entry) (st : S) : S * option error :=
  let '(st', err) := walk root tree st in
  (st', match err with Some SkipDir => None | _ => err end).

End Walk.
End Walker.

(* ===================================================================== *)
(** * File discovery: [parseDirectory] *)
(* ===================================================================== *)

(** The extension test of [parseDirectory]. *)
Definition sourceExtension (ext : string) : bool :=
  String.eqb ext ".py" || String.eqb ext ".js" || String.eqb ext ".ts" ||
  String.eqb ext ".java" || String.eqb ext ".cpp" || String.eqb ext ".c" ||
  String.eqb ext ".go" || String.eqb ext ".vue" || String.eqb ext ".jsx" ||
  String.eqb ext ".tsx".

(** [strings.Contains(path, exclude)] for some [exclude] of the list. *)
Definition excludedDir (excludeDirs : list string) (path : string) : bool :=
  existsb (fun exclude => Strings.Contains path exclude) excludeDirs.

(** [filepath.Base(path) == excludeFile] for some entry of the list. *)
Definition excludedFile (excludeFiles : list string) (path : string) : bool :=
  existsb (fun excludeFile => String.eqb (Filepath.Base path) excludeFile) excludeFiles.

(** The closure [parseDirectory] hands to [filepath.Walk]; the state is
    the slice [files] it appends to. *)
Definition parseDirectoryFn (excludeDirs excludeFiles : list string)
  : Walker.WalkFunc (S := list string) :=
  fun path info err files =>
    match err with
    | Some e => (files, Some e)
    | None =>
        match info with
        | None => (files, None)
        | Some info =>
            if IsDir info then
              if excludedDir excludeDirs path then (files, Some SkipDir)
              else (files, None)
            else if excludedFile excludeFiles path then (files, None)
            else if sourceExtension (Filepath.Ext path) then ((files ++ [path])%list, None)
            else (files, None)
        end
    end.

(** [parseDirectory]: the files found below [directoryPath] in the file
    system [tree], and the error of the walk. The list collected so far
    is returned together with the error. *)
Definition parseDirectory (tree : Entry) (directoryPath : string)
           (excludeDirs excludeFiles : list string) : list string * option error :=
  Walker.Walk (parseDirectoryFn excludeDirs excludeFiles) directoryPath tree [].

(* ===================================================================== *)
(** * Machine integers and durations *)
(* ===================================================================== *)

(** Go's [int] and [time.Duration] are 64-bit two's complement. *)
Definition wrap64 (z : Z) : Z := (z + 2 ^ 63) mod 2 ^ 64 - 2 ^ 63.

Definition maxDuration : Z := 2 ^ 63 - 1.
Definition minDuration : Z := - 2 ^ 63.

(** [time.Second], in nanoseconds. *)
Definition Second : Z := 1000000000.
Definition Minute : Z := 60 * Second.

(** Instants are nanoseconds counted from the zero [time.Time]. *)
Definition zeroTime : Z := 0.

(** [t.Sub(u)]: the difference, saturated to the range of a Duration. *)
Definition Sub (t u : Z) : Z :=
  Z.max minDuration (Z.min maxDuration (t - u)).

(** [time.Since(t)] when the clock reads [now]. *)
Definition Since (now t : Z) : Z := Sub now t.

(* ===================================================================== *)
(** * The temperature monitor *)
(* ===================================================================== *)

(** [TemperatureMonitor]. The sensor table [sensors.Chips] is a Go map
    of maps; each [range] over it delivers its entries in an order of
    the runtime's choosing, so the table is handed to [getTemperature]
    as the sequence one iteration delivers (see [SensorScan]). *)
Record TemperatureMonitor : Type := {
  criticalTemp : Z;
  safeTemp : Z;
  useFallback : bool
}.

(** [NewTemperatureMonitor(critical, safe, isNotLocal)]; [sensorsErr]
    tells whether [gosensors.NewFromSystem] failed. *)
Definition NewTemperatureMonitor (critical safe : Z) (isNotLocal : bool)
           (sensorsErr : bool) : TemperatureMonitor :=
  let tm := {| criticalTemp := critical; safeTemp := safe; useFallback := false |} in
  let tm := if sensorsErr
            then {| criticalTemp := criticalTemp tm; safeTemp := safeTemp tm;
                    useFallback := true |}
            else tm in
  if isNotLocal
  then {| criticalTemp := criticalTemp tm; safeTemp := safeTemp tm; useFallback := true |}
  else tm.

(** One chip of the sensor table: its entries as (key, value), the value
    being [int(ParseFloat(text without the degree suffix))], which is 0
    when the text does not parse. *)
Definition Chip : Type := list (string * Z).

(** What the two [range] loops of one [getTemperature] call deliver. *)
Record SensorScan : Type := {
  gpuPass : list Chip;
  cpuPass : list Chip
}.

(** The result triple of [getTemperature]. *)
Record Reading : Type := {
  temp : Z;
  source : string;
  failed : bool
}.

(** The inner loop: the first entry with this key and a non-zero value. *)
Fixpoint scanChip (key : string) (entries : Chip) : option Z :=
  match entries with
  | [] => None
  | (k, v) :: rest =>
      if String.eqb k key && negb (v =? 0) then Some v
      else scanChip key rest
  end.

Fixpoint scanChips (key : string) (chips : list Chip) : option Z :=
  match chips with
  | [] => None
  | chip :: rest =>
      match scanChip key chip with
      | Some v => Some v
      | None => scanChips key rest
      end
  end.

(** [getTemperature]. A CPU value is reported with source ["gpu"], as
    the code does. *)
Definition getTemperature (tm : TemperatureMonitor) (scan : SensorScan) : Reading :=
  if useFallback tm then {| temp := 0; source := "fallback"; failed := true |}
  else
    match scanChips "GPU" (gpuPass scan) with
    | Some t => {| temp := t; source := "gpu"; failed := false |}
    | None =>
        match scanChips "CPU" (cpuPass scan) with
        | Some t => {| temp := t; source := "gpu"; failed := false |}
        | None => {| temp := 0; source := "unknown"; failed := true |}
        end
    end.

(** The dynamic cooldown calculation of [CoolDown]:
    [waitSec := 2; if temp > criticalTemp { waitSec = 5 + int(temp-safeTemp) }]. *)
Definition waitSec (tm : TemperatureMonitor) (t : Z) : Z :=
  if criticalTemp tm <? t then wrap64 (5 + wrap64 (t - safeTemp tm)) else 2.

(** [time.Duration(waitSec) * time.Second]. *)
Definition waitDuration (tm : TemperatureMonitor) (t : Z) : Z :=
  wrap64 (waitSec tm t * Second).

(** How a call of [CoolDown] stands after the readings supplied to it:
    it has returned, having slept [sleeps] and left [rest] unread, or it
    is still in its loop, waiting for the next reading. *)
Inductive CoolOutcome : Type :=
| Returned (sleeps : list Z) (rest : list Reading)
| StillCooling (sleeps : list Z).

Definition addSleep (d : Z) (o : CoolOutcome) : CoolOutcome :=
  match o with
  | Returned sleeps rest => Returned (d :: sleeps) rest
  | StillCooling sleeps => StillCooling (d :: sleeps)
  end.

(** [CoolDown] over the successive results of [getTemperature]: an
    error sleeps 60 seconds and returns; a reading below the safe
    threshold returns; any other reading sleeps the computed wait and
    measures again. (The source label and the progress line are printed
    only.) *)
Fixpoint CoolDown (tm : TemperatureMonitor) (readings : list Reading) : CoolOutcome :=
  match readings with
  | [] => StillCooling []
  | r :: rest =>
      if failed r then Returned [60 * Second] rest
      else if temp r <? safeTemp tm then Returned [] rest
      else addSleep (waitDuration tm (temp r)) (CoolDown tm rest)
  end.

(** [CoolDown] on a monitor whose sensor answers [scans] call after call. *)
Definition CoolDownOn (tm : TemperatureMonitor) (scans : list SensorScan) : CoolOutcome :=
  CoolDown tm (map (getTemperature tm) scans).

Definition coolSleeps (o : CoolOutcome) : list Z :=
  match o with
  | Returned sleeps _ => sleeps
  | StillCooling sleeps => sleeps
  end.

Definition coolReturned (o : CoolOutcome) : bool :=
  match o with
  | Returned _ _ => true
  | StillCooling _ => false
  end.

(* ===================================================================== *)
(** * Configuration, stores and the vector database *)
(* ===================================================================== *)

(** [Config]. *)
Record Config : Type := {
  DocsDir : string;
  EmbeddingModel : string;
  CodeChatModel : string;
  DocumentationModel : string;
  OllamaHost : string;
  HashDBPath : string;
  SQLiteDBPath : string;
  WebPort : string;
  GitBinPath : string
}.

Definition DefaultConfig : Config := {|
  DocsDir := "./docs";
  EmbeddingModel := "nomic-embed-text";
  CodeChatModel := "qwen2.5-coder:1.5b";
  DocumentationModel := "llama3.2:1b";
  OllamaHost := "http://localhost:11434";
  HashDBPath := "./db";
  SQLiteDBPath := "file_hashes.db";
  WebPort := "8080";
  GitBinPath := ""
|}.

(** [ProjectConfig]; [LastUpdated] is an instant. *)
Record ProjectConfig : Type := {
  ProjectName : string;
  ProjectPath : string;
  ExcludeFolders : list string;
  ExcludeFiles : list string;
  LastUpdated : Z;
  TotalIndexedFiles : Z;
  TotalFailedFiles : Z
}.

(** [chromem.Document], without its embedding vector. *)
Record Document : Type := {
  ID : string;
  Content : string;
  Metadata : list (string * string)
}.

(** A chromem collection maps document ids to documents; a database
    maps collection names to collections. *)
Abbreviation Collection := (gmap string Document).
Abbreviation VectorDB := (gmap string (gmap string Document)).

(** Everything [indexCodebase] and [searchCodebase] read and write that
    outlives a call: the fields of [CodeAssistant] that change and the
    files on disk. The rows of [file_hashes] are those the connection
    [ca.db], opened once in [NewCodeAssistant], reads: removing the
    database file from under the open connection leaves them as they
    are, and is recorded in [hashDBFile]. *)
Record World : Type := {
  vectorDB : VectorDB;                     (* ca.vectorDB, in memory *)
  storeDir : VectorDB;                     (* what is persisted below HashDBPath *)
  file_hashes : gmap string string;        (* table file_hashes: file_path -> hash *)
  hashDBFile : bool;                       (* the file at SQLiteDBPath is on disk *)
  docFiles : gmap string string;           (* documentation files: path -> content *)
  projectConfig : ProjectConfig;           (* ca.projectConfig *)
  configFiles : gmap string ProjectConfig  (* project_config.json per project *)
}.

(** [getFileHash]: [(hash, found)] when the query succeeds. *)
Definition getFileHash (table : gmap string string) (filePath : string)
  : string * bool :=
  match table !! filePath with
  | Some h => (h, true)
  | None => ("", false)
  end.

(** [setFileHash]: [INSERT OR REPLACE]. *)
Definition setFileHash (table : gmap string string) (filePath hash : string)
  : gmap string string :=
  <[filePath := hash]> table.

(* ===================================================================== *)
(** * The indexing loop *)
(* ===================================================================== *)

(** The cool down configuration of [indexCodebase]. *)
Definition maxFileProcessTime : Z := 30 * Second.
Definition maxTotalProcessTime : Z := 5 * Minute.
Definition coolDownPeriod : Z := 60 * Second.

(** The batch size and the pause after each full batch
    ([processedFiles%10 == 0], [time.Sleep(10 * time.Second)]). *)
Definition batchSize : Z := 10.
Definition batchPause : Z := 10 * Second.

(** Where a [time.Sleep] of the run is made. *)
Inductive SleepSite : Type :=
| RemainingCooldown   (* before a file, fallback mode: the rest of the period *)
| ThermalCoolDown     (* inside CoolDown *)
| BatchPause          (* after every tenth processed file *)
| TimedCooldown.      (* after a file: the elapsed-time trigger *)

(** The calls of a run that the properties speak about, in order. *)
Inductive Event : Type :=
| EvSleep (site : SleepSite) (d : Z)
| EvGenerateComments (file : string) (ok : bool)
| EvWriteFile (file docPath content : string) (ok : bool)
| EvSetFileHash (file hash : string) (ok : bool)
| EvSaveProjectConfig (project : string) (ok : bool)
| EvRemoveAll (path : string)
| EvNewPersistentDB (path : string) (ok : bool)
| EvCreateVectorStore (project codebasePath : string).

(** The variables of [indexCodebase] that live across iterations, with
    the two stores the loop writes. The counters never exceed the number
    of files, far below the range of a Go [int]. *)
Record LoopState : Type := {
  processedFiles : Z;
  failedFiles : Z;
  updatedFiles : Z;
  startTotalTime : Z;
  lastCoolDown : Z;
  hashes : gmap string string;
  docs : gmap string string
}.

Definition failOne (st : LoopState) : LoopState :=
  {| processedFiles := processedFiles st; failedFiles := failedFiles st + 1;
     updatedFiles := updatedFiles st; startTotalTime := startTotalTime st;
     lastCoolDown := lastCoolDown st; hashes := hashes st; docs := docs st |}.

Definition updateOne (st : LoopState) : LoopState :=
  {| processedFiles := processedFiles st; failedFiles := failedFiles st;
     updatedFiles := updatedFiles st + 1; startTotalTime := startTotalTime st;
     lastCoolDown := lastCoolDown st; hashes := hashes st; docs := docs st |}.

Definition processOne (st : LoopState) : LoopState :=
  {| processedFiles := processedFiles st + 1; failedFiles := failedFiles st;
     updatedFiles := updatedFiles st; startTotalTime := startTotalTime st;
     lastCoolDown := lastCoolDown st; hashes := hashes st; docs := docs st |}.

Definition withDocs (st : LoopState) (d : gmap string string) : LoopState :=
  {| processedFiles := processedFiles st; failedFiles := failedFiles st;
     updatedFiles := updatedFiles st; startTotalTime := startTotalTime st;
     lastCoolDown := lastCoolDown st; hashes := hashes st; docs := d |}.

Definition withHashes (st : LoopState) (h : gmap string string) : LoopState :=
  {| processedFiles := processedFiles st; failedFiles := failedFiles st;
     updatedFiles := updatedFiles st; startTotalTime := startTotalTime st;
     lastCoolDown := lastCoolDown st; hashes := h; docs := docs st |}.

Definition withTimers (st : LoopState) (cooled restarted : Z) : LoopState :=
  {| processedFiles := processedFiles st; failedFiles := failedFiles st;
     updatedFiles := updatedFiles st; startTotalTime := restarted;
     lastCoolDown := cooled; hashes := hashes st; docs := docs st |}.

(** What the environment answers while one file is processed: the clock
    at each [time.Now], the sensor at each [getTemperature], and the
    outcome of each call that can fail ([None] or [false]: an error). *)
Record FileAnswers : Type := {
  nowStart : Z;                   (* fileStartTime := time.Now() *)
  nowCheck : Z;                   (* time.Since(lastCoolDown), the test *)
  nowRemaining : Z;               (* time.Since(lastCoolDown), the remaining time *)
  preScan : SensorScan;           (* getTemperature before the file *)
  preCooling : list SensorScan;   (* the scans of the CoolDown before the file *)
  relPath : option string;        (* filepath.Rel(path, file) *)
  md5 : option string;            (* calculateMD5Hash(file) *)
  hashQueryOk : bool;             (* the query of getFileHash *)
  mkdirOk : bool;                 (* os.MkdirAll(filepath.Dir(docPath)) *)
  sourceText : option string;     (* ioutil.ReadFile(file) *)
  generated : string -> option string;  (* generateComments(code) *)
  writeOk : bool;                 (* ioutil.WriteFile(docPath, ...) *)
  setHashOk : bool;               (* the statement of setFileHash *)
  nowFile : Z;                    (* time.Since(fileStartTime) *)
  nowTotal : Z;                   (* time.Since(startTotalTime) *)
  nowCool : Z;                    (* lastCoolDown = time.Now() *)
  nowReset : Z;                   (* startTotalTime = time.Now() *)
  postScan : SensorScan;          (* getTemperature after the file *)
  postCooling : list SensorScan   (* the scans of the CoolDown after the file *)
}.

(** The answers [a] with other sensor scans. *)
Definition withScans (a : FileAnswers) (scanBefore : SensorScan)
           (coolingBefore : list SensorScan) (scanAfter : SensorScan)
           (coolingAfter : list SensorScan) : FileAnswers :=
  {| nowStart := nowStart a; nowCheck := nowCheck a; nowRemaining := nowRemaining a;
     preScan := scanBefore; preCooling := coolingBefore;
     relPath := relPath a; md5 := md5 a; hashQueryOk := hashQueryOk a;
     mkdirOk := mkdirOk a; sourceText := sourceText a; generated := generated a;
     writeOk := writeOk a; setHashOk := setHashOk a;
     nowFile := nowFile a; nowTotal := nowTotal a; nowCool := nowCool a;
     nowReset := nowReset a; postScan := scanAfter; postCooling := coolingAfter |}.

Definition newline : string := String (ascii_of_nat 10) EmptyString.

(** The content written for a file:
    [fmt.Sprintf("File: %s\n%s", relPath, comments)]. *)
Definition docContent (rel comments : string) : string :=
  "File: " +:+ rel +:+ newline +:+ comments.

(** [temp, source, _ := getTemperature(); if temp >= criticalTemp
    { CoolDown() }]: the sleeps made, and whether [CoolDown] returned. *)
Definition criticalCheck (tm : TemperatureMonitor) (scan : SensorScan)
           (cooling : list SensorScan) : list Event * bool :=
  if criticalTemp tm <=? temp (getTemperature tm scan) then
    let o := CoolDownOn tm cooling in
    (map (EvSleep ThermalCoolDown) (coolSleeps o), coolReturned o)
  else ([], true).

(** The check made before each file. *)
Definition preCooldown (tm : TemperatureMonitor) (a : FileAnswers)
           (st : LoopState) : list Event * bool :=
  if Since (nowCheck a) (lastCoolDown st) <? coolDownPeriod then
    if useFallback tm then
      let remaining := wrap64 (coolDownPeriod - Since (nowRemaining a) (lastCoolDown st)) in
      ([EvSleep RemainingCooldown remaining], true)
    else criticalCheck tm (preScan a) (preCooling a)
  else ([], true).

(** From [filepath.Rel] to [setFileHash]: the body of the loop between
    the two cooldown checks. The boolean tells whether the iteration
    goes on to the check after the file ([false]: [continue]). *)
Definition documentFile (projectDocsDir file : string) (a : FileAnswers)
           (st : LoopState) : list Event * LoopState * bool :=
  match relPath a with
  | None => ([], failOne st, false)
  | Some rel =>
      let docPath := Filepath.Join projectDocsDir (rel +:+ ".txt") in
      match md5 a with
      | None => ([], failOne st, false)
      | Some currentHash =>
          if negb (hashQueryOk a) then ([], failOne st, false)
          else
            let '(oldHash, found) := getFileHash (hashes st) file in
            if found && String.eqb oldHash currentHash then ([], st, false)
            else
              let st := updateOne st in
              if negb (mkdirOk a) then ([], failOne st, false)
              else
                match sourceText a with
                | None => ([], failOne st, false)
                | Some code =>
                    match generated a code with
                    | None => ([EvGenerateComments file false], failOne st, false)
                    | Some comments =>
                        let content := docContent rel comments in
                        if negb (writeOk a) then
                          ([EvGenerateComments file true;
                            EvWriteFile file docPath content false],
                           failOne st, false)
                        else
                          let st := withDocs st (<[docPath := content]> (docs st)) in
                          let st := processOne st in
                          let pause :=
                            if Z.rem (processedFiles st) batchSize =? 0
                            then [EvSleep BatchPause batchPause] else [] in
                          let st :=
                            if setHashOk a
                            then withHashes st (setFileHash (hashes st) file currentHash)
                            else failOne st in
                          (([EvGenerateComments file true;
                             EvWriteFile file docPath content true]
                              ++ pause
                              ++ [EvSetFileHash file currentHash (setHashOk a)])%list,
                           st, true)
                    end
                end
      end
  end.

(** The check made after each documented file. *)
Definition postCooldown (tm : TemperatureMonitor) (a : FileAnswers)
           (st : LoopState) : list Event * LoopState * bool :=
  let fileProcessTime := Since (nowFile a) (nowStart a) in
  let totalProcessTime := Since (nowTotal a) (startTotalTime st) in
  if useFallback tm && (maxFileProcessTime <? fileProcessTime)
     || (maxTotalProcessTime <? totalProcessTime)
  then ([EvSleep TimedCooldown coolDownPeriod],
        withTimers st (nowCool a) (nowReset a), true)
  else
    let '(evs, returned) := criticalCheck tm (postScan a) (postCooling a) in
    (evs, st, returned).

(** One iteration of the loop. The boolean is [false] when a [CoolDown]
    of this iteration has not returned on the readings it was given. *)
Definition processFile (tm : TemperatureMonitor) (projectDocsDir file : string)
           (a : FileAnswers) (st : LoopState) : list Event * LoopState * bool :=
  let '(evs1, returned1) := preCooldown tm a st in
  if negb returned1 then (evs1, st, false)
  else
    let '(evs2, st2, documented) := documentFile projectDocsDir file a st in
    if negb documented then ((evs1 ++ evs2)%list, st2, true)
    else
      let '(evs3, st3, returned3) := postCooldown tm a st2 in
      ((evs1 ++ evs2 ++ evs3)%list, st3, returned3).

(** [for _, file := range files { ... }]. *)
Fixpoint indexFiles (tm : TemperatureMonitor) (projectDocsDir : string)
         (work : list (string * FileAnswers)) (st : LoopState)
  : list Event * LoopState * bool :=
  match work with
  | [] => ([], st, true)
  | (file, a) :: rest =>
      let '(evs, st1, returned) := processFile tm projectDocsDir file a st in
      if negb returned then (evs, st1, false)
      else
        let '(evs', st2, done) := indexFiles tm projectDocsDir rest st1 in
        ((evs ++ evs')%list, st2, done)
  end.

(* ===================================================================== *)
(** * The vector store: [createVectorStore] and the rebuild *)
(* ===================================================================== *)

(** What the environment answers during the rebuild. When
    [os.RemoveAll] does not remove the whole directory it has removed
    what it could: the three [removeKeeps] answers tell what is left. *)
Record StoreAnswers : Type := {
  removeOk : bool;             (* os.RemoveAll removed the directory *)
  removeKeepsFile : string -> bool;                (* a file, by path *)
  removeKeepsCollection : string -> bool;          (* a collection of the store *)
  removeKeepsDocument : string -> string -> bool;  (* a document of a collection *)
  reopenOk : bool;             (* chromem.NewPersistentDB *)
  docsWalkOk : bool;           (* the walk of the documentation directory and its reads *)
  createOk : bool;             (* vectorDB.CreateCollection *)
  embedOk : Document -> bool   (* collec.AddDocument, which embeds the content *)
}.

(** A path lies below [dir]: it starts with [dir] and a separator. *)
Definition below (dir path : string) : bool :=
  Strings.HasPrefix path (dir +:+ "/").

(** The document [createVectorStore] builds from one documentation file. *)
Definition documentOf (projectDocsDir codebasePath : string)
           (entry : string * string) : Document :=
  let '(path, content) := entry in
  let rel := Strings.TrimSuffix (Strings.TrimPrefix path (projectDocsDir +:+ "/")) ".txt" in
  {| ID := rel; Content := content;
     Metadata := [("file_path", Filepath.Join codebasePath rel)] |}.

(** The documents collected by the walk over the project's documentation
    directory: every file below it whose name ends in [.txt]. The files
    are enumerated from the map of documentation files. *)
Definition collectDocuments (projectDocsDir codebasePath : string)
           (files : gmap string string) : list Document :=
  map (documentOf projectDocsDir codebasePath)
      (List.filter (fun entry => below projectDocsDir (fst entry)
                                 && Strings.HasSuffix (fst entry) ".txt")
                   (map_to_list files)).

(** [for _, doc := range documents { collec.AddDocument(...) }]: stops
    at the first document that cannot be added. *)
Fixpoint addDocuments (embeds : Document -> bool) (documents : list Document)
         (c : Collection) : Collection * bool :=
  match documents with
  | [] => (c, true)
  | doc :: rest =>
      if embeds doc then addDocuments embeds rest (<[ID doc := doc]> c)
      else (c, false)
  end.

Definition withStores (w : World) (mem disk : VectorDB) : World :=
  {| vectorDB := mem; storeDir := disk; file_hashes := file_hashes w;
     hashDBFile := hashDBFile w;
     docFiles := docFiles w; projectConfig := projectConfig w;
     configFiles := configFiles w |}.

(** [createVectorStore(projectName, codebasePath)]. A collection that is
    created replaces the one of that name in memory; on disk the documents
    are written into the collection's directory. *)
Definition createVectorStore (cfg : Config) (sa : StoreAnswers)
           (projectName codebasePath : string) (w : World) : World * option string :=
  let projectDocsDir := Filepath.Join (DocsDir cfg) projectName in
  if negb (docsWalkOk sa) then (w, Some "walk")
  else
    let documents := collectDocuments projectDocsDir codebasePath (docFiles w) in
    if negb (createOk sa) then (w, Some "failed to add document to vector DB")
    else
      let '(collec, added) := addDocuments (embedOk sa) documents ∅ in
      let '(persisted, _) :=
        addDocuments (embedOk sa) documents (default ∅ (storeDir w !! projectName)) in
      (withStores w (<[projectName := collec]> (vectorDB w))
                    (<[projectName := persisted]> (storeDir w)),
       if added then None else Some "failed to add document to vector DB").

(** The store directory, by its cleaned name. *)
Definition storePath (cfg : Config) : string := Filepath.Clean (HashDBPath cfg).

(** [path] names [dir] or something in the tree below it. Paths are
    compared by their cleaned names, as the program forms them: both
    relative to the working directory or both absolute, and without
    symbolic links. *)
Definition inside (dir path : string) : bool :=
  String.eqb path dir
  || Strings.HasPrefix path (if Strings.HasSuffix dir "/" then dir else dir +:+ "/").

(** The file at [path] is removed by [os.RemoveAll(HashDBPath)]: it lies
    inside the store directory, and the call removed all of it or at
    least this file. *)
Definition removedFile (cfg : Config) (sa : StoreAnswers) (path : string) : bool :=
  inside (storePath cfg) path && (removeOk sa || negb (removeKeepsFile sa path)).

(** [project_config.json] of a project. *)
Definition configPath (cfg : Config) (projectName : string) : string :=
  Filepath.Join (Filepath.Join (DocsDir cfg) projectName) "project_config.json".

(** What [os.RemoveAll(HashDBPath)] leaves of the persisted store. *)
Definition removeStore (sa : StoreAnswers) (disk : VectorDB) : VectorDB :=
  if removeOk sa then ∅
  else
    map_imap (fun name (c : Collection) =>
                if removeKeepsCollection sa name
                then Some (filter (fun entry => removeKeepsDocument sa name entry.1 = true) c)
                else None)
             disk.

(** [os.RemoveAll(ca.config.HashDBPath)]; its error is not looked at.
    The call removes the persisted store and, with it, whatever else
    lies inside the store directory: documentation files, project
    configurations and the SQLite database file. The vector store in
    memory and the rows read through [ca.db] stay. *)
Definition removeStoreDir (cfg : Config) (sa : StoreAnswers) (w : World) : World :=
  {| vectorDB := vectorDB w;
     storeDir := removeStore sa (storeDir w);
     file_hashes := file_hashes w;
     hashDBFile := hashDBFile w
                   && negb (removedFile cfg sa (Filepath.Clean (SQLiteDBPath cfg)));
     docFiles := filter (fun entry => removedFile cfg sa entry.1 = false) (docFiles w);
     projectConfig := projectConfig w;
     configFiles :=
       filter (fun entry => removedFile cfg sa (configPath cfg entry.1) = false)
              (configFiles w) |}.

(** The rebuild of [indexCodebase]: remove the store directory, open a
    new database on it, which loads what the removal left, and create
    the project's collection. *)
Definition rebuild (cfg : Config) (sa : StoreAnswers)
           (projectName path : string) (w : World)
  : list Event * World * option string :=
  let w1 := removeStoreDir cfg sa w in
  if negb (reopenOk sa) then
    ([EvRemoveAll (HashDBPath cfg); EvNewPersistentDB (HashDBPath cfg) false],
     w1, Some "failed to add document to vector DB")
  else
    let w2 := withStores w1 (storeDir w1) (storeDir w1) in
    let '(w3, err) := createVectorStore cfg sa projectName path w2 in
    ([EvRemoveAll (HashDBPath cfg); EvNewPersistentDB (HashDBPath cfg) true;
      EvCreateVectorStore projectName path],
     w3, err).

(* ===================================================================== *)
(** * [indexCodebase] *)
(* ===================================================================== *)

(** The project an indexing run works on, as resolved at its start from
    the stored project configuration or from the console. *)
Record ProjectDetails : Type := {
  projectName : string;
  path : string;
  exclude : list string;
  excludeFiles : list string
}.

Definition defaultExcludes : list string :=
  ["/node_modules"; "/venv"; "/build"; "/dist"; "/.venv"; "/log";
   "/node_modules/"; "/venv/"; "/build/"; "/dist/"; "/.venv/"; "/log/";
   "/.vite/"; "/.git/"].

(** What the environment answers during one run. *)
Record RunAnswers : Type := {
  tree : Entry;                          (* the file system at the codebase path *)
  loadedConfig : option ProjectConfig;   (* loadProjectConfig before the loop *)
  nowFirstSave : Z;
  saveFirstOk : bool;
  nowBegin : Z;                          (* startTotalTime = time.Now() *)
  sensorsErr : bool;                     (* gosensors.NewFromSystem failed *)
  perFile : string -> FileAnswers;
  nowLastSave : Z;
  saveLastOk : bool;
  store : StoreAnswers
}.

(** How a run ends: it returns (with an error or nil), or a [CoolDown]
    in it has not returned on the readings given. *)
Inductive Outcome : Type :=
| Done (err : option string)
| Cooling.

Record RunResult : Type := {
  trace : list Event;
  counters : LoopState;
  after : World;
  outcome : Outcome
}.

Definition saveProjectConfig (ok : bool) (pc : ProjectConfig)
           (files : gmap string ProjectConfig) : gmap string ProjectConfig :=
  if ok then <[ProjectName pc := pc]> files else files.

Definition withConfig (w : World) (pc : ProjectConfig)
           (files : gmap string ProjectConfig) : World :=
  {| vectorDB := vectorDB w; storeDir := storeDir w; file_hashes := file_hashes w;
     hashDBFile := hashDBFile w;
     docFiles := docFiles w; projectConfig := pc; configFiles := files |}.

Definition withLoop (w : World) (st : LoopState) : World :=
  {| vectorDB := vectorDB w; storeDir := storeDir w; file_hashes := hashes st;
     hashDBFile := hashDBFile w;
     docFiles := docs st; projectConfig := projectConfig w;
     configFiles := configFiles w |}.

Definition initialState (w : World) (now : Z) : LoopState :=
  {| processedFiles := 0; failedFiles := 0; updatedFiles := 0;
     startTotalTime := now; lastCoolDown := zeroTime;
     hashes := file_hashes w; docs := docFiles w |}.

(** The monitor [indexCodebase] builds:
    [NewTemperatureMonitor(80, 65, !isLocalHost)]. *)
Definition runMonitor (cfg : Config) (ra : RunAnswers) : TemperatureMonitor :=
  let isLocalHost := Strings.Contains (OllamaHost cfg) "localhost" in
  NewTemperatureMonitor 80 65 (negb isLocalHost) (sensorsErr ra).

(** The files of a run: [exclude = append(exclude, defaultExcludes...)],
    then [parseDirectory]. *)
Definition runFiles (pd : ProjectDetails) (ra : RunAnswers)
  : list string * option error :=
  parseDirectory (tree ra) (path pd) (exclude pd ++ defaultExcludes)%list (excludeFiles pd).

(** [indexCodebase], from the resolved project details on. The periodic
    save running beside the loop is left out: it reads the counters and
    writes the project configuration only. *)
Definition indexCodebase (cfg : Config) (pd : ProjectDetails) (ra : RunAnswers)
           (w : World) : RunResult :=
  let excludeAll := (exclude pd ++ defaultExcludes)%list in
  let projectDocsDir := Filepath.Join (DocsDir cfg) (projectName pd) in
  let '(files, walkErr) := runFiles pd ra in
  match walkErr with
  | Some _ =>
      {| trace := []; counters := initialState w (nowBegin ra); after := w;
         outcome := Done (Some "walk") |}
  | None =>
      let mkConfig now (st : LoopState) :=
        {| ProjectName := projectName pd; ProjectPath := path pd;
           ExcludeFolders := excludeAll; ExcludeFiles := excludeFiles pd;
           LastUpdated := now; TotalIndexedFiles := processedFiles st;
           TotalFailedFiles := failedFiles st |} in
      let st0 := initialState w (nowBegin ra) in
      let '(evs0, w0) :=
        match loadedConfig ra with
        | Some pc => ([], withConfig w pc (configFiles w))
        | None =>
            let pc := mkConfig (nowFirstSave ra) st0 in
            ([EvSaveProjectConfig (projectName pd) (saveFirstOk ra)],
             withConfig w pc (saveProjectConfig (saveFirstOk ra) pc (configFiles w)))
        end in
      let tempMonitor := runMonitor cfg ra in
      let work := map (fun file => (file, perFile ra file)) files in
      let '(evs1, st1, finished) := indexFiles tempMonitor projectDocsDir work st0 in
      if negb finished then
        {| trace := (evs0 ++ evs1)%list; counters := st1; after := withLoop w0 st1;
           outcome := Cooling |}
      else
        let pc := mkConfig (nowLastSave ra) st1 in
        let w1 := withConfig (withLoop w0 st1) pc
                             (saveProjectConfig (saveLastOk ra) pc (configFiles w0)) in
        let evs2 := [EvSaveProjectConfig (projectName pd) (saveLastOk ra)] in
        if 0 <? updatedFiles st1 then
          let '(evs3, w2, err) := rebuild cfg (store ra) (projectName pd) (path pd) w1 in
          {| trace := (evs0 ++ evs1 ++ evs2 ++ evs3)%list; counters := st1;
             after := w2; outcome := Done err |}
        else
          {| trace := (evs0 ++ evs1 ++ evs2)%list; counters := st1;
             after := w1; outcome := Done None |}
  end.

(* ===================================================================== *)
(** * The query path: [searchCodebase] *)
(* ===================================================================== *)

(** What the environment answers during one query. *)
Record QueryAnswers : Type := {
  clientOk : bool;                             (* api.ClientFromEnvironment *)
  embedQueryOk : bool;                         (* the embedding of the query text *)
  nearest : string -> list Document -> list Document;  (* the most similar document *)
  chat : string -> option string               (* client.Chat with the prompt *)
}.

(** The result of a call: a value pair as Go returns it, or a run-time
    panic that nothing in the call recovers. *)
Inductive CallResult : Type :=
| Answer (text : string)
| Failure (msg : string)
| Panic (msg : string).

(** [db.GetCollection(name, ...)]: nil when the collection does not exist. *)
Definition GetCollection (db : VectorDB) (name : string) : option Collection :=
  db !! name.

(** [collec.Query(ctx, queryText, nResults, nil, nil)] of chromem-go:
    an empty query text is refused before the receiver is read; then the
    receiver's embedding function is called, which on a nil receiver is a
    nil pointer dereference; [nResults] may not exceed the number of
    documents. *)
Definition Query (qa : QueryAnswers) (collec : option Collection)
           (queryText : string) (nResults : Z) : CallResult + list Document :=
  if String.eqb queryText "" then inl (Failure "queryText is empty")
  else
    match collec with
    | None => inl (Panic "invalid memory address or nil pointer dereference")
    | Some c =>
        if negb (embedQueryOk qa) then inl (Failure "couldn't create embedding of query")
        else if nResults <=? 0 then inl (Failure "nResults must be > 0")
        else if Z.of_nat (size c) <? nResults then
          inl (Failure "nResults must be <= the number of documents in the collection")
        else inr (nearest qa queryText (map snd (map_to_list c)))
    end.

(** The prompt of [searchCodebase]. *)
Definition searchPrompt (code query : string) : string :=
  newline +:+ "		Context: " +:+ code +:+ newline +:+
  "		Question: " +:+ query +:+ newline +:+
  "		Answer query clearly and concisely, include relevant file paths when applicable. Your answer should be related to this codebase only".

(** [searchCodebase(projectName, query)]. *)
Definition searchCodebase (qa : QueryAnswers) (w : World)
           (projectName query : string) : CallResult :=
  if negb (clientOk qa) then Failure "failed to create Ollama client"
  else
    let collec := GetCollection (vectorDB w) projectName in
    match Query qa collec query 1 with
    | inl (Failure _) => Failure "failed to search vector DB"
    | inl r => r
    | inr results =>
        let code := fold_left (fun code result => code +:+ Content result) results "" in
        match chat qa (searchPrompt code query) with
        | None => Failure "failed to generate comments"
        | Some text => Answer text
        end
    end.


(* ===================================================================== *)
(** * The console prompts: [getProjectDetails] *)
(* ===================================================================== *)

Module Console.

(** The bytes of a string split at every occurrence of a one-byte
    separator, as [strings.Split(s, ",")] does: [n] separators give
    [n + 1] fields. *)
Fixpoint splitBytes (sep : ascii) (s : list ascii) : list (list ascii) :=
  match s with
  | [] => [[]]
  | c :: rest =>
      if Ascii.eqb c sep then [] :: splitBytes sep rest
      else match splitBytes sep rest with
           | field :: fields => (c :: field) :: fields
           | [] => [[c]]
           end
  end.

Definition Split (s : string) (sep : ascii) : list string :=
  map string_of_list_ascii (splitBytes sep (list_ascii_of_string s)).

Definition byte (c : ascii) : N := N_of_ascii c.

(** The ASCII white space of Go: tab, line feed, vertical tab, form
    feed, carriage return, space. *)
Definition asciiSpace (c : ascii) : bool :=
  ((9 <=? byte c) && (byte c <=? 13) || (byte c =? 32))%N.

(** The length of the UTF-8 encoding of a [unicode.IsSpace] rune at the
    head of [bs], 0 when there is none: the ASCII white space, U+0085,
    U+00A0, U+1680, U+2000 to U+200A, U+2028, U+2029, U+202F, U+205F and
    U+3000. *)
Definition spaceAtHead (bs : list ascii) : nat :=
  match map byte bs with
  | b0 :: more =>
      if ((9 <=? b0) && (b0 <=? 13) || (b0 =? 32))%N then 1%nat
      else match more with
           | b1 :: more' =>
               if ((b0 =? 194) && ((b1 =? 133) || (b1 =? 160)))%N then 2%nat
               else match more' with
                    | b2 :: _ =>
                        if ((b0 =? 225) && (b1 =? 154) && (b2 =? 128)
                            || (b0 =? 226) && (b1 =? 128)
                               && ((128 <=? b2) && (b2 <=? 138)
                                   || (b2 =? 168) || (b2 =? 169) || (b2 =? 175))
                            || (b0 =? 226) && (b1 =? 129) && (b2 =? 159)
                            || (b0 =? 227) && (b1 =? 128) && (b2 =? 128))%N
                        then 3%nat else 0%nat
                    | [] => 0%nat
                    end
           | [] => 0%nat
           end
  | [] => 0%nat
  end.

(** The same at the end of a string, on its bytes in reverse order. *)
Definition spaceAtEnd (reversed : list ascii) : nat :=
  match reversed with
  | c0 :: c1 :: c2 :: _ =>
      if asciiSpace c0 then 1%nat
      else if (spaceAtHead [c1; c0] =? 2)%nat then 2%nat
      else if (spaceAtHead [c2; c1; c0] =? 3)%nat then 3%nat
      else 0%nat
  | [c0; c1] =>
      if asciiSpace c0 then 1%nat
      else if (spaceAtHead [c1; c0] =? 2)%nat then 2%nat
      else 0%nat
  | [c0] => if asciiSpace c0 then 1%nat else 0%nat
  | [] => 0%nat
  end.

(** Remove white space runes from the head, at most [fuel] times. *)
Fixpoint trimWith (width : list ascii -> nat) (fuel : nat) (bs : list ascii)
  : list ascii :=
  match fuel with
  | O => bs
  | Datatypes.S fuel' =>
      match width bs with
      | O => bs
      | n => trimWith width fuel' (drop n bs)
      end
  end.

(** [strings.TrimSpace]: all leading and trailing white space removed,
    as defined by Unicode. *)
Definition TrimSpace (s : string) : string :=
  let bs := list_ascii_of_string s in
  let left := trimWith spaceAtHead (length bs) bs in
  let right := trimWith spaceAtEnd (length left) (rev left) in
  string_of_list_ascii (rev right).

End Console.

(** The four lines [getProjectDetails] reads from the console. *)
Record ConsoleLines : Type := {
  nameLine : string;
  pathLine : string;
  foldersLine : string;
  filesLine : string
}.

(** A comma separated list as [getProjectDetails] reads it: nothing for
    an empty line, else the fields with the white space around each
    removed. *)
Definition splitList (line : string) : list string :=
  if (0 <? String.length line)%nat
  then map Console.TrimSpace (Console.Split line ","%char)
  else [].

(** [getProjectDetails]; name and path are taken as typed. *)
Definition getProjectDetails (c : ConsoleLines) : ProjectDetails :=
  {| projectName := nameLine c; path := pathLine c;
     exclude := splitList (foldersLine c);
     excludeFiles := splitList (filesLine c) |}.

(* ===================================================================== *)
(** * [indexCodebase] from its argument, and [reindexCodebase] *)
(* ===================================================================== *)

(** The zero value [ProjectConfig{}]. *)
Definition emptyProjectConfig : ProjectConfig :=
  {| ProjectName := ""; ProjectPath := ""; ExcludeFolders := [];
     ExcludeFiles := []; LastUpdated := zeroTime; TotalIndexedFiles := 0;
     TotalFailedFiles := 0 |}.

(** [loadProjectConfig(projectName)]: the zero value and no error when
    the file does not exist; an error ([None]) when it cannot be read or
    parsed. *)
Definition loadProjectConfig (files : gmap string ProjectConfig) (readable : bool)
           (projectName : string) : option ProjectConfig :=
  match files !! projectName with
  | None => Some emptyProjectConfig
  | Some pc => if readable then Some pc else None
  end.

(** What the environment answers during a call of
    [indexCodebase(reindexProject)]: the console, whether the project
    configuration can be read, the file system by path, and the answers
    of the run (its [tree] and [loadedConfig] are taken from here). *)
Record IndexAnswers : Type := {
  console : ConsoleLines;
  configReadable : bool;
  fileSystem : string -> Entry;
  run : RunAnswers
}.

(** The project of a call: from the stored configuration when a project
    is named and its configuration loads, else from the console. *)
Definition resolveProject (reindexProject : string)
           (loaded : option ProjectConfig) (c : ConsoleLines) : ProjectDetails :=
  if String.eqb reindexProject "" then getProjectDetails c
  else
    match loaded with
    | None => getProjectDetails c
    | Some pc =>
        {| projectName := ProjectName pc; path := ProjectPath pc;
           exclude := ExcludeFolders pc; excludeFiles := ExcludeFiles pc |}
    end.

Definition withFileSystem (ra : RunAnswers) (t : Entry)
           (loaded : option ProjectConfig) : RunAnswers :=
  {| tree := t; loadedConfig := loaded; nowFirstSave := nowFirstSave ra;
     saveFirstOk := saveFirstOk ra; nowBegin := nowBegin ra;
     sensorsErr := sensorsErr ra; perFile := perFile ra;
     nowLastSave := nowLastSave ra; saveLastOk := saveLastOk ra;
     store := store ra |}.

(** [indexCodebase(reindexProject)], whole: the project is resolved,
    then the run proceeds as [indexCodebase] above describes. Both loads
    of the project configuration read the same file. *)
Definition indexCodebaseCall (cfg : Config) (reindexProject : string)
           (ia : IndexAnswers) (w : World) : RunResult :=
  let loaded := loadProjectConfig (configFiles w) (configReadable ia) reindexProject in
  let pd := resolveProject reindexProject loaded (console ia) in
  let w0 :=
    if String.eqb reindexProject "" then w
    else withConfig w (default emptyProjectConfig loaded) (configFiles w) in
  indexCodebase cfg pd (withFileSystem (run ia) (fileSystem ia (path pd)) loaded) w0.

(** What the environment answers during [reindexCodebase]. *)
Record ReindexAnswers : Type := {
  listed : option (list string);  (* listProjects(DocsDir) *)
  selectedIndex : Z;              (* what Sscanf leaves of the choice; 0 if no number *)
  confirmLine : string;           (* the answer to "Delete ALL data ... (y/n)" *)
  removeDocsOk : bool;            (* os.RemoveAll(docsPath) *)
  deleteHashesOk : bool;          (* the DELETE statement *)
  indexing : IndexAnswers
}.

(** How a call of [reindexCodebase] ends. *)
Inductive ReindexResult : Type :=
| ReindexFailed (w : World) (msg : string)  (* an error before indexing *)
| NothingToReindex                          (* no project: nil *)
| IndexOutOfRange                           (* projects[selectedIndex-1] panics *)
| Reindexed (selected : string) (before : World) (r : RunResult).

(** [strings.ToLower(text) == "y"]. *)
Definition confirmed (text : string) : bool :=
  String.eqb text "y" || String.eqb text "Y".

(** The files left by [os.RemoveAll(docsPath)]. *)
Definition removeTree (docsPath : string) (files : gmap string string)
  : gmap string string :=
  filter (fun entry => below docsPath entry.1 = false /\ entry.1 <> docsPath) files.

(** The project configurations left when the directory of [project] is
    removed: its own, and those of projects kept below it. *)
Definition removeConfigs (project : string) (files : gmap string ProjectConfig)
  : gmap string ProjectConfig :=
  filter (fun entry => below project entry.1 = false /\ entry.1 <> project) files.

(** [DELETE FROM file_hashes WHERE file_path LIKE pattern], for the
    database's [LIKE] operator [like pattern text]. *)
Definition deleteLike (like : string -> string -> bool) (pattern : string)
           (table : gmap string string) : gmap string string :=
  filter (fun row => like pattern row.1 = false) table.

Definition withFiles (w : World) (docs : gmap string string)
           (table : gmap string string) (configs : gmap string ProjectConfig) : World :=
  {| vectorDB := vectorDB w; storeDir := storeDir w; file_hashes := table;
     hashDBFile := hashDBFile w;
     docFiles := docs; projectConfig := projectConfig w; configFiles := configs |}.

(** [reindexCodebase]. The hash rows are deleted by the path of
    [ca.projectConfig], the configuration the assistant holds at the
    time of the call. *)
Definition reindexCodebase (like : string -> string -> bool) (cfg : Config)
           (a : ReindexAnswers) (w : World) : ReindexResult :=
  match listed a with
  | None => ReindexFailed w "listProjects"
  | Some [] => NothingToReindex
  | Some projects =>
      if (selectedIndex a <? 1) || (Z.of_nat (length projects) <? selectedIndex a)
      then IndexOutOfRange
      else
        let selectedProject :=
          nth (Z.to_nat (selectedIndex a - 1)) projects "" in
        if confirmed (confirmLine a) then
          let docsPath := Filepath.Join (DocsDir cfg) selectedProject in
          if negb (removeDocsOk a) then ReindexFailed w "RemoveAll"
          else
            let w1 := withFiles w (removeTree docsPath (docFiles w)) (file_hashes w)
                                (removeConfigs selectedProject (configFiles w)) in
            if negb (deleteHashesOk a) then
              ReindexFailed w1 "failed to delete file hash entries from DB"
            else
              let pattern := Filepath.Join (ProjectPath (projectConfig w)) "%" in
              let w2 := withFiles w1 (docFiles w1)
                                  (deleteLike like pattern (file_hashes w1))
                                  (configFiles w1) in
              Reindexed selectedProject w2
                        (indexCodebaseCall cfg selectedProject (indexing a) w2)
        else
          Reindexed selectedProject w
                    (indexCodebaseCall cfg selectedProject (indexing a) w)
  end.

(* ===================================================================== *)
(** * Specification predicates *)
(* ===================================================================== *)

(** [Reached excludeDirs q target p e]: the walk that starts at entry [e]
    with path [p] comes to entry [target] at path [q] through listable
    directories none of whose paths contains an excluded substring. *)
Inductive Reached (excludeDirs : list string) (q : string) (target : Entry)
  : string -> Entry -> Prop :=
| reached_here : Reached excludeDirs q target q target
| reached_below p n es c :
    excludedDir excludeDirs p = false ->
    c ∈ es ->
    Reached excludeDirs q target (Filepath.Join p (entry_name c)) c ->
    Reached excludeDirs q target p (Dir n true es).

(** What the walk of one subtree contributes to the list of files: the
    files added, all of them reached and accepted; every reached and
    accepted file, unless the walk broke off with an error; [SkipDir]
    from excluded directories only. *)
Definition contributes (excludeDirs excludeFiles : list string)
           (p : string) (e : Entry) (files : list string)
           (r : list string * option error) : Prop :=
  exists new,
    r.1 = (files ++ new)%list /\
    (forall q, q ∈ new ->
       exists n, Reached excludeDirs q (File n) p e /\
                 excludedFile excludeFiles q = false /\
                 sourceExtension (Filepath.Ext q) = true) /\
    match r.2 with
    | Some (IOError _) => True
    | Some SkipDir =>
        entry_is_dir e = true /\ new = [] /\ excludedDir excludeDirs p = true
    | None =>
        forall q n, Reached excludeDirs q (File n) p e ->
                    excludedFile excludeFiles q = false ->
                    sourceExtension (Filepath.Ext q) = true -> q ∈ new
    end.

(** A successful sensor reading of [t] degrees. *)
Definition reading (t : Z) : Reading :=
  {| temp := t; source := "gpu"; failed := false |}.

(** Kinds of events, for counting them in a trace. *)
Definition isBatchPause (e : Event) : bool :=
  match e with EvSleep BatchPause _ => true | _ => false end.

Definition isTimedCooldown (e : Event) : bool :=
  match e with EvSleep TimedCooldown _ => true | _ => false end.

Definition isSleep (e : Event) : bool :=
  match e with EvSleep _ _ => true | _ => false end.

Definition isGenerateComments (e : Event) : bool :=
  match e with EvGenerateComments _ _ => true | _ => false end.

Definition isWriteFile (e : Event) : bool :=
  match e with EvWriteFile _ _ _ _ => true | _ => false end.

Definition isSetFileHash (e : Event) : bool :=
  match e with EvSetFileHash _ _ _ => true | _ => false end.

Definition isRemoveAll (e : Event) : bool :=
  match e with EvRemoveAll _ => true | _ => false end.

Definition isNewPersistentDB (e : Event) : bool :=
  match e with EvNewPersistentDB _ _ => true | _ => false end.

Definition isCreateVectorStore (e : Event) : bool :=
  match e with EvCreateVectorStore _ _ => true | _ => false end.

(** The events the file loop can make. *)
Definition isLoopEvent (e : Event) : bool :=
  isSleep e || isGenerateComments e || isWriteFile e || isSetFileHash e.

(** The events of a run that touch neither documentation, hashes nor
    the vector store. *)
Definition isIdleEvent (e : Event) : bool :=
  match e with
  | EvSleep _ _ | EvSaveProjectConfig _ _ => true
  | _ => false
  end.

Definition count (kind : Event -> bool) (evs : list Event) : nat :=
  length (List.filter kind evs).

(** The timed cooldowns among [evs] last the fixed 60 seconds, and there
    are no more of them than files were processed from [st] to [st']. *)
Definition timedCooldowns (st : LoopState) (evs : list Event) (st' : LoopState) : Prop :=
  Forall (fun e => isTimedCooldown e = true -> e = EvSleep TimedCooldown (60 * Second)) evs /\
  Z.of_nat (count isTimedCooldown evs) <= processedFiles st' - processedFiles st.

(** Every [CoolDown] a file may start returns on the readings it gets. *)
Definition coolsDown (tm : TemperatureMonitor) (a : FileAnswers) : Prop :=
  coolReturned (CoolDownOn tm (preCooling a)) = true /\
  coolReturned (CoolDownOn tm (postCooling a)) = true.

(** A file is unchanged: its path relative to the root, its content hash
    and the stored hash are obtained without error, and the two hashes
    are equal. *)
Definition unchangedFile (table : gmap string string) (file : string)
           (a : FileAnswers) : Prop :=
  is_Some (relPath a) /\ hashQueryOk a = true /\
  exists h, md5 a = Some h /\ table !! file = Some h.

(** Every commit of a hash in the trace comes after a successful write
    of the documentation file of the same source file. *)
Definition commitsFollowWrites (evs : list Event) : Prop :=
  forall before file hash ok later,
    evs = (before ++ EvSetFileHash file hash ok :: later)%list ->
    exists docPath content, EvWriteFile file docPath content true ∈ before.

(** The batch pauses made between two states of the loop: one for
    every multiple of the batch size the counter of processed files
    passes, each of the fixed length. *)
Definition batchPauses (st : LoopState) (evs : list Event) (st' : LoopState) : Prop :=
  0 <= processedFiles st ->
  0 <= processedFiles st' /\
  Z.of_nat (count isBatchPause evs)
  = processedFiles st' / batchSize - processedFiles st / batchSize /\
  Forall (fun e => isBatchPause e = true -> e = EvSleep BatchPause batchPause) evs.

(** Some chip of the scan has an entry [key] with a non-zero value. *)
Definition hasReading (key : string) (chips : list Chip) : Prop :=
  exists chip v, chip ∈ chips /\ (key, v) ∈ chip /\ v <> 0.

(** Every entry the walk from [e] at [p] comes to can be examined, and
    every directory it comes to can be listed. *)
Definition allReadable (excludeDirs : list string) (p : string) (e : Entry) : Prop :=
  forall q target, Reached excludeDirs q target p e ->
    (forall n es, target <> Dir n false es) /\ (forall n, target <> Broken n).

(** What the counters and the trace gain between two states of the loop
    over [n] files. *)
Definition progress (n : Z) (st : LoopState) (evs : list Event)
           (st' : LoopState) : Prop :=
  0 <= updatedFiles st' - updatedFiles st <= n /\
  0 <= processedFiles st' - processedFiles st <= updatedFiles st' - updatedFiles st /\
  0 <= failedFiles st' - failedFiles st <= n /\
  Z.of_nat (count isGenerateComments evs) <= updatedFiles st' - updatedFiles st /\
  Z.of_nat (count isSetFileHash evs) = processedFiles st' - processedFiles st.

(** Every call made for a file succeeds, and its content hash is [h]. *)
Definition documented (a : FileAnswers) (h : string) : Prop :=
  is_Some (relPath a) /\ md5 a = Some h /\ hashQueryOk a = true /\
  mkdirOk a = true /\
  (exists code comments, sourceText a = Some code /\ generated a code = Some comments) /\
  writeOk a = true /\ setHashOk a = true.

(** The project configuration a run saves at its end. *)
Definition savedConfig (pd : ProjectDetails) (ra : RunAnswers) (st : LoopState)
  : ProjectConfig :=
  {| ProjectName := projectName pd; ProjectPath := path pd;
     ExcludeFolders := (exclude pd ++ defaultExcludes)%list;
     ExcludeFiles := excludeFiles pd; LastUpdated := nowLastSave ra;
     TotalIndexedFiles := processedFiles st; TotalFailedFiles := failedFiles st |}.

(* ===================================================================== *)
(** * A sample project *)
(* ===================================================================== *)

(** Project [demo] at [proj] with the files [a.py] and [b.py], both
    indexed by an earlier run with hashes [H1] and [H2]; another project
    [other] has a collection in the vector store. *)
Definition demoTree : Entry := Dir "proj" true [File "a.py"; File "b.py"].

Definition demoDetails : ProjectDetails :=
  {| projectName := "demo"; path := "proj"; exclude := []; excludeFiles := [] |}.

Definition noSensors : SensorScan := {| gpuPass := []; cpuPass := [] |}.

(** An instant in the year 2025. *)
Definition demoNow : Z := 63870000000 * Second.

(** The answers for one file: every call succeeds, [hashOf] gives the
    content hash and [llm] the generated documentation; processing the
    file takes [elapsed] and the sensor finds no chip. *)
Definition demoFileAfter (elapsed : Z) (hashOf : string -> string)
           (llm : string -> option string) (file : string) : FileAnswers :=
  {| nowStart := demoNow; nowCheck := demoNow; nowRemaining := demoNow;
     preScan := noSensors; preCooling := [noSensors];
     relPath := Some (Strings.TrimPrefix file "proj/");
     md5 := Some (hashOf file); hashQueryOk := true; mkdirOk := true;
     sourceText := Some ("source of " +:+ file); generated := llm;
     writeOk := true; setHashOk := true;
     nowFile := demoNow + elapsed; nowTotal := demoNow + elapsed;
     nowCool := demoNow + elapsed; nowReset := demoNow + elapsed + coolDownPeriod;
     postScan := noSensors; postCooling := [noSensors] |}.

Definition demoFile := demoFileAfter 0.

(** A configuration whose model server is not on this machine. *)
Definition remoteConfig : Config := {|
  DocsDir := "./docs";
  EmbeddingModel := "nomic-embed-text";
  CodeChatModel := "qwen2.5-coder:1.5b";
  DocumentationModel := "llama3.2:1b";
  OllamaHost := "http://10.0.0.5:11434";
  HashDBPath := "./db";
  SQLiteDBPath := "file_hashes.db";
  WebPort := "8080";
  GitBinPath := ""
|}.

Definition demoStore (reopens : bool) : StoreAnswers :=
  {| removeOk := true; removeKeepsFile := fun _ => false;
     removeKeepsCollection := fun _ => false;
     removeKeepsDocument := fun _ _ => false;
     reopenOk := reopens; docsWalkOk := true; createOk := true;
     embedOk := fun _ => true |}.

Definition demoRun (hashOf : string -> string) (llm : string -> option string)
           (reopens : bool) : RunAnswers :=
  {| tree := demoTree; loadedConfig := None; nowFirstSave := demoNow;
     saveFirstOk := true; nowBegin := demoNow; sensorsErr := false;
     perFile := demoFile hashOf llm; nowLastSave := demoNow; saveLastOk := true;
     store := demoStore reopens |}.

Definition demoDocument (rel : string) : Document :=
  {| ID := rel; Content := docContent rel "old"; Metadata := [("file_path", rel)] |}.

Definition demoWorld : World :=
  {| vectorDB := {[ "other" := {[ "x.go" := demoDocument "x.go" ]} ]};
     storeDir := {[ "other" := {[ "x.go" := demoDocument "x.go" ]} ]};
     file_hashes := {[ "proj/a.py" := "H1"; "proj/b.py" := "H2" ]};
     hashDBFile := true;
     docFiles := {[ "docs/demo/a.py.txt" := docContent "a.py" "old";
                    "docs/demo/b.py.txt" := docContent "b.py" "old";
                    "docs/other/x.go.txt" := docContent "x.go" "old" ]};
     projectConfig :=
       {| ProjectName := ""; ProjectPath := ""; ExcludeFolders := [];
          ExcludeFiles := []; LastUpdated := zeroTime; TotalIndexedFiles := 0;
          TotalFailedFiles := 0 |};
     configFiles := ∅ |}.

(** Content hashes of the sample files: unchanged, or [b.py] edited. *)
Definition hashesUnchanged (file : string) : string :=
  if String.eqb file "proj/a.py" then "H1" else "H2".

Definition hashesEdited (file : string) : string :=
  if String.eqb file "proj/a.py" then "H1" else "H2'".

Definition demoLLM (code : string) : option string := Some ("doc of " +:+ code).

Definition failingLLM (code : string) : option string := None.

(** A store directory of which [os.RemoveAll] removes nothing. *)
Definition stuckStore : StoreAnswers :=
  {| removeOk := false; removeKeepsFile := fun _ => true;
     removeKeepsCollection := fun _ => true;
     removeKeepsDocument := fun _ _ => true;
     reopenOk := true; docsWalkOk := true; createOk := true;
     embedOk := fun _ => true |}.

Definition stuckRun : RunAnswers :=
  {| tree := demoTree; loadedConfig := None; nowFirstSave := demoNow;
     saveFirstOk := true; nowBegin := demoNow; sensorsErr := false;
     perFile := demoFile hashesEdited demoLLM; nowLastSave := demoNow;
     saveLastOk := true; store := stuckStore |}.

(** A configuration that keeps documentation and hash database inside
    the store directory, and the sample world laid out for it. *)
Definition nestedConfig : Config := {|
  DocsDir := "./db/docs";
  EmbeddingModel := "nomic-embed-text";
  CodeChatModel := "qwen2.5-coder:1.5b";
  DocumentationModel := "llama3.2:1b";
  OllamaHost := "http://localhost:11434";
  HashDBPath := "./db";
  SQLiteDBPath := "./db/file_hashes.db";
  WebPort := "8080";
  GitBinPath := ""
|}.

Definition nestedWorld : World :=
  {| vectorDB := {[ "other" := {[ "x.go" := demoDocument "x.go" ]} ]};
     storeDir := {[ "other" := {[ "x.go" := demoDocument "x.go" ]} ]};
     file_hashes := {[ "proj/a.py" := "H1"; "proj/b.py" := "H2";
                       "other/x.go" := "H3" ]};
     hashDBFile := true;
     docFiles := {[ "db/docs/other/x.go.txt" := docContent "x.go" "old" ]};
     projectConfig := projectConfig demoWorld;
     configFiles :=
       {[ "other" := {| ProjectName := "other"; ProjectPath := "other";
                        ExcludeFolders := defaultExcludes; ExcludeFiles := [];
                        LastUpdated := demoNow; TotalIndexedFiles := 1;
                        TotalFailedFiles := 0 |} ]} |}.

(** The sample project on a slow machine: every file takes ten minutes. *)
Definition slowRun (llm : string -> option string) : RunAnswers :=
  {| tree := demoTree; loadedConfig := None; nowFirstSave := demoNow;
     saveFirstOk := true; nowBegin := demoNow; sensorsErr := false;
     perFile := demoFileAfter (600 * Second) hashesEdited llm;
     nowLastSave := demoNow; saveLastOk := true; store := demoStore true |}.

(** Answers of a query in which every collaborator call succeeds. *)
Definition demoQuery : QueryAnswers :=
  {| clientOk := true; embedQueryOk := true;
     nearest := fun _ documents => take 1 documents;
     chat := fun prompt => Some "answer" |}.

(** The sample project after a first run: its configuration is stored,
    with the default excludes the first run appended. *)
Definition demoConfig : ProjectConfig :=
  {| ProjectName := "demo"; ProjectPath := "proj";
     ExcludeFolders := defaultExcludes; ExcludeFiles := [];
     LastUpdated := demoNow; TotalIndexedFiles := 2; TotalFailedFiles := 0 |}.

Definition demoIndexed : World :=
  withConfig demoWorld demoConfig {[ "demo" := demoConfig ]}.

(** The file system holds the sample tree at [proj] and nothing
    elsewhere; [Lstat] of any other path fails. *)
Definition demoFileSystem (p : string) : Entry :=
  if String.eqb p "proj" then demoTree else Broken p.

Definition demoIndexAnswers : IndexAnswers :=
  {| console := {| nameLine := "demo"; pathLine := "proj";
                   foldersLine := ""; filesLine := "" |};
     configReadable := true;
     fileSystem := demoFileSystem;
     run := demoRun hashesEdited demoLLM true |}.

(** A [LIKE] operator for the patterns of this program, whose only wild
    card is a [%] at the end: the text has to start with what precedes
    it. Letter case is compared exactly. *)
Definition demoLike (pattern text : string) : bool :=
  if Strings.HasSuffix pattern "%"
  then Strings.HasPrefix text (Strings.TrimSuffix pattern "%")
  else String.eqb pattern text.

Definition demoReindex (choice : Z) (confirm : string) : ReindexAnswers :=
  {| listed := Some ["demo"; "other"]; selectedIndex := choice;
     confirmLine := confirm; removeDocsOk := true; deleteHashesOk := true;
     indexing := demoIndexAnswers |}.

(* ===================================================================== *)
(** * File discovery *)
(* ===================================================================== *)

Section EntryInduction.

Variable P : Entry -> Prop.
Hypothesis P_File : forall n, P (File n).
Hypothesis P_Broken : forall n, P (Broken n).
Hypothesis P_Dir : forall n r es, Forall P es -> P (Dir n r es).

Fixpoint Entry_nested_ind (e : Entry) : P e :=
  match e with
  | File n => P_File n
  | Broken n => P_Broken n
  | Dir n r es =>
      P_Dir n r es
        ((fix all (l : list Entry) : Forall P l :=
            match l with
            | [] => List.Forall_nil P
            | c :: l' => List.Forall_cons P c l' (Entry_nested_ind c) (all l')
            end) es)
  end.

End EntryInduction.

Lemma excludedFile_false exf p :
  excludedFile exf p = false <-> Filepath.Base p ∉ exf.
Proof.
  unfold excludedFile. induction exf as [|x exf IH]; simpl.
  - split; [intros _ H; inversion H | reflexivity].
  - rewrite orb_false_iff, IH, not_elem_of_cons.
    destruct (String.eqb_spec (Filepath.Base p) x); intuition congruence.
Qed.

Lemma excludedDir_false dirs p :
  excludedDir dirs p = false <-> forall d, d ∈ dirs -> Strings.Contains p d = false.
Proof.
  unfold excludedDir. induction dirs as [|x dirs IH]; simpl.
  - split; [intros _ d H; inversion H | reflexivity].
  - rewrite orb_false_iff, IH. split.
    + intros [Hx Hd] d [->|Hin]%elem_of_cons; auto.
    + intros H. split; [apply H; left | intros d Hd; apply H; right; exact Hd].
Qed.

Section ParseDirectory.

Variables excludeDirs excludeFiles : list string.

Let fn := parseDirectoryFn excludeDirs excludeFiles.

Lemma reached_file_inv q n p m :
  Reached excludeDirs q (File n) p (File m) -> q = p /\ n = m.
Proof. inversion 1; subst; auto. Qed.

Lemma reached_broken_inv q n p m :
  ~ Reached excludeDirs q (File n) p (Broken m).
Proof. inversion 1. Qed.

Lemma reached_dir_inv q n p m r es :
  Reached excludeDirs q (File n) p (Dir m r es) ->
  r = true /\ excludedDir excludeDirs p = false /\
  exists c, c ∈ es /\
            Reached excludeDirs q (File n) (Filepath.Join p (entry_name c)) c.
Proof. inversion 1; subst; eauto. Qed.

Lemma walkNames_contributes p names :
  Forall (fun c => forall p' files, contributes excludeDirs excludeFiles p' c files (Walker.walk fn p' c files)) names ->
  forall files,
  exists new,
    (Walker.walkNames (Walker.walk fn) p names files).1 = (files ++ new)%list /\
    (forall q, q ∈ new ->
       exists c n, c ∈ names /\
         Reached excludeDirs q (File n) (Filepath.Join p (entry_name c)) c /\
         excludedFile excludeFiles q = false /\
         sourceExtension (Filepath.Ext q) = true) /\
    match (Walker.walkNames (Walker.walk fn) p names files).2 with
    | Some (IOError _) => True
    | Some SkipDir => False
    | None =>
        forall c q n, c ∈ names ->
          Reached excludeDirs q (File n) (Filepath.Join p (entry_name c)) c ->
          excludedFile excludeFiles q = false ->
          sourceExtension (Filepath.Ext q) = true -> q ∈ new
    end.
Proof.
  induction 1 as [|c rest Hc _ IH]; intros files.
  - exists []. simpl. rewrite app_nil_r. repeat split.
    + intros q Hq. inversion Hq.
    + intros c q n Hc. inversion Hc.
  - simpl.
    destruct (Hc (Filepath.Join p (entry_name c)) files) as (new1 & E1 & S1 & C1).
    destruct (Walker.walk fn (Filepath.Join p (entry_name c)) c files)
      as [st2 err2] eqn:Ew. simpl in E1, C1. subst st2.
    assert (Hgo :
      (err2 = None \/
       (err2 = Some SkipDir /\ new1 = [] /\
        excludedDir excludeDirs (Filepath.Join p (entry_name c)) = true /\
        entry_is_dir c = true)) ->
      exists new,
        (Walker.walkNames (Walker.walk fn) p rest (files ++ new1)%list).1
          = (files ++ new)%list /\
        (forall q, q ∈ new ->
          exists c0 n, c0 ∈ c :: rest /\
            Reached excludeDirs q (File n) (Filepath.Join p (entry_name c0)) c0 /\
            excludedFile excludeFiles q = false /\
            sourceExtension (Filepath.Ext q) = true) /\
        match (Walker.walkNames (Walker.walk fn) p rest (files ++ new1)%list).2 with
        | Some (IOError _) => True
        | Some SkipDir => False
        | None =>
            forall c0 q n, c0 ∈ c :: rest ->
              Reached excludeDirs q (File n) (Filepath.Join p (entry_name c0)) c0 ->
              excludedFile excludeFiles q = false ->
              sourceExtension (Filepath.Ext q) = true -> q ∈ new
        end).
    { intros Herr.
      destruct (IH (files ++ new1)%list) as (new2 & E2 & S2 & C2).
      exists (new1 ++ new2)%list. rewrite E2, app_assoc. split; [reflexivity|]. split.
      - intros q [Hq|Hq]%elem_of_app.
        + destruct (S1 q Hq) as (n & ? & ? & ?). exists c, n. rewrite elem_of_cons. auto.
        + destruct (S2 q Hq) as (c0 & n & ? & ? & ? & ?). exists c0, n.
          rewrite elem_of_cons. auto.
      - destruct (Walker.walkNames (Walker.walk fn) p rest (files ++ new1)%list).2
          as [[|msg]|]; auto.
        intros c0 q n [->|Hin]%elem_of_cons Hr Hf Hx; apply elem_of_app.
        + left. destruct Herr as [->|(-> & -> & Hex & Hd)].
          * eauto.
          * destruct c; try discriminate.
            apply reached_dir_inv in Hr as (_ & Hex' & _). congruence.
        + right. eauto. }
    destruct err2 as [[|msg]|].
    + destruct C1 as (Hd & -> & Hex). destruct c; try discriminate. apply Hgo. auto.
    + exists new1. destruct c; simpl; (split; [reflexivity|]); (split; [|exact I]);
        intros q Hq; destruct (S1 q Hq) as (n & ? & ? & ?);
        eexists _, n; rewrite elem_of_cons; eauto.
    + destruct c; apply Hgo; auto.
Qed.

Lemma walk_contributes e :
  forall p files,
    contributes excludeDirs excludeFiles p e files (Walker.walk fn p e files).
Proof.
  induction e as [n|n|n r es IH] using Entry_nested_ind; intros p files.
  - (* a file: tested against the excluded names, then the extensions *)
    simpl. unfold fn, parseDirectoryFn. simpl.
    destruct (excludedFile excludeFiles p) eqn:Hf;
      [|destruct (sourceExtension (Filepath.Ext p)) eqn:Hx].
    + exists []. simpl. rewrite app_nil_r. repeat split.
      * intros q Hq. inversion Hq.
      * intros q m [-> _]%reached_file_inv. congruence.
    + exists [p]. simpl. repeat split.
      * intros q ->%list_elem_of_singleton. exists n. repeat split; auto. constructor.
      * intros q m [-> _]%reached_file_inv _ _. apply list_elem_of_singleton. reflexivity.
    + exists []. simpl. rewrite app_nil_r. repeat split.
      * intros q Hq. inversion Hq.
      * intros q m [-> _]%reached_file_inv. congruence.
  - (* an entry that cannot be examined: the error ends the walk *)
    exists []. simpl. rewrite app_nil_r. repeat split. intros q Hq. inversion Hq.
  - (* a directory *)
    simpl. unfold fn at 1. unfold parseDirectoryFn. destruct r; simpl.
    + destruct (excludedDir excludeDirs p) eqn:Hex.
      * exists []. simpl. rewrite app_nil_r. repeat split; try exact Hex.
        intros q Hq. inversion Hq.
      * destruct (walkNames_contributes p es IH files) as (new & E & S1 & C1).
        exists new. split; [exact E|]. split.
        -- intros q Hq. destruct (S1 q Hq) as (c & m & Hc & Hr & ? & ?).
           exists m. repeat split; auto. econstructor; eauto.
        -- destruct (Walker.walkNames (Walker.walk fn) p es files).2 as [[|msg]|];
             [contradiction|exact I|].
           intros q m (_ & _ & c & Hc & Hr)%reached_dir_inv. eauto.
    + exists []. simpl. rewrite app_nil_r. repeat split. intros q Hq. inversion Hq.
Qed.

(** A directory whose path contains an excluded substring adds nothing
    to the list, whatever lies below it. *)
Lemma walk_pruned p n r es files :
  excludedDir excludeDirs p = true ->
  (Walker.walk fn p (Dir n r es) files).1 = files.
Proof.
  intros Hex. simpl. unfold fn at 1. unfold parseDirectoryFn.
  destruct r; simpl; [rewrite Hex|]; reflexivity.
Qed.

End ParseDirectory.

(** C3, as stated, fails: the excluded-directory test looks at directory
    paths only. With the default excludes of a run, [proj/logger.go] is
    listed although its path contains ["/log"]. *)
Lemma parseDirectory_lists_path_with_excluded_substring :
  ~ (forall tree root excludeDirs excludeFiles f,
        f ∈ (parseDirectory tree root excludeDirs excludeFiles).1 ->
        excludedDir excludeDirs f = false).
Proof.
  intros H.
  specialize (H (Dir "proj" true [File "logger.go"]) "proj" defaultExcludes []
                "proj/logger.go").
  assert (Hin : "proj/logger.go" ∈
            (parseDirectory (Dir "proj" true [File "logger.go"]) "proj"
                            defaultExcludes []).1).
  { vm_compute. apply list_elem_of_singleton. reflexivity. }
  specialize (H Hin). vm_compute in H. discriminate.
Qed.

(** C3 (amended). Every file listed by [parseDirectory] has a basename
    that is no excluded-file entry and an extension of the allow-list,
    and is reached from the root through directories (the root included)
    whose full paths contain no excluded substring. A directory whose
    full path contains an excluded substring contributes nothing: it is
    pruned with its whole subtree. When the walk reports no error, a file
    reached through such directories whose basename is not excluded is
    listed if and only if its extension is in the allow-list. *)
Theorem parseDirectory_filter tree root excludeDirs excludeFiles :
  let result := parseDirectory tree root excludeDirs excludeFiles in
  (forall f, f ∈ result.1 ->
     (Filepath.Base f ∉ excludeFiles) /\
     sourceExtension (Filepath.Ext f) = true /\
     exists n, Reached excludeDirs f (File n) root tree) /\
  (forall p n r es files,
     excludedDir excludeDirs p = true ->
     (Walker.walk (parseDirectoryFn excludeDirs excludeFiles) p (Dir n r es) files).1
     = files) /\
  (result.2 = None ->
   forall f n, Reached excludeDirs f (File n) root tree ->
     Filepath.Base f ∉ excludeFiles ->
     (f ∈ result.1 <-> sourceExtension (Filepath.Ext f) = true)).
Proof.
  intros result.
  destruct (walk_contributes excludeDirs excludeFiles tree root [])
    as (new & E & S1 & C1).
  assert (Ef : result.1 = new).
  { unfold result, parseDirectory, Walker.Walk.
    destruct (Walker.walk _ root tree []) as [st err]. exact E. }
  assert (Ee : result.2 = None ->
               forall q n, Reached excludeDirs q (File n) root tree ->
                 excludedFile excludeFiles q = false ->
                 sourceExtension (Filepath.Ext q) = true -> q ∈ new).
  { unfold result, parseDirectory, Walker.Walk.
    destruct (Walker.walk _ root tree []) as [st [[|msg]|]]; simpl in *.
    - intros _ q n Hr. destruct C1 as (Hd & _ & Hex).
      destruct tree; try discriminate.
      apply reached_dir_inv in Hr as (_ & Hex' & _). congruence.
    - discriminate.
    - intros _. exact C1. }
  split; [|split].
  - intros f Hf. rewrite Ef in Hf. destruct (S1 f Hf) as (n & Hr & Hx & He).
    apply excludedFile_false in Hx. eauto.
  - intros p n r es files. apply walk_pruned.
  - intros Hnone f n Hr Hb. rewrite Ef. split.
    + intros Hf. destruct (S1 f Hf) as (_ & _ & _ & He). exact He.
    + intros He. apply (Ee Hnone f n Hr); [apply excludedFile_false; exact Hb | exact He].
Qed.

(* ===================================================================== *)
(** * The temperature monitor *)
(* ===================================================================== *)

Lemma CoolDown_waits tm r rest :
  failed r = false -> safeTemp tm <= temp r ->
  CoolDown tm (r :: rest) = addSleep (waitDuration tm (temp r)) (CoolDown tm rest).
Proof.
  intros Hf Ht. simpl. rewrite Hf.
  destruct (temp r <? safeTemp tm) eqn:E; [apply Z.ltb_lt in E; lia | reflexivity].
Qed.

(** While every reading is a successful one at or above the safe
    threshold, [CoolDown] stays in its loop. *)
Lemma CoolDown_keeps_cooling tm readings :
  Forall (fun r => failed r = false /\ safeTemp tm <= temp r) readings ->
  CoolDown tm readings
  = StillCooling (map (fun r => waitDuration tm (temp r)) readings).
Proof.
  induction 1 as [|r rest [Hf Ht] _ IH]; [reflexivity|].
  rewrite CoolDown_waits, IH by assumption. reflexivity.
Qed.

Lemma CoolDown_after_waiting tm readings more :
  Forall (fun r => failed r = false /\ safeTemp tm <= temp r) readings ->
  CoolDown tm (readings ++ more)
  = fold_right addSleep (CoolDown tm more)
               (map (fun r => waitDuration tm (temp r)) readings).
Proof.
  induction 1 as [|r rest [Hf Ht] _ IH]; [reflexivity|].
  simpl app. rewrite CoolDown_waits, IH by assumption. reflexivity.
Qed.

Lemma addSleeps_Returned sleeps rest :
  fold_right addSleep (Returned [] rest) sleeps = Returned sleeps rest.
Proof.
  induction sleeps as [|d sleeps IH]; [reflexivity|].
  simpl. rewrite IH. reflexivity.
Qed.

(** C6. With the safe threshold not above the critical one, on readings
    at or above the critical threshold followed by one reading below the
    safe threshold [CoolDown] returns exactly when it has read that last
    reading: it is still in its loop after any number of the hot
    readings, and it reads nothing after the cool one. It does not return
    either while the readings are in the warning band. *)
Theorem CoolDown_returns_at_safe_reading tm hot cold rest :
  safeTemp tm <= criticalTemp tm ->
  Forall (fun r => failed r = false /\ criticalTemp tm <= temp r) hot ->
  failed cold = false ->
  temp cold < safeTemp tm ->
  CoolDown tm (hot ++ cold :: rest)
  = Returned (map (fun r => waitDuration tm (temp r)) hot) rest /\
  (forall k, coolReturned (CoolDown tm (take k hot)) = false) /\
  (forall warm,
      Forall (fun r => failed r = false /\
                       safeTemp tm <= temp r /\ temp r < criticalTemp tm) warm ->
      coolReturned (CoolDown tm (hot ++ warm)) = false).
Proof.
  intros Hsc Hhot Hf Hcold.
  assert (Hwait : Forall (fun r => failed r = false /\ safeTemp tm <= temp r) hot).
  { eapply Forall_impl; [exact Hhot|]. simpl. intros r [? ?]. split; [assumption|lia]. }
  split; [|split].
  - rewrite CoolDown_after_waiting by exact Hwait.
    simpl. rewrite Hf.
    destruct (temp cold <? safeTemp tm) eqn:E; [|apply Z.ltb_ge in E; lia].
    apply addSleeps_Returned.
  - intros k. rewrite CoolDown_keeps_cooling; [reflexivity|].
    apply Forall_take. exact Hwait.
  - intros warm Hwarm. rewrite CoolDown_keeps_cooling; [reflexivity|].
    apply Forall_app. split; [exact Hwait|].
    eapply Forall_impl; [exact Hwarm|]. simpl. intros r (? & ? & ?). auto.
Qed.

(** C6 on the run's monitor: readings 90 and 80, then 64. *)
Lemma CoolDown_returns_at_safe_reading_witness :
  let tm := NewTemperatureMonitor 80 65 false false in
  safeTemp tm <= criticalTemp tm /\
  Forall (fun r => failed r = false /\ criticalTemp tm <= temp r)
         [reading 90; reading 80] /\
  failed (reading 64) = false /\
  temp (reading 64) < safeTemp tm /\
  CoolDown tm ([reading 90; reading 80] ++ reading 64 :: [reading 99])
  = Returned [waitDuration tm 90; waitDuration tm 80] [reading 99].
Proof.
  simpl.
  assert (H1 : 65 <= 80) by lia.
  assert (H2 : Forall (fun r => failed r = false /\ 80 <= temp r)
                      [reading 90; reading 80])
    by (repeat constructor; simpl; lia).
  assert (H3 : 64 < 65) by lia.
  split; [exact H1|]. split; [exact H2|]. split; [reflexivity|]. split; [exact H3|].
  exact (proj1 (CoolDown_returns_at_safe_reading
                  (NewTemperatureMonitor 80 65 false false)
                  [reading 90; reading 80] (reading 64) [reading 99]
                  H1 H2 eq_refl H3)).
Defined.

(** Above the critical threshold the wait is 5 seconds plus the excess
    over the safe threshold (when that fits a Go [int]). *)
Lemma waitSec_above_critical tm t :
  criticalTemp tm < t ->
  - 2 ^ 61 <= safeTemp tm <= 2 ^ 61 -> - 2 ^ 61 <= t <= 2 ^ 61 ->
  waitSec tm t = 5 + (t - safeTemp tm).
Proof.
  intros Hc Hs Ht. unfold waitSec.
  destruct (criticalTemp tm <? t) eqn:E; [|apply Z.ltb_ge in E; lia].
  unfold wrap64.
  change (2 ^ 61) with 2305843009213693952 in *.
  change (2 ^ 63) with 9223372036854775808.
  change (2 ^ 64) with 18446744073709551616.
  rewrite (Z.mod_small (t - safeTemp tm + 9223372036854775808)) by lia.
  rewrite Z.mod_small by lia. lia.
Qed.

(** C8 (the code at the critical threshold itself). The monitor of a run
    has thresholds 80 and 65. A reading of exactly 80 is at the critical
    threshold, yet [CoolDown] waits the flat 2 seconds for it, not 5
    seconds plus the 15 degrees above the safe threshold; one degree more
    and the wait is 5 + 16 seconds. *)
Theorem waitSec_at_critical_threshold :
  let tm := NewTemperatureMonitor 80 65 false false in
  criticalTemp tm <= 80 /\
  waitSec tm 80 = 2 /\
  waitSec tm 80 <> 5 + (80 - safeTemp tm) /\
  waitSec tm 81 = 5 + (81 - safeTemp tm) /\
  CoolDown tm [reading 80; reading 81; reading 64]
  = Returned [2 * Second; 21 * Second] [].
Proof.
  simpl. repeat split; try reflexivity; try lia.
  vm_compute. discriminate.
Qed.

(* ===================================================================== *)
(** * The indexing loop *)
(* ===================================================================== *)

Section LoopRelation.

Variable tm : TemperatureMonitor.
Variable projectDocsDir : string.

(** A relation between the state before, the events made, and the
    state after, that composes along the trace. *)
Variable R : LoopState -> list Event -> LoopState -> Prop.

Hypothesis R_refl : forall st, R st [] st.
Hypothesis R_trans :
  forall st1 evs1 st2 evs2 st3,
    R st1 evs1 st2 -> R st2 evs2 st3 -> R st1 (evs1 ++ evs2)%list st3.

Lemma processFile_rel file a st :
  R st (preCooldown tm a st).1 st ->
  (forall st, R st (documentFile projectDocsDir file a st).1.1
                (documentFile projectDocsDir file a st).1.2) ->
  (forall st, R st (postCooldown tm a st).1.1 (postCooldown tm a st).1.2) ->
  R st (processFile tm projectDocsDir file a st).1.1
       (processFile tm projectDocsDir file a st).1.2.
Proof.
  intros Hpre Hdoc Hpost. unfold processFile.
  destruct (preCooldown tm a st) as [evs1 returned1]. simpl in Hpre.
  destruct returned1; simpl; [|exact Hpre].
  specialize (Hdoc st).
  destruct (documentFile projectDocsDir file a st) as [[evs2 st2] documented].
  simpl in Hdoc.
  destruct documented; simpl; [|eapply R_trans; eassumption].
  specialize (Hpost st2).
  destruct (postCooldown tm a st2) as [[evs3 st3] returned3]. simpl in *.
  eapply R_trans; [exact Hpre|]. eapply R_trans; eassumption.
Qed.

Lemma indexFiles_rel work :
  (forall file a st, (file, a) ∈ work -> R st (preCooldown tm a st).1 st) ->
  (forall file a st, (file, a) ∈ work ->
     R st (documentFile projectDocsDir file a st).1.1
          (documentFile projectDocsDir file a st).1.2) ->
  (forall file a st, (file, a) ∈ work ->
     R st (postCooldown tm a st).1.1 (postCooldown tm a st).1.2) ->
  forall st,
    R st (indexFiles tm projectDocsDir work st).1.1
         (indexFiles tm projectDocsDir work st).1.2.
Proof.
  induction work as [|[file a] rest IH]; intros Hpre Hdoc Hpost st.
  - simpl. apply R_refl.
  - simpl.
    assert (Hstep : R st (processFile tm projectDocsDir file a st).1.1
                         (processFile tm projectDocsDir file a st).1.2).
    { apply processFile_rel.
      - apply (Hpre file). left.
      - intros st0. apply Hdoc. left.
      - intros st0. apply (Hpost file). left. }
    destruct (processFile tm projectDocsDir file a st) as [[evs st1] returned].
    simpl in Hstep. destruct returned; simpl; [|exact Hstep].
    assert (Hrest : R st1 (indexFiles tm projectDocsDir rest st1).1.1
                          (indexFiles tm projectDocsDir rest st1).1.2).
    { apply IH.
      - intros f b st0 Hin. apply (Hpre f). right. exact Hin.
      - intros f b st0 Hin. apply Hdoc. right. exact Hin.
      - intros f b st0 Hin. apply (Hpost f). right. exact Hin. }
    destruct (indexFiles tm projectDocsDir rest st1) as [[evs' st2] done].
    simpl in *. eapply R_trans; eassumption.
Qed.

End LoopRelation.

(** The sleeps of a cooldown check are sleeps. *)
Lemma criticalCheck_sleeps tm scan cooling :
  Forall (fun e => isSleep e = true /\ isBatchPause e = false)
         (criticalCheck tm scan cooling).1.
Proof.
  unfold criticalCheck.
  destruct (criticalTemp tm <=? temp (getTemperature tm scan)); simpl; [|constructor].
  apply Forall_forall. intros e (d & -> & _)%list_elem_of_fmap. auto.
Qed.

Lemma preCooldown_sleeps tm a st :
  Forall (fun e => isSleep e = true /\ isBatchPause e = false) (preCooldown tm a st).1.
Proof.
  unfold preCooldown.
  destruct (Since (nowCheck a) (lastCoolDown st) <? coolDownPeriod); [|constructor].
  destruct (useFallback tm); [repeat constructor|apply criticalCheck_sleeps].
Qed.

Lemma postCooldown_sleeps tm a st :
  Forall (fun e => isSleep e = true /\ isBatchPause e = false) (postCooldown tm a st).1.1.
Proof.
  unfold postCooldown.
  destruct (_ || _); [repeat constructor|].
  pose proof (criticalCheck_sleeps tm (postScan a) (postCooling a)) as H.
  destruct (criticalCheck tm (postScan a) (postCooling a)). exact H.
Qed.

(** The check after a file leaves counters and stores alone. *)
Lemma postCooldown_state tm a st :
  let st' := (postCooldown tm a st).1.2 in
  processedFiles st' = processedFiles st /\ failedFiles st' = failedFiles st /\
  updatedFiles st' = updatedFiles st /\ hashes st' = hashes st /\ docs st' = docs st.
Proof.
  unfold postCooldown.
  destruct (_ || _); simpl; [auto 6|].
  destruct (criticalCheck tm (postScan a) (postCooling a)); simpl; auto 6.
Qed.

Lemma count_app kind evs1 evs2 :
  count kind (evs1 ++ evs2) = (count kind evs1 + count kind evs2)%nat.
Proof. unfold count. rewrite List.filter_app, length_app. reflexivity. Qed.

Lemma count_none kind evs :
  Forall (fun e => kind e = false) evs -> count kind evs = 0%nat.
Proof.
  unfold count. induction 1 as [|e evs He _ IH]; [reflexivity|].
  simpl. rewrite He. exact IH.
Qed.

Lemma count_cons_other kind e evs :
  kind e = false -> count kind (e :: evs) = count kind evs.
Proof. intros H. unfold count. simpl. rewrite H. reflexivity. Qed.

(** Unfold the body of the loop and split on every test in it. *)
Ltac document_cases :=
  unfold documentFile, getFileHash;
  repeat (case_match; simpl in *; simplify_eq; try discriminate).

Lemma batch_step p :
  0 <= p ->
  (p + 1) / batchSize - p / batchSize
  = if Z.rem (p + 1) batchSize =? 0 then 1 else 0.
Proof.
  intros Hp. unfold batchSize.
  rewrite Z.rem_mod_nonneg by lia.
  destruct (((p + 1) mod 10) =? 0) eqn:E.
  - apply Z.eqb_eq in E. Z.to_euclidean_division_equations. lia.
  - apply Z.eqb_neq in E. Z.to_euclidean_division_equations. lia.
Qed.

Lemma batchPauses_sleeps st evs :
  Forall (fun e => isSleep e = true /\ isBatchPause e = false) evs ->
  batchPauses st evs st.
Proof.
  intros H Hp. split; [exact Hp|]. split.
  - rewrite count_none; [lia|].
    eapply Forall_impl; [exact H|]. simpl. tauto.
  - eapply Forall_impl; [exact H|]. simpl. intros e [_ ->]. discriminate.
Qed.

Lemma batchPauses_documentFile dir file a st :
  batchPauses st (documentFile dir file a st).1.1 (documentFile dir file a st).1.2.
Proof.
  intros Hp.
  pose proof (batch_step (processedFiles st) Hp) as Hstep.
  document_cases;
    try (split; [lia|]; split; [unfold count; simpl; lia|];
         repeat constructor; simpl; congruence).
  all: unfold count; simpl; split; [lia|]; split;
    [rewrite Hstep; reflexivity|repeat constructor; simpl; congruence].
Qed.

Lemma batchPauses_indexFiles tm dir work st :
  batchPauses st (indexFiles tm dir work st).1.1 (indexFiles tm dir work st).1.2.
Proof.
  apply indexFiles_rel.
  - intros st0 Hp. split; [exact Hp|]. split; [|constructor].
    change (count isBatchPause []) with 0%nat. lia.
  - intros st1 evs1 st2 evs2 st3 H12 H23 Hp.
    destruct (H12 Hp) as (Hp2 & E12 & F12).
    destruct (H23 Hp2) as (Hp3 & E23 & F23).
    split; [exact Hp3|]. split.
    + rewrite count_app, Nat2Z.inj_add, E12, E23. lia.
    + apply Forall_app. auto.
  - intros file a st0 _. apply batchPauses_sleeps, preCooldown_sleeps.
  - intros file a st0 _. apply batchPauses_documentFile.
  - intros file a st0 _ Hp.
    pose proof (postCooldown_state tm a st0) as (Ep & _).
    pose proof (postCooldown_sleeps tm a st0) as Hs.
    simpl in Ep. rewrite Ep.
    destruct (batchPauses_sleeps st0 _ Hs Hp) as (_ & E & F).
    split; [exact Hp|]. split; [rewrite E; lia|exact F].
Qed.

(** Split a run into its ways through [indexCodebase]: the walk fails;
    the loop is left in a cooldown; the loop ends and nothing was updated;
    the loop ends and the store is rebuilt. [Hloop] names the equation of
    the loop. *)
Ltac run_cases Hloop :=
  unfold indexCodebase;
  destruct (runFiles _ _) as [? [?|]] eqn:?; simpl;
  [|
   match goal with
   | |- context [indexFiles ?tm ?dir ?work ?st] =>
       destruct (indexFiles tm dir work st) as [[? ?] [|]] eqn:Hloop
   end;
   destruct (loadedConfig _); simpl;
   try (match goal with
        | |- context [0 <? updatedFiles ?s] =>
            destruct (0 <? updatedFiles s) eqn:?
        end; simpl;
        [unfold rebuild;
         match goal with
         | |- context [reopenOk ?sa] => destruct (reopenOk sa) eqn:?
         end; simpl;
         [match goal with
          | |- context [createVectorStore ?c ?sa ?n ?p ?w] =>
              destruct (createVectorStore c sa n p w) as [? ?] eqn:?
          end; simpl
         |]
        |])].


(** The loop makes sleeps, generation calls, writes and hash commits
    only. *)
Lemma indexFiles_events tm dir work st :
  Forall (fun e => isLoopEvent e = true) (indexFiles tm dir work st).1.1.
Proof.
  apply (indexFiles_rel tm dir (fun _ evs _ => Forall (fun e => isLoopEvent e = true) evs)).
  - intros _. constructor.
  - intros _ evs1 _ evs2 _ H1 H2. apply Forall_app. auto.
  - intros file a st0 _.
    eapply Forall_impl; [apply preCooldown_sleeps|].
    simpl. intros e [He _]. unfold isLoopEvent. rewrite He. reflexivity.
  - intros file a st0 _. document_cases; repeat constructor.
  - intros file a st0 _.
    eapply Forall_impl; [apply postCooldown_sleeps|].
    simpl. intros e [He _]. unfold isLoopEvent. rewrite He. reflexivity.
Qed.

Lemma count_loop_events kind evs :
  (forall e, isLoopEvent e = true -> kind e = false) ->
  Forall (fun e => isLoopEvent e = true) evs ->
  count kind evs = 0%nat.
Proof.
  intros Hk H. apply count_none. eapply Forall_impl; [exact H|]. exact Hk.
Qed.

Lemma loop_has_no_store_events evs :
  Forall (fun e => isLoopEvent e = true) evs ->
  count isRemoveAll evs = 0%nat /\
  count isNewPersistentDB evs = 0%nat /\
  count isCreateVectorStore evs = 0%nat.
Proof.
  intros H.
  repeat split; (apply count_loop_events; [intros []; cbv; congruence | exact H]).
Qed.

Lemma criticalCheck_returns tm scan cooling :
  coolReturned (CoolDownOn tm cooling) = true ->
  (criticalCheck tm scan cooling).2 = true.
Proof.
  intros H. unfold criticalCheck.
  destruct (criticalTemp tm <=? temp (getTemperature tm scan)); simpl; auto.
Qed.

Lemma processFile_returns tm dir file a st :
  coolsDown tm a -> (processFile tm dir file a st).2 = true.
Proof.
  intros [Hpre Hpost]. unfold processFile.
  assert (H1 : (preCooldown tm a st).2 = true).
  { unfold preCooldown.
    destruct (Since (nowCheck a) (lastCoolDown st) <? coolDownPeriod); [|reflexivity].
    destruct (useFallback tm); [reflexivity|].
    apply criticalCheck_returns. exact Hpre. }
  destruct (preCooldown tm a st) as [evs1 returned1]. simpl in H1. subst returned1.
  simpl.
  destruct (documentFile dir file a st) as [[evs2 st2] [|]]; simpl; [|reflexivity].
  assert (H3 : (postCooldown tm a st2).2 = true).
  { unfold postCooldown. destruct (_ || _); [reflexivity|].
    pose proof (criticalCheck_returns tm (postScan a) (postCooling a) Hpost) as H.
    destruct (criticalCheck tm (postScan a) (postCooling a)). exact H. }
  destruct (postCooldown tm a st2) as [[evs3 st3] returned3]. exact H3.
Qed.

(** When every cooldown returns, the loop runs through all the files. *)
Lemma indexFiles_returns tm dir work st :
  Forall (fun fa => coolsDown tm fa.2) work ->
  (indexFiles tm dir work st).2 = true.
Proof.
  intros H. revert st. induction H as [|[file a] rest Ha _ IH]; intros st.
  - reflexivity.
  - simpl. pose proof (processFile_returns tm dir file a st Ha) as Hret.
    destruct (processFile tm dir file a st) as [[evs st1] returned].
    simpl in Hret. subst returned. simpl.
    specialize (IH st1).
    destruct (indexFiles tm dir rest st1) as [[evs' st2] done]. exact IH.
Qed.

Lemma run_work_cools tm (answers : string -> FileAnswers) files :
  (forall file, coolsDown tm (answers file)) ->
  Forall (fun fa => coolsDown tm fa.2) (map (fun file => (file, answers file)) files).
Proof.
  intros H. apply Forall_forall. intros [file a] (f & [= -> ->] & _)%list_elem_of_fmap.
  apply H.
Qed.

(* ===================================================================== *)
(** * The sample project, run *)
(* ===================================================================== *)

(** Discovery on a small tree: [build] and [logic] are pruned (their
    paths contain ["/build"] and ["/log"]), [skip.py] is excluded by
    name, [notes.md] by extension. *)
Example parseDirectory_sample :
  parseDirectory
    (Dir "proj" true
       [ Dir "build" true [File "gen.go"];
         Dir "logic" true [File "a.py"];
         File "main.go"; File "notes.md"; File "skip.py";
         Dir "src" true [File "app.ts"; Dir "node_modules" true [File "m.js"]] ])
    "proj" defaultExcludes ["skip.py"]
  = (["proj/main.go"; "proj/src/app.ts"], None).
Proof. vm_compute. reflexivity. Qed.

(** An entry that cannot be examined ends the walk; the files found
    before it are returned with the error. *)
Example parseDirectory_error :
  parseDirectory (Dir "proj" true [File "a.go"; Broken "b"; File "c.go"])
                 "proj" [] []
  = (["proj/a.go"], Some (IOError "lstat")).
Proof. vm_compute. reflexivity. Qed.

(** The scenario of the specification: [a.py] unchanged, [b.py] edited.
    [a.py] is skipped, [b.py] is documented and its hash updated, one
    file is counted as updated and the one rebuild puts both
    documentation files into the collection of the project. *)
Example scenario_one_file_edited :
  let r := indexCodebase DefaultConfig demoDetails
                         (demoRun hashesEdited demoLLM true) demoWorld in
  trace r
  = [ EvSaveProjectConfig "demo" true;
      EvGenerateComments "proj/b.py" true;
      EvWriteFile "proj/b.py" "docs/demo/b.py.txt"
                  (docContent "b.py" "doc of source of proj/b.py") true;
      EvSetFileHash "proj/b.py" "H2'" true;
      EvSaveProjectConfig "demo" true;
      EvRemoveAll "./db"; EvNewPersistentDB "./db" true;
      EvCreateVectorStore "demo" "proj" ] /\
  updatedFiles (counters r) = 1 /\
  file_hashes (after r) !! "proj/a.py" = Some "H1" /\
  file_hashes (after r) !! "proj/b.py" = Some "H2'" /\
  (size <$> vectorDB (after r) !! "demo") = Some 2%nat /\
  outcome r = Done None.
Proof. vm_compute. repeat split; reflexivity. Qed.

(** A sensor that stays hot: [CoolDown] sleeps 5 + (90 - 65) seconds
    after each reading and has not returned. *)
Example CoolDown_still_cooling :
  CoolDown (NewTemperatureMonitor 80 65 false false) [reading 90; reading 90]
  = StillCooling [30 * Second; 30 * Second].
Proof. reflexivity. Qed.

(* ===================================================================== *)
(** * The rebuild trigger *)
(* ===================================================================== *)

(** C1, as stated, fails: when the store cannot be re-opened after its
    removal the run returns the error; a file was updated, yet
    [createVectorStore] is not called. *)
Lemma updated_without_createVectorStore :
  ~ (forall cfg pd ra w,
        (forall file, coolsDown (runMonitor cfg ra) (perFile ra file)) ->
        let r := indexCodebase cfg pd ra w in
        (0 < count isCreateVectorStore (trace r))%nat <-> 0 < updatedFiles (counters r)).
Proof.
  intros H.
  specialize (H DefaultConfig demoDetails (demoRun hashesEdited demoLLM false) demoWorld).
  assert (Hcool : forall file,
             coolsDown (runMonitor DefaultConfig (demoRun hashesEdited demoLLM false))
                       (perFile (demoRun hashesEdited demoLLM false) file)).
  { intros file. split; reflexivity. }
  specialize (H Hcool). simpl in H. destruct H as [_ H].
  assert (Hup : 0 < updatedFiles
                      (counters (indexCodebase DefaultConfig demoDetails
                                   (demoRun hashesEdited demoLLM false) demoWorld)))
    by (vm_compute; reflexivity).
  specialize (H Hup). vm_compute in H. lia.
Qed.

(** C1 (amended). In a run whose cooldowns all return, the store
    directory is removed and opened anew if and only if the number of new
    or modified files is greater than 0, and then once; [createVectorStore]
    is called, once, if and only if moreover the store could be opened:
    when it cannot, the run returns that error. *)
Theorem rebuild_iff_updated cfg pd ra w :
  (forall file, coolsDown (runMonitor cfg ra) (perFile ra file)) ->
  let r := indexCodebase cfg pd ra w in
  let updated := 0 <? updatedFiles (counters r) in
  (exists err, outcome r = Done err) /\
  count isRemoveAll (trace r) = (if updated then 1 else 0)%nat /\
  count isNewPersistentDB (trace r) = (if updated then 1 else 0)%nat /\
  count isCreateVectorStore (trace r)
  = (if updated && reopenOk (store ra) then 1 else 0)%nat /\
  (updated && negb (reopenOk (store ra)) = true -> exists msg, outcome r = Done (Some msg)).
Proof.
  intros Hcool r updated. subst updated r.
  run_cases Hloop.
  1: { repeat split; eauto; discriminate. }
  all: match type of Hloop with
       | indexFiles ?tm ?dir ?work ?st = _ =>
           pose proof (indexFiles_events tm dir work st) as Hev;
           pose proof (indexFiles_returns tm dir work st
                         (run_work_cools tm _ _ Hcool)) as Hret;
           rewrite Hloop in Hev, Hret; simpl in Hev, Hret; try discriminate
       end.
  all: repeat match goal with
              | H : (0 <? _) = _ |- _ => rewrite H
              | H : reopenOk _ = _ |- _ => rewrite H
              end; simpl.
  all: rewrite ?count_cons_other by reflexivity; rewrite ?count_app.
  all: destruct (loop_has_no_store_events _ Hev) as (-> & -> & ->).
  all: repeat split; eauto; try reflexivity; try discriminate.
Qed.

(** C1 on the sample project with [b.py] edited. *)
Lemma rebuild_iff_updated_witness :
  let cfg := DefaultConfig in
  let ra := demoRun hashesEdited demoLLM true in
  let r := indexCodebase cfg demoDetails ra demoWorld in
  (forall file, coolsDown (runMonitor cfg ra) (perFile ra file)) /\
  updatedFiles (counters r) = 1 /\
  count isRemoveAll (trace r) = 1%nat /\
  count isCreateVectorStore (trace r) = 1%nat.
Proof.
  intros cfg ra r.
  assert (Hcool : forall file, coolsDown (runMonitor cfg ra) (perFile ra file))
    by (intros file; split; reflexivity).
  pose proof (rebuild_iff_updated cfg demoDetails ra demoWorld Hcool) as H.
  simpl in H. destruct H as (_ & Hremove & _ & Hcreate & _).
  split; [exact Hcool|]. split; [reflexivity|].
  split; [exact Hremove | exact Hcreate].
Defined.

(* ===================================================================== *)
(** * Re-running on an unchanged tree *)
(* ===================================================================== *)

Lemma documentFile_unchanged dir file a st :
  unchangedFile (hashes st) file a ->
  documentFile dir file a st = ([], st, false).
Proof.
  intros ([rel Hrel] & Hq & h & Hmd5 & Hh).
  unfold documentFile, getFileHash. rewrite Hrel, Hmd5, Hq, Hh. simpl.
  rewrite String.eqb_refl. reflexivity.
Qed.

Lemma indexFiles_unchanged tm dir work st :
  Forall (fun fa => unchangedFile (hashes st) fa.1 fa.2) work ->
  (indexFiles tm dir work st).1.2 = st /\
  Forall (fun e => isSleep e = true) (indexFiles tm dir work st).1.1.
Proof.
  induction 1 as [|[file a] rest Ha _ IH]; simpl; [split; [reflexivity|constructor]|].
  unfold processFile.
  pose proof (preCooldown_sleeps tm a st) as Hpre.
  destruct (preCooldown tm a st) as [evs1 returned1]. simpl in Hpre.
  assert (Hs : Forall (fun e => isSleep e = true) evs1)
    by (eapply Forall_impl; [exact Hpre|]; simpl; tauto).
  destruct returned1; simpl; [|split; [reflexivity|exact Hs]].
  rewrite documentFile_unchanged by exact Ha. simpl.
  destruct (indexFiles tm dir rest st) as [[evs' st2] done]. simpl in *.
  destruct IH as [-> Hs']. split; [reflexivity|].
  rewrite app_nil_r. apply Forall_app. auto.
Qed.

Lemma count_sleeps kind evs :
  (forall e, isSleep e = true -> kind e = false) ->
  Forall (fun e => isSleep e = true) evs -> count kind evs = 0%nat.
Proof.
  intros Hk H. apply count_none. eapply Forall_impl; [exact H|]. exact Hk.
Qed.

Lemma sleeps_only evs :
  Forall (fun e => isSleep e = true) evs ->
  count isGenerateComments evs = 0%nat /\
  count isSetFileHash evs = 0%nat /\
  count isWriteFile evs = 0%nat /\
  count isRemoveAll evs = 0%nat /\
  count isCreateVectorStore evs = 0%nat.
Proof.
  intros H.
  repeat split; (apply count_sleeps; [intros []; cbv; congruence | exact H]).
Qed.

(** C5. When every discovered file has a content hash equal to its
    stored hash, and path, hash and stored hash are obtained without
    error, the run calls [generateComments] for no file, commits no hash,
    writes no documentation file and rebuilds nothing: its trace holds
    sleeps and saves of the project configuration only, and the
    documentation files, the hash table and the vector store (in memory
    and on disk) are what they were. If moreover every cooldown returns
    and the walk succeeded, the run returns nil. *)
Theorem unchanged_tree_is_noop cfg pd ra w :
  (forall file, file ∈ (runFiles pd ra).1 ->
                unchangedFile (file_hashes w) file (perFile ra file)) ->
  let r := indexCodebase cfg pd ra w in
  (count isGenerateComments (trace r) = 0%nat /\
   count isSetFileHash (trace r) = 0%nat /\
   count isWriteFile (trace r) = 0%nat /\
   count isRemoveAll (trace r) = 0%nat /\
   count isCreateVectorStore (trace r) = 0%nat) /\
  Forall (fun e => isIdleEvent e = true) (trace r) /\
  updatedFiles (counters r) = 0 /\
  (docFiles (after r) = docFiles w /\ file_hashes (after r) = file_hashes w /\
   vectorDB (after r) = vectorDB w /\ storeDir (after r) = storeDir w) /\
  ((forall file, coolsDown (runMonitor cfg ra) (perFile ra file)) ->
   (runFiles pd ra).2 = None -> outcome r = Done None).
Proof.
  intros Hsame r. subst r.
  run_cases Hloop.
  1: { repeat split; try reflexivity; try constructor. discriminate. }
  all: match type of Hloop with
       | indexFiles ?tm ?dir ?work ?st = _ =>
           assert (Hwork : Forall (fun fa => unchangedFile (hashes st) fa.1 fa.2) work)
             by (apply Forall_forall;
                 intros [f b] (f0 & [= -> ->] & Hin)%list_elem_of_fmap;
                 apply Hsame; exact Hin);
           pose proof (indexFiles_unchanged tm dir work st Hwork) as [Hst Hsl];
           pose proof (indexFiles_returns tm dir work st) as Hret;
           rewrite Hloop in Hst, Hsl, Hret; simpl in Hst, Hsl, Hret; subst
       end.
  all: try (simpl in *; discriminate).
  all: assert (Hidle : Forall (fun e => isIdleEvent e = true) l0)
         by (eapply Forall_impl; [exact Hsl|]; intros []; simpl; congruence).
  all: destruct (sleeps_only _ Hsl) as (C1 & C2 & C3 & C4 & C5).
  all: repeat split; try reflexivity;
    rewrite ?count_cons_other by reflexivity;
    rewrite ?count_app, ?C1, ?C2, ?C3, ?C4, ?C5;
    try reflexivity.
  all: try solve [ repeat first [ exact Hidle
                                | apply Forall_nil_2
                                | apply Forall_cons_2; [reflexivity|]
                                | apply Forall_app_2; [exact Hidle|] ] ].
  all: intros Hcool _; specialize (Hret (run_work_cools _ _ _ Hcool)); discriminate.
Qed.

(** C5 on the sample project with no file edited. *)
Lemma unchanged_tree_is_noop_witness :
  let ra := demoRun hashesUnchanged demoLLM true in
  let r := indexCodebase DefaultConfig demoDetails ra demoWorld in
  (forall file, file ∈ (runFiles demoDetails ra).1 ->
                unchangedFile (file_hashes demoWorld) file (perFile ra file)) /\
  count isGenerateComments (trace r) = 0%nat /\
  count isSetFileHash (trace r) = 0%nat /\
  file_hashes (after r) = file_hashes demoWorld /\
  vectorDB (after r) = vectorDB demoWorld.
Proof.
  intros ra r.
  assert (Hsame : forall file, file ∈ (runFiles demoDetails ra).1 ->
                    unchangedFile (file_hashes demoWorld) file (perFile ra file)).
  { intros file Hin.
    assert (E : (runFiles demoDetails ra).1 = ["proj/a.py"; "proj/b.py"])
      by (vm_compute; reflexivity).
    rewrite E in Hin.
    apply elem_of_cons in Hin as [->|Hin]; [|apply list_elem_of_singleton in Hin as ->].
    - split; [eexists; reflexivity|]. split; [reflexivity|].
      exists "H1". split; [reflexivity|]. vm_compute. reflexivity.
    - split; [eexists; reflexivity|]. split; [reflexivity|].
      exists "H2". split; [reflexivity|]. vm_compute. reflexivity. }
  pose proof (unchanged_tree_is_noop DefaultConfig demoDetails ra demoWorld Hsame)
    as ((Hgen & Hset & _) & _ & _ & (_ & Hhash & Hdb & _) & _).
  split; [exact Hsame|]. split; [exact Hgen|]. split; [exact Hset|].
  split; [exact Hhash | exact Hdb].
Defined.

(* ===================================================================== *)
(** * Hash commits and generation failures *)
(* ===================================================================== *)

Lemma commitsFollowWrites_none evs :
  Forall (fun e => isSetFileHash e = false) evs -> commitsFollowWrites evs.
Proof.
  intros H before file hash ok later ->.
  apply Forall_app in H as [_ H]. apply Forall_cons in H as [H _]. discriminate.
Qed.

Lemma commitsFollowWrites_app evs1 evs2 :
  commitsFollowWrites evs1 -> commitsFollowWrites evs2 ->
  commitsFollowWrites (evs1 ++ evs2).
Proof.
  intros H1 H2 before file hash ok later E.
  apply List.app_eq_app in E as [l [[-> E]|[-> ->]]].
  - destruct l as [|x l].
    + simpl in E.
      destruct (H2 [] file hash ok later (eq_sym E)) as (p & c & Hin). inversion Hin.
    + injection E as <- ->. apply (H1 before file hash ok l). reflexivity.
  - destruct (H2 l file hash ok later eq_refl) as (p & c & Hin).
    exists p, c. apply elem_of_app. right. exact Hin.
Qed.

Lemma commit_is_last before_commit commit before X later :
  Forall (fun e => isSetFileHash e = false) before_commit ->
  isSetFileHash X = true ->
  (before_commit ++ [commit])%list = (before ++ X :: later)%list ->
  before = before_commit /\ X = commit.
Proof.
  intros Hpre HX. revert before.
  induction Hpre as [|e pre He _ IH]; intros before E.
  - destruct before as [|b before]; simpl in E.
    + injection E as -> _. auto.
    + injection E as _ E. destruct before; discriminate.
  - destruct before as [|b before]; simpl in E.
    + injection E as -> _. congruence.
    + injection E as -> E. destruct (IH before E) as [-> ->]. auto.
Qed.

Lemma commitsFollowWrites_documentFile dir file a st :
  commitsFollowWrites (documentFile dir file a st).1.1.
Proof.
  document_cases; try solve [apply commitsFollowWrites_none; repeat constructor].
  all: intros before f h ok later E.
  all: match type of E with
       | [?g; ?wr; ?pause; ?commit] = _ =>
           apply (commit_is_last [g; wr; pause] commit) in E as [-> [= -> -> ->]];
           [|repeat constructor|reflexivity]
       | [?g; ?wr; ?commit] = _ =>
           apply (commit_is_last [g; wr] commit) in E as [-> [= -> -> ->]];
           [|repeat constructor|reflexivity]
       end.
  all: eexists _, _; apply elem_of_cons; right; apply elem_of_cons; left; reflexivity.
Qed.

Lemma commitsFollowWrites_sleeps evs :
  Forall (fun e => isSleep e = true /\ isBatchPause e = false) evs ->
  commitsFollowWrites evs.
Proof.
  intros H. apply commitsFollowWrites_none.
  eapply Forall_impl; [exact H|]. intros [] [? _]; simpl in *; congruence.
Qed.

Lemma commitsFollowWrites_indexFiles tm dir work st :
  commitsFollowWrites (indexFiles tm dir work st).1.1.
Proof.
  apply (indexFiles_rel tm dir (fun _ evs _ => commitsFollowWrites evs)).
  - intros _. apply commitsFollowWrites_none. constructor.
  - intros _ evs1 _ evs2 _. apply commitsFollowWrites_app.
  - intros file a st0 _. apply commitsFollowWrites_sleeps, preCooldown_sleeps.
  - intros file a st0 _. apply commitsFollowWrites_documentFile.
  - intros file a st0 _. apply commitsFollowWrites_sleeps, postCooldown_sleeps.
Qed.

(** A file whose documentation cannot be generated: one more failed
    file, nothing else changes, and the iteration ends there. *)
Lemma documentFile_generation_fails dir file a st rel h code :
  relPath a = Some rel -> md5 a = Some h -> hashQueryOk a = true ->
  hashes st !! file <> Some h ->
  mkdirOk a = true -> sourceText a = Some code -> generated a code = None ->
  documentFile dir file a st
  = ([EvGenerateComments file false], failOne (updateOne st), false).
Proof.
  intros Hrel Hmd5 Hq Hh Hmk Hsrc Hgen.
  unfold documentFile, getFileHash. rewrite Hrel, Hmd5, Hq. simpl.
  destruct (hashes st !! file) as [old|] eqn:Hold; simpl.
  - destruct (String.eqb_spec old h) as [->|Hne]; [congruence|].
    rewrite Hmk, Hsrc, Hgen. reflexivity.
  - rewrite Hmk, Hsrc, Hgen. reflexivity.
Qed.

(** C4. In the trace of every run each commit of a hash comes after a
    successful write of the documentation file of the same source file,
    and an iteration that changes the hash table has written that
    documentation file. When the generation of documentation fails for a new or modified
    file, the iteration counts one more failed file, leaves the hash
    table and the documentation files as they are, and the loop goes on
    with the remaining files from that state. *)
Theorem hash_commit_follows_write cfg pd ra w :
  commitsFollowWrites (trace (indexCodebase cfg pd ra w)) /\
  (forall dir file a st,
      let st' := (documentFile dir file a st).1.2 in
      hashes st' <> hashes st ->
      exists rel comments,
        relPath a = Some rel /\
        docs st' !! Filepath.Join dir (rel +:+ ".txt") = Some (docContent rel comments)) /\
  (forall tm dir file a rest st rel h code,
      relPath a = Some rel -> md5 a = Some h -> hashQueryOk a = true ->
      hashes st !! file <> Some h ->
      mkdirOk a = true -> sourceText a = Some code -> generated a code = None ->
      (preCooldown tm a st).2 = true ->
      let step := documentFile dir file a st in
      let st' := step.1.2 in
      let next := indexFiles tm dir rest st' in
      step.1.1 = [EvGenerateComments file false] /\
      failedFiles st' = failedFiles st + 1 /\
      processedFiles st' = processedFiles st /\
      hashes st' = hashes st /\ docs st' = docs st /\
      indexFiles tm dir ((file, a) :: rest) st
      = (((preCooldown tm a st).1 ++ [EvGenerateComments file false]) ++ next.1.1,
         next.1.2, next.2)%list).
Proof.
  split; [|split].
  - run_cases Hloop.
    1: { apply commitsFollowWrites_none. constructor. }
    all: match type of Hloop with
         | indexFiles ?tm ?dir ?work ?st = _ =>
             pose proof (commitsFollowWrites_indexFiles tm dir work st) as Hc;
             rewrite Hloop in Hc; simpl in Hc
         end.
    all: repeat first
           [ exact Hc
           | apply commitsFollowWrites_app; [exact Hc|]
           | apply (commitsFollowWrites_app [_]);
             [apply commitsFollowWrites_none; repeat constructor|]
           | apply commitsFollowWrites_none; repeat constructor ].
  - intros dir file a st. simpl.
    document_cases; intros Hne; try congruence.
    all: eexists _, _; split; [reflexivity|]; apply lookup_insert_eq.
  - intros tm dir file a rest st rel h code Hrel Hmd5 Hq Hh Hmk Hsrc Hgen Hpre.
    simpl.
    rewrite (documentFile_generation_fails dir file a st rel h code) by assumption.
    simpl. repeat split.
    unfold processFile.
    rewrite (documentFile_generation_fails dir file a st rel h code) by assumption.
    destruct (preCooldown tm a st) as [evs1 returned1]. simpl in Hpre. subst returned1.
    simpl.
    destruct (indexFiles tm dir rest (failOne (updateOne st))) as [[evs' st2] done].
    reflexivity.
Qed.

(** C4 on the sample project when the model fails for [b.py]. *)
Lemma hash_commit_follows_write_witness :
  let ra := demoRun hashesEdited failingLLM true in
  let tm := runMonitor DefaultConfig ra in
  let a := perFile ra "proj/b.py" in
  let st := initialState demoWorld demoNow in
  let step := documentFile "docs/demo" "proj/b.py" a st in
  (hashes st !! "proj/b.py" <> Some "H2'") /\
  generated a "source of proj/b.py" = None /\
  (preCooldown tm a st).2 = true /\
  failedFiles step.1.2 = 1 /\
  hashes step.1.2 = hashes st /\
  (indexFiles tm "docs/demo" [("proj/b.py", a)] st).2 = true.
Proof.
  intros ra tm a st step.
  assert (Hh : hashes st !! "proj/b.py" <> Some "H2'") by (vm_compute; congruence).
  assert (Hpre : (preCooldown tm a st).2 = true) by reflexivity.
  pose proof (proj2 (proj2 (hash_commit_follows_write DefaultConfig demoDetails ra
                                                      demoWorld))
                tm "docs/demo" "proj/b.py" a [] st "b.py" "H2'" "source of proj/b.py"
                eq_refl eq_refl eq_refl Hh eq_refl eq_refl eq_refl Hpre)
    as (_ & Hfail & _ & Hsame & _ & Hloop).
  split; [exact Hh|]. split; [reflexivity|]. split; [exact Hpre|].
  split; [exact Hfail|]. split; [exact Hsame|].
  rewrite Hloop. reflexivity.
Defined.

(* ===================================================================== *)
(** * The elapsed-time cooldown of fallback mode *)
(* ===================================================================== *)

Lemma runMonitor_thresholds cfg ra :
  criticalTemp (runMonitor cfg ra) = 80 /\ safeTemp (runMonitor cfg ra) = 65.
Proof.
  unfold runMonitor, NewTemperatureMonitor.
  destruct (negb _), (sensorsErr ra); simpl; auto.
Qed.

(** In fallback mode the temperature test of the run's monitor never
    starts a [CoolDown]: the reading is 0. *)
Lemma criticalCheck_fallback cfg ra scan cooling :
  useFallback (runMonitor cfg ra) = true ->
  criticalCheck (runMonitor cfg ra) scan cooling = ([], true).
Proof.
  intros Hf. unfold criticalCheck, getTemperature. rewrite Hf.
  rewrite (proj1 (runMonitor_thresholds cfg ra)). reflexivity.
Qed.

Lemma preCooldown_fallback cfg ra a st :
  useFallback (runMonitor cfg ra) = true ->
  (preCooldown (runMonitor cfg ra) a st).2 = true /\
  Forall (fun e => isTimedCooldown e = false) (preCooldown (runMonitor cfg ra) a st).1.
Proof.
  intros Hf. unfold preCooldown. rewrite Hf.
  destruct (_ <? coolDownPeriod); simpl; split; auto; repeat constructor.
Qed.

(** The body of the loop makes no timed cooldown and leaves the timers;
    it counts the file as processed exactly when it goes on to the
    check after the file. *)
Lemma documentFile_untimed dir file a st :
  let body := documentFile dir file a st in
  Forall (fun e => isTimedCooldown e = false) body.1.1 /\
  lastCoolDown body.1.2 = lastCoolDown st /\
  startTotalTime body.1.2 = startTotalTime st /\
  processedFiles body.1.2 = processedFiles st + (if body.2 then 1 else 0).
Proof.
  document_cases; repeat split; repeat constructor; lia.
Qed.

(** The check after a written file, in fallback mode. *)
Lemma postCooldown_fallback cfg ra a st :
  useFallback (runMonitor cfg ra) = true ->
  let tm := runMonitor cfg ra in
  let fileProcessTime := Since (nowFile a) (nowStart a) in
  let totalProcessTime := Since (nowTotal a) (startTotalTime st) in
  (30 * Second < fileProcessTime \/ 5 * Minute < totalProcessTime ->
   postCooldown tm a st
   = ([EvSleep TimedCooldown (60 * Second)],
      withTimers st (nowCool a) (nowReset a), true)) /\
  (~ (30 * Second < fileProcessTime \/ 5 * Minute < totalProcessTime) ->
   postCooldown tm a st = ([], st, true)).
Proof.
  intros Hf tm fileProcessTime totalProcessTime.
  assert (Hcond :
    (useFallback tm && (maxFileProcessTime <? fileProcessTime)
     || (maxTotalProcessTime <? totalProcessTime)) = true <->
    (30 * Second < fileProcessTime \/ 5 * Minute < totalProcessTime)).
  { unfold tm. rewrite Hf. simpl. rewrite orb_true_iff, !Z.ltb_lt. reflexivity. }
  split.
  - intros H. apply Hcond in H. unfold postCooldown.
    fold fileProcessTime totalProcessTime. rewrite H. reflexivity.
  - intros H. unfold postCooldown. fold fileProcessTime totalProcessTime.
    destruct (_ || _) eqn:E; [exfalso; apply H, Hcond; reflexivity|].
    unfold tm. rewrite criticalCheck_fallback by exact Hf. reflexivity.
Qed.

Lemma written_exceeded_dec (written : bool) (fileTime totalTime : Z) :
  (written = true /\ (30 * Second < fileTime \/ 5 * Minute < totalTime))
  \/ ~ (written = true /\ (30 * Second < fileTime \/ 5 * Minute < totalTime)).
Proof.
  destruct written; [|right; intros [? _]; discriminate].
  destruct (Z_lt_dec (30 * Second) fileTime); [left; auto|].
  destruct (Z_lt_dec (5 * Minute) totalTime); [left; auto|right; tauto].
Qed.

Lemma untimed_not_elem evs d :
  Forall (fun e => isTimedCooldown e = false) evs -> EvSleep TimedCooldown d ∉ evs.
Proof.
  intros H Hin. rewrite Forall_forall in H. specialize (H _ Hin). discriminate.
Qed.

Lemma untimed_count evs :
  Forall (fun e => isTimedCooldown e = false) evs -> count isTimedCooldown evs = 0%nat.
Proof.
  intros H. apply count_none. exact H.
Qed.

Lemma timedCooldowns_trans st1 evs1 st2 evs2 st3 :
  timedCooldowns st1 evs1 st2 -> timedCooldowns st2 evs2 st3 ->
  timedCooldowns st1 (evs1 ++ evs2) st3.
Proof.
  intros [F1 C1] [F2 C2]. split; [apply Forall_app; auto|].
  rewrite count_app, Nat2Z.inj_add. lia.
Qed.

Lemma timedCooldowns_untimed st evs st' :
  Forall (fun e => isTimedCooldown e = false) evs ->
  processedFiles st <= processedFiles st' ->
  timedCooldowns st evs st'.
Proof.
  intros H Hle. split.
  - eapply Forall_impl; [exact H|]. simpl. intros e -> [=].
  - rewrite (untimed_count _ H). simpl. lia.
Qed.

(** One iteration in fallback mode: the events are those of the check
    before the file and of the body, followed by the timed cooldown
    exactly when the body wrote the file and a cap is exceeded. *)
Lemma processFile_timed cfg ra dir file a st :
  useFallback (runMonitor cfg ra) = true ->
  let tm := runMonitor cfg ra in
  let body := documentFile dir file a st in
  let exceeded :=
    30 * Second < Since (nowFile a) (nowStart a)
    \/ 5 * Minute < Since (nowTotal a) (startTotalTime st) in
  (body.2 = true -> exceeded ->
   processFile tm dir file a st
   = (((preCooldown tm a st).1 ++ body.1.1 ++ [EvSleep TimedCooldown (60 * Second)])%list,
      withTimers body.1.2 (nowCool a) (nowReset a), true)) /\
  (~ (body.2 = true /\ exceeded) ->
   processFile tm dir file a st
   = (((preCooldown tm a st).1 ++ body.1.1)%list, body.1.2, true)).
Proof.
  intros Hf tm body exceeded. subst body exceeded.
  destruct (preCooldown_fallback cfg ra a st Hf) as [Hpre _].
  destruct (documentFile_untimed dir file a st) as (_ & _ & Htotal & _).
  unfold processFile. fold tm in Hpre |- *.
  destruct (preCooldown tm a st) as [evs1 returned1]. simpl in Hpre. subst returned1.
  destruct (documentFile dir file a st) as [[evs2 st2] written]. simpl in *.
  destruct (postCooldown_fallback cfg ra a st2 Hf) as [Hyes Hno].
  rewrite Htotal in Hyes, Hno. fold tm in Hyes, Hno.
  split.
  - intros -> Hex. simpl. rewrite (Hyes Hex). reflexivity.
  - intros Hnot. destruct written; simpl.
    + rewrite Hno by tauto. rewrite app_nil_r. reflexivity.
    + reflexivity.
Qed.

Lemma processFile_timedCooldowns cfg ra dir file a st :
  useFallback (runMonitor cfg ra) = true ->
  (processFile (runMonitor cfg ra) dir file a st).2 = true /\
  timedCooldowns st (processFile (runMonitor cfg ra) dir file a st).1.1
                 (processFile (runMonitor cfg ra) dir file a st).1.2.
Proof.
  intros Hf.
  destruct (processFile_timed cfg ra dir file a st Hf) as [Hyes Hno].
  destruct (preCooldown_fallback cfg ra a st Hf) as [_ Hpre].
  destruct (documentFile_untimed dir file a st) as (Hbody & _ & _ & Hcount).
  simpl in *.
  destruct (written_exceeded_dec (documentFile dir file a st).2
              (Since (nowFile a) (nowStart a))
              (Since (nowTotal a) (startTotalTime st)))
    as [[Hw Hex]|Hnot].
  - rewrite (Hyes Hw Hex). simpl. split; [reflexivity|].
    rewrite Hw in Hcount.
    apply (timedCooldowns_trans st _ st); [apply timedCooldowns_untimed; [exact Hpre|lia]|].
    apply (timedCooldowns_trans st _ st); [apply timedCooldowns_untimed; [exact Hbody|lia]|].
    split; [repeat constructor|]. simpl. unfold count. simpl. lia.
  - rewrite (Hno Hnot). simpl. split; [reflexivity|].
    apply (timedCooldowns_trans st _ st); [apply timedCooldowns_untimed; [exact Hpre|lia]|].
    apply timedCooldowns_untimed; [exact Hbody|].
    destruct (documentFile dir file a st).2; lia.
Qed.

Lemma indexFiles_timedCooldowns cfg ra dir work st :
  useFallback (runMonitor cfg ra) = true ->
  timedCooldowns st (indexFiles (runMonitor cfg ra) dir work st).1.1
                 (indexFiles (runMonitor cfg ra) dir work st).1.2.
Proof.
  intros Hf. revert st. induction work as [|[file a] rest IH]; intros st.
  - simpl. apply timedCooldowns_untimed; [constructor|lia].
  - cbn [indexFiles].
    destruct (processFile_timedCooldowns cfg ra dir file a st Hf) as [Hret Hstep].
    destruct (processFile (runMonitor cfg ra) dir file a st) as [[evs st1] returned].
    simpl in Hret, Hstep. subst returned. simpl.
    specialize (IH st1).
    destruct (indexFiles (runMonitor cfg ra) dir rest st1) as [[evs' st2] done].
    simpl in *. exact (timedCooldowns_trans _ _ _ _ _ Hstep IH).
Qed.

(** C7, as stated, fails: in fallback mode a file that takes ten
    minutes and whose documentation is not generated ends its iteration
    at [continue], before the check of the two caps, and the run makes
    no cooldown sleep. *)
Lemma slow_failed_file_makes_no_cooldown :
  ~ (forall cfg pd ra w file,
        useFallback (runMonitor cfg ra) = true ->
        file ∈ (runFiles pd ra).1 ->
        30 * Second < Since (nowFile (perFile ra file)) (nowStart (perFile ra file)) ->
        EvSleep TimedCooldown (60 * Second) ∈ trace (indexCodebase cfg pd ra w)).
Proof.
  intros H.
  specialize (H remoteConfig demoDetails (slowRun failingLLM) demoWorld "proj/b.py").
  assert (Hin : EvSleep TimedCooldown (60 * Second)
                ∈ trace (indexCodebase remoteConfig demoDetails
                                       (slowRun failingLLM) demoWorld)).
  { apply H.
    - reflexivity.
    - vm_compute. right. left.
    - vm_compute. reflexivity. }
  vm_compute in Hin.
  repeat (apply elem_of_cons in Hin as [Hin|Hin]; [discriminate|]).
  inversion Hin.
Qed.

(** C7 (amended). With the monitor of a run in fallback mode an
    iteration always comes back, and it makes the timed cooldown if and
    only if its documentation file was written - the iteration reaches
    the check after the file - and the time spent on the file exceeds 30
    seconds or the time since the total timer was started exceeds 5
    minutes. The sleep is then the last event of the iteration and lasts
    the fixed 60 seconds; [lastCoolDown] is the time read before it and
    [startTotalTime] the time read after it, and counters, hashes and
    documentation are those the body left. In every other iteration -
    one that ends at [continue], however long it took, or one below both
    caps - the timers are those from before the iteration. No sensor
    scan enters. In the whole run every timed cooldown lasts 60 seconds
    and there are no more of them than processed files. *)
Theorem fallback_timed_cooldown cfg pd ra w dir file a st :
  let tm := runMonitor cfg ra in
  useFallback tm = true ->
  let fileProcessTime := Since (nowFile a) (nowStart a) in
  let totalProcessTime := Since (nowTotal a) (startTotalTime st) in
  let exceeded := 30 * Second < fileProcessTime \/ 5 * Minute < totalProcessTime in
  let body := documentFile dir file a st in
  let step := processFile tm dir file a st in
  step.2 = true /\
  ((exists d, EvSleep TimedCooldown d ∈ step.1.1) <-> body.2 = true /\ exceeded) /\
  (body.2 = true -> exceeded ->
   step.1.1 = ((preCooldown tm a st).1 ++ body.1.1
               ++ [EvSleep TimedCooldown (60 * Second)])%list /\
   lastCoolDown step.1.2 = nowCool a /\
   startTotalTime step.1.2 = nowReset a /\
   processedFiles step.1.2 = processedFiles body.1.2 /\
   failedFiles step.1.2 = failedFiles body.1.2 /\
   updatedFiles step.1.2 = updatedFiles body.1.2 /\
   hashes step.1.2 = hashes body.1.2 /\ docs step.1.2 = docs body.1.2) /\
  (~ (body.2 = true /\ exceeded) ->
   step.1.1 = ((preCooldown tm a st).1 ++ body.1.1)%list /\
   step.1.2 = body.1.2 /\
   lastCoolDown step.1.2 = lastCoolDown st /\
   startTotalTime step.1.2 = startTotalTime st) /\
  (forall scanBefore coolingBefore scanAfter coolingAfter,
      processFile tm dir file
                  (withScans a scanBefore coolingBefore scanAfter coolingAfter) st
      = step) /\
  (let r := indexCodebase cfg pd ra w in
   (forall d, EvSleep TimedCooldown d ∈ trace r -> d = 60 * Second) /\
   Z.of_nat (count isTimedCooldown (trace r)) <= processedFiles (counters r)).
Proof.
  intros tm Hf fileProcessTime totalProcessTime exceeded body step.
  destruct (processFile_timed cfg ra dir file a st Hf) as [Hyes Hno].
  destruct (preCooldown_fallback cfg ra a st Hf) as [_ Hpre].
  destruct (documentFile_untimed dir file a st) as (Hbody & Hlast & Htotal & _).
  fold tm in Hyes, Hno, Hpre. fold body in Hyes, Hno, Hbody, Hlast, Htotal.
  fold fileProcessTime totalProcessTime in Hyes, Hno. fold exceeded in Hyes, Hno.
  fold step in Hyes, Hno.
  split; [|split; [|split; [|split; [|split]]]].
  - destruct (written_exceeded_dec body.2 fileProcessTime totalProcessTime) as [[Hw Hex]|Hnot].
    + rewrite (Hyes Hw Hex). reflexivity.
    + rewrite (Hno Hnot). reflexivity.
  - split.
    + intros [d Hin].
      destruct (written_exceeded_dec body.2 fileProcessTime totalProcessTime) as [Hboth|Hnot]; [exact Hboth|].
      rewrite (Hno Hnot) in Hin. simpl in Hin.
      apply elem_of_app in Hin as [Hin|Hin]; exfalso.
      * exact (untimed_not_elem _ d Hpre Hin).
      * exact (untimed_not_elem _ d Hbody Hin).
    + intros [Hw Hex]. exists (60 * Second). rewrite (Hyes Hw Hex). simpl.
      rewrite !elem_of_app. right. right. left.
  - intros Hw Hex. rewrite (Hyes Hw Hex). simpl. repeat split; reflexivity.
  - intros Hnot. rewrite (Hno Hnot). simpl. repeat split; assumption.
  - intros scanBefore coolingBefore scanAfter coolingAfter.
    destruct (processFile_timed cfg ra dir file
                (withScans a scanBefore coolingBefore scanAfter coolingAfter) st Hf)
      as [Hyes' Hno'].
    change (documentFile dir file
              (withScans a scanBefore coolingBefore scanAfter coolingAfter) st)
      with body in Hyes', Hno'.
    assert (Hsame : preCooldown tm
                      (withScans a scanBefore coolingBefore scanAfter coolingAfter) st
                    = preCooldown tm a st).
    { unfold preCooldown. rewrite Hf. reflexivity. }
    fold tm in Hyes', Hno'. rewrite Hsame in Hyes', Hno'.
    cbn [withScans nowFile nowStart nowTotal nowCool nowReset] in Hyes', Hno'.
    destruct (written_exceeded_dec body.2 fileProcessTime totalProcessTime) as [[Hw Hex]|Hnot].
    + rewrite (Hyes Hw Hex). apply Hyes'; assumption.
    + rewrite (Hno Hnot). apply Hno'. exact Hnot.
  - intros r. subst r.
    assert (Hrun : timedCooldowns (initialState w (nowBegin ra))
                     (trace (indexCodebase cfg pd ra w))
                     (counters (indexCodebase cfg pd ra w))).
    { run_cases Hloop.
      1: { apply timedCooldowns_untimed; [constructor|lia]. }
      all: match type of Hloop with
           | indexFiles ?tm0 ?dir0 ?work ?st0 = _ =>
               pose proof (indexFiles_timedCooldowns cfg ra dir0 work st0 Hf) as Hl;
               rewrite Hloop in Hl; simpl in Hl
           end.
      all: repeat first
             [ exact Hl
             | apply (timedCooldowns_trans _ _ _ _ _ Hl);
               apply timedCooldowns_untimed; [repeat constructor|lia]
             | match goal with
               | |- timedCooldowns ?s (?e :: ?t) ?s' =>
                   change (timedCooldowns s ([e] ++ t) s');
                   apply (timedCooldowns_trans s [e] s);
                   [apply timedCooldowns_untimed; [repeat constructor|lia]|]
               end ]. }
    destruct Hrun as [Hall Hcount]. split.
    + intros d Hin. rewrite Forall_forall in Hall.
      specialize (Hall _ Hin eq_refl). injection Hall as ->. reflexivity.
    + change (processedFiles (initialState w (nowBegin ra))) with 0 in Hcount. lia.
Qed.

(** C7 (amended) for a model server on another machine and a file that
    took 31 seconds and was written. *)
Lemma fallback_timed_cooldown_witness :
  let ra := demoRun hashesEdited demoLLM true in
  let tm := runMonitor remoteConfig ra in
  let a := demoFileAfter (31 * Second) hashesEdited demoLLM "proj/b.py" in
  let st := initialState demoWorld demoNow in
  let step := processFile tm "docs/demo" "proj/b.py" a st in
  useFallback tm = true /\
  (documentFile "docs/demo" "proj/b.py" a st).2 = true /\
  30 * Second < Since (nowFile a) (nowStart a) /\
  (exists d, EvSleep TimedCooldown d ∈ step.1.1) /\
  lastCoolDown step.1.2 = nowCool a /\ startTotalTime step.1.2 = nowReset a.
Proof.
  intros ra tm a st step.
  assert (Hf : useFallback tm = true) by reflexivity.
  assert (Hw : (documentFile "docs/demo" "proj/b.py" a st).2 = true)
    by (vm_compute; reflexivity).
  assert (Ht : 30 * Second < Since (nowFile a) (nowStart a))
    by (vm_compute; reflexivity).
  destruct (fallback_timed_cooldown remoteConfig demoDetails ra demoWorld
              "docs/demo" "proj/b.py" a st Hf)
    as (_ & Hiff & Hreset & _).
  destruct (Hreset Hw (or_introl Ht)) as (_ & Hlast & Htotal & _).
  split; [exact Hf|]. split; [exact Hw|]. split; [exact Ht|].
  split; [apply Hiff; split; [exact Hw|left; exact Ht]|].
  split; [exact Hlast|exact Htotal].
Defined.

(* ===================================================================== *)
(** * What a rebuild leaves of the other projects *)
(* ===================================================================== *)

(** The loop writes documentation files only at the documentation paths
    of the files it is given, and hashes only for those files. *)
Lemma indexFiles_frame tm dir work st :
  let st' := (indexFiles tm dir work st).1.2 in
  (forall p,
      (forall file a rel, (file, a) ∈ work -> relPath a = Some rel ->
                          p <> Filepath.Join dir (rel +:+ ".txt")) ->
      docs st' !! p = docs st !! p) /\
  (forall k, (forall a, (k, a) ∉ work) -> hashes st' !! k = hashes st !! k).
Proof.
  apply (indexFiles_rel tm dir
           (fun st _ st' =>
              (forall p,
                  (forall file a rel, (file, a) ∈ work -> relPath a = Some rel ->
                                      p <> Filepath.Join dir (rel +:+ ".txt")) ->
                  docs st' !! p = docs st !! p) /\
              (forall k, (forall a, (k, a) ∉ work) -> hashes st' !! k = hashes st !! k))).
  - intros st0. auto.
  - intros st1 _ st2 _ st3 [D12 H12] [D23 H23]. split.
    + intros p Hp. rewrite D23, D12 by exact Hp. reflexivity.
    + intros k Hk. rewrite H23, H12 by exact Hk. reflexivity.
  - intros file a st0 _. auto.
  - intros file a st0 Hin. split.
    + intros p Hp. document_cases; try reflexivity.
      all: apply lookup_insert_ne; apply not_eq_sym; eapply Hp; eauto.
    + intros k Hk. document_cases; try reflexivity.
      all: unfold setFileHash; apply lookup_insert_ne; intros ->; eapply Hk; eauto.
  - intros file a st0 _.
    pose proof (postCooldown_state tm a st0) as (_ & _ & _ & -> & ->). auto.
Qed.

(** [createVectorStore] touches the vector store only, and there only
    the collection of the project it is called for. *)
Lemma createVectorStore_frame cfg sa name codebasePath w :
  let w' := (createVectorStore cfg sa name codebasePath w).1 in
  docFiles w' = docFiles w /\ file_hashes w' = file_hashes w /\
  (forall other, other <> name ->
     vectorDB w' !! other = vectorDB w !! other /\
     storeDir w' !! other = storeDir w !! other).
Proof.
  unfold createVectorStore.
  destruct (docsWalkOk sa); simpl; [|auto].
  destruct (createOk sa); simpl; [|auto].
  destruct (addDocuments _ _ ∅) as [collec added].
  destruct (addDocuments _ _ (default ∅ _)) as [persisted ?]. simpl.
  repeat split; apply lookup_insert_ne; congruence.
Qed.

(** [createVectorStore] touches no file outside the store and not the
    configuration the assistant holds. *)
Lemma createVectorStore_files cfg sa name codebasePath w :
  let w' := (createVectorStore cfg sa name codebasePath w).1 in
  hashDBFile w' = hashDBFile w /\ projectConfig w' = projectConfig w /\
  configFiles w' = configFiles w.
Proof.
  unfold createVectorStore.
  destruct (docsWalkOk sa); simpl; [|auto].
  destruct (createOk sa); simpl; [|auto].
  destruct (addDocuments _ _ ∅) as [collec added].
  destruct (addDocuments _ _ (default ∅ _)) as [persisted ?]. simpl. auto.
Qed.

(** What is left of a map of files when those chosen by [gone] are
    removed. *)
Lemma lookup_removed {A} (gone : string -> bool) (m : gmap string A) k :
  filter (fun entry => gone entry.1 = false) m !! k
  = if gone k then None else m !! k.
Proof.
  destruct (gone k) eqn:E.
  - apply map_lookup_filter_None. right. intros x _ H. simpl in H. congruence.
  - destruct (m !! k) as [x|] eqn:Ek.
    + apply map_lookup_filter_Some. auto.
    + apply map_lookup_filter_None. left. exact Ek.
Qed.




(** With documentation and hash database kept inside the store
    directory, the rebuild for [demo] removes the documentation and the
    configuration of project [other] and the database file; the hash
    rows read through the open connection stay. *)
Example rebuild_removes_files_inside_store :
  let r := indexCodebase nestedConfig demoDetails
                         (demoRun hashesEdited demoLLM true) nestedWorld in
  EvCreateVectorStore "demo" "proj" ∈ trace r /\
  is_Some (docFiles nestedWorld !! "db/docs/other/x.go.txt") /\
  docFiles (after r) !! "db/docs/other/x.go.txt" = None /\
  configFiles (after r) !! "other" = None /\
  hashDBFile (after r) = false /\
  file_hashes (after r) !! "other/x.go" = Some "H3".
Proof.
  vm_compute. repeat split; eauto; repeat constructor.
Qed.

(* ===================================================================== *)
(** * Queries against a project without a collection *)
(* ===================================================================== *)

(** A query against a project whose collection does not exist: with a
    client and a non-empty query text, [GetCollection] gives nil and
    [Query] dereferences it. *)
Lemma searchCodebase_without_collection qa w name query :
  clientOk qa = true ->
  vectorDB w !! name = None ->
  query <> "" ->
  searchCodebase qa w name query
  = Panic "invalid memory address or nil pointer dereference".
Proof.
  intros Hc Hnone Hq. unfold searchCodebase, GetCollection, Query.
  rewrite Hc, Hnone. simpl.
  destruct (String.eqb_spec query ""); [contradiction|reflexivity].
Qed.

(** A collection that exists but holds no document makes the query fail
    with an error value. *)
Lemma searchCodebase_empty_collection qa w name query :
  clientOk qa = true ->
  vectorDB w !! name = Some ∅ ->
  searchCodebase qa w name query = Failure "failed to search vector DB".
Proof.
  intros Hc Hsome. unfold searchCodebase, GetCollection, Query.
  rewrite Hc, Hsome. simpl.
  destruct (String.eqb query ""); [reflexivity|].
  destruct (embedQueryOk qa); reflexivity.
Qed.

(** C2 (the code on the failing input). Project [ghost] was never
    indexed, and project [other] lost its collection when [demo] was
    rebuilt: a query against either panics with a nil pointer
    dereference instead of returning an error value. *)
Theorem searchCodebase_panics_without_collection :
  let r := indexCodebase DefaultConfig demoDetails
                         (demoRun hashesEdited demoLLM true) demoWorld in
  searchCodebase demoQuery demoWorld "ghost" "what does main do?"
  = Panic "invalid memory address or nil pointer dereference" /\
  searchCodebase demoQuery demoWorld "other" "what does x do?" = Answer "answer" /\
  searchCodebase demoQuery (after r) "other" "what does x do?"
  = Panic "invalid memory address or nil pointer dereference".
Proof.
  vm_compute. repeat split; reflexivity.
Qed.

(* ===================================================================== *)
(** * More on the temperature monitor *)
(* ===================================================================== *)

Lemma scanChip_Some key entries v :
  scanChip key entries = Some v -> (key, v) ∈ entries /\ v <> 0.
Proof.
  induction entries as [|[k x] rest IH]; simpl; [discriminate|].
  destruct (String.eqb_spec k key) as [->|Hk]; simpl.
  - destruct (Z.eqb_spec x 0) as [->|Hx]; simpl.
    + intros [Hin Hv]%IH. split; [right; exact Hin|exact Hv].
    + intros [= ->]. split; [left|exact Hx].
  - intros [Hin Hv]%IH. split; [right; exact Hin|exact Hv].
Qed.

Lemma scanChip_None key entries :
  scanChip key entries = None -> forall v, (key, v) ∈ entries -> v = 0.
Proof.
  induction entries as [|[k x] rest IH]; simpl; intros Hnone v Hin.
  - inversion Hin.
  - apply elem_of_cons in Hin as [[= <- <-]|Hin].
    + rewrite String.eqb_refl in Hnone. simpl in Hnone.
      destruct (Z.eqb_spec v 0); [assumption|discriminate].
    + destruct (String.eqb k key && negb (x =? 0)); [discriminate|]. eauto.
Qed.

Lemma scanChips_Some key chips v :
  scanChips key chips = Some v ->
  v <> 0 /\ exists chip, chip ∈ chips /\ (key, v) ∈ chip.
Proof.
  induction chips as [|chip rest IH]; simpl; [discriminate|].
  destruct (scanChip key chip) as [x|] eqn:E.
  - intros [= ->]. apply scanChip_Some in E as [Hin Hv].
    split; [exact Hv|]. exists chip. split; [left|exact Hin].
  - intros (Hv & c & Hc & Hin)%IH. split; [exact Hv|]. exists c. split; [right|]; auto.
Qed.

Lemma scanChips_None key chips :
  scanChips key chips = None <-> ~ hasReading key chips.
Proof.
  split.
  - induction chips as [|chip rest IH]; simpl; intros Hnone (c & v & Hc & Hin & Hv).
    + inversion Hc.
    + destruct (scanChip key chip) eqn:E; [discriminate|].
      apply elem_of_cons in Hc as [->|Hc].
      * apply Hv. eapply scanChip_None; eauto.
      * apply (IH Hnone). exists c, v. auto.
  - intros Hno. destruct (scanChips key chips) as [v|] eqn:E; [|reflexivity].
    exfalso. apply Hno. apply scanChips_Some in E as (Hv & c & Hc & Hin).
    exists c, v. auto.
Qed.

(** X1. [getTemperature] succeeds exactly when the monitor is not in
    fallback mode and some chip has a non-zero GPU entry, or a non-zero
    CPU entry. A successful reading is never 0 and is always labelled
    ["gpu"], also when it comes from a CPU entry; a failed one is 0. *)
Theorem getTemperature_succeeds_iff tm scan :
  let r := getTemperature tm scan in
  (failed r = false <->
   useFallback tm = false /\
   (hasReading "GPU" (gpuPass scan) \/ hasReading "CPU" (cpuPass scan))) /\
  (failed r = false -> temp r <> 0 /\ source r = "gpu") /\
  (failed r = true -> temp r = 0).
Proof.
  unfold getTemperature.
  destruct (useFallback tm); simpl.
  { repeat split; try discriminate; intros [? _]; discriminate. }
  destruct (scanChips "GPU" (gpuPass scan)) as [g|] eqn:Eg; simpl.
  { pose proof Eg as (Hv & c & Hc & Hin)%scanChips_Some.
    repeat split; auto; try discriminate.
    left. exists c, g. auto. }
  destruct (scanChips "CPU" (cpuPass scan)) as [c|] eqn:Ec; simpl.
  { pose proof Ec as (Hv & ch & Hc & Hin)%scanChips_Some.
    repeat split; auto; try discriminate.
    right. exists ch, c. auto. }
  apply scanChips_None in Eg, Ec.
  repeat split; try discriminate; try reflexivity.
  intros [_ [H|H]]; contradiction.
Qed.

(** X2. GPU entries have priority: when some chip has a non-zero GPU
    entry the reading is the value of a GPU entry, whatever the CPU
    entries are; a CPU value is reported only when no chip has a
    non-zero GPU entry. *)
Theorem getTemperature_prefers_gpu tm scan :
  useFallback tm = false ->
  let r := getTemperature tm scan in
  (hasReading "GPU" (gpuPass scan) ->
   exists chip, chip ∈ gpuPass scan /\ ("GPU", temp r) ∈ chip) /\
  (~ hasReading "GPU" (gpuPass scan) -> failed r = false ->
   exists chip, chip ∈ cpuPass scan /\ ("CPU", temp r) ∈ chip).
Proof.
  intros Hf. unfold getTemperature. rewrite Hf.
  destruct (scanChips "GPU" (gpuPass scan)) as [g|] eqn:Eg; simpl.
  - apply scanChips_Some in Eg as (Hv & c & Hc & Hin). split.
    + intros _. eauto.
    + intros Hno. exfalso. apply Hno. exists c, g. auto.
  - split.
    + intros H. apply scanChips_None in Eg. contradiction.
    + intros _. destruct (scanChips "CPU" (cpuPass scan)) as [c|] eqn:Ec; simpl.
      * intros _. apply scanChips_Some in Ec as (_ & ch & Hc & Hin). eauto.
      * discriminate.
Qed.

(** X2 on a scan with a CPU entry of 50 and GPU entries 0 and 71. *)
Lemma getTemperature_prefers_gpu_witness :
  let tm := NewTemperatureMonitor 80 65 false false in
  let scan := {| gpuPass := [[("CPU", 50); ("GPU", 0)]; [("GPU", 71)]];
                 cpuPass := [[("CPU", 50); ("GPU", 0)]; [("GPU", 71)]] |} in
  useFallback tm = false /\
  temp (getTemperature tm scan) = 71 /\
  exists chip, chip ∈ gpuPass scan /\ ("GPU", temp (getTemperature tm scan)) ∈ chip.
Proof.
  intros tm scan.
  assert (Hf : useFallback tm = false) by reflexivity.
  split; [exact Hf|]. split; [reflexivity|].
  apply (proj1 (getTemperature_prefers_gpu tm scan Hf)).
  exists [("GPU", 71)], 71. repeat split.
  - right. left.
  - left.
  - discriminate.
Defined.

(** X3. [CoolDown] returns on the readings given exactly when one of
    them is an error or lies below the safe threshold; it sleeps at most
    once per reading. *)
Theorem CoolDown_returns_iff tm readings :
  (coolReturned (CoolDown tm readings) = true <->
   Exists (fun r => failed r = true \/ temp r < safeTemp tm) readings) /\
  (length (coolSleeps (CoolDown tm readings)) <= length readings)%nat.
Proof.
  induction readings as [|r rest [IHr IHs]]; simpl.
  - split; [|lia]. split; [discriminate|]. intros H. inversion H.
  - destruct (failed r) eqn:Hf; simpl.
    { split; [|lia]. split; [|reflexivity]. intros _. left. auto. }
    destruct (temp r <? safeTemp tm) eqn:Ht; simpl.
    { apply Z.ltb_lt in Ht. split; [|lia]. split; [|reflexivity]. intros _. left. auto. }
    apply Z.ltb_ge in Ht.
    destruct (CoolDown tm rest) as [sleeps unread|sleeps]; simpl in *.
    + split; [|lia]. split; [|reflexivity]. intros _. right. apply IHr. reflexivity.
    + split; [|lia]. split; [discriminate|].
      intros [[H|H]|H]%Exists_cons; [congruence|lia|].
      apply IHr in H. discriminate.
Qed.

(** In fallback mode the run's monitor makes no temperature test that
    could start a cooldown, so an iteration always comes back. *)
Lemma processFile_fallback cfg ra dir file a st :
  useFallback (runMonitor cfg ra) = true ->
  let step := processFile (runMonitor cfg ra) dir file a st in
  step.2 = true /\ Forall (fun e => forall d, e <> EvSleep ThermalCoolDown d) step.1.1.
Proof.
  intros Hf. unfold processFile, preCooldown, postCooldown.
  rewrite Hf. simpl.
  assert (Hdoc : Forall (fun e => forall d, e <> EvSleep ThermalCoolDown d)
                        (documentFile dir file a st).1.1).
  { document_cases; repeat constructor; discriminate. }
  destruct (documentFile dir file a st) as [[evs2 st2] documented]. simpl in Hdoc.
  assert (Hpre : forall st0 : LoopState,
      exists evs1,
        (if Since (nowCheck a) (lastCoolDown st0) <? coolDownPeriod
         then ([EvSleep RemainingCooldown
                        (wrap64 (coolDownPeriod
                                 - Since (nowRemaining a) (lastCoolDown st0)))], true)
         else ([], true)) = (evs1, true) /\
        Forall (fun e => forall d, e <> EvSleep ThermalCoolDown d) evs1).
  { intros st0. destruct (_ <? coolDownPeriod); eexists; (split; [reflexivity|]);
      repeat constructor; discriminate. }
  destruct (Hpre st) as (evs1 & -> & H1). simpl.
  destruct documented; simpl.
  - destruct (_ || _); simpl.
    + split; [reflexivity|]. rewrite !Forall_app.
      repeat split; auto; repeat constructor; discriminate.
    + rewrite criticalCheck_fallback by exact Hf. simpl.
      split; [reflexivity|]. rewrite !Forall_app. repeat split; auto.
  - split; [reflexivity|]. apply Forall_app. auto.
Qed.

Lemma indexFiles_fallback cfg ra dir work st :
  useFallback (runMonitor cfg ra) = true ->
  let loop := indexFiles (runMonitor cfg ra) dir work st in
  loop.2 = true /\ Forall (fun e => forall d, e <> EvSleep ThermalCoolDown d) loop.1.1.
Proof.
  intros Hf. revert st. induction work as [|[file a] rest IH]; intros st; simpl.
  - split; [reflexivity|constructor].
  - destruct (processFile_fallback cfg ra dir file a st Hf) as [Hret Hev].
    destruct (processFile (runMonitor cfg ra) dir file a st) as [[evs st1] returned].
    simpl in Hret, Hev. subst returned. simpl.
    destruct (IH st1) as [Hdone Hev'].
    destruct (indexFiles (runMonitor cfg ra) dir rest st1) as [[evs' st2] done].
    simpl in *. split; [exact Hdone|]. apply Forall_app. auto.
Qed.

(** X4. When the monitor of a run is in fallback mode (no sensors, or a
    model server that is not local), the run never enters [CoolDown]:
    it makes no sleep there and always returns, whatever the sensor
    would answer. *)
Theorem fallback_run_returns cfg pd ra w :
  useFallback (runMonitor cfg ra) = true ->
  let r := indexCodebase cfg pd ra w in
  (exists err, outcome r = Done err) /\
  (forall d, EvSleep ThermalCoolDown d ∉ trace r).
Proof.
  intros Hf r. subst r.
  run_cases Hloop.
  1: { split; [eauto|]. intros d Hin. inversion Hin. }
  all: match type of Hloop with
       | indexFiles (runMonitor ?c ?a) ?dir ?work ?st = _ =>
           destruct (indexFiles_fallback c a dir work st Hf) as [Hret Hev];
           rewrite Hloop in Hret, Hev; simpl in Hret, Hev; try discriminate
       end.
  all: split; [eauto|].
  all: intros d; rewrite ?elem_of_cons, ?elem_of_app, ?elem_of_cons, ?elem_of_nil.
  all: rewrite Forall_forall in Hev.
  all: intros Hin;
    repeat match goal with H : _ \/ _ |- _ => destruct H as [H|H] end;
    try discriminate; try contradiction; exact (Hev _ Hin d eq_refl).
Qed.

(** X4 with a model server on another machine. *)
Lemma fallback_run_returns_witness :
  let ra := demoRun hashesEdited demoLLM true in
  let r := indexCodebase remoteConfig demoDetails ra demoWorld in
  useFallback (runMonitor remoteConfig ra) = true /\
  outcome r = Done None /\
  EvSleep ThermalCoolDown (60 * Second) ∉ trace r.
Proof.
  intros ra r.
  assert (Hf : useFallback (runMonitor remoteConfig ra) = true) by reflexivity.
  destruct (fallback_run_returns remoteConfig demoDetails ra demoWorld Hf) as [_ Hno].
  split; [exact Hf|]. split; [vm_compute; reflexivity|]. apply Hno.
Defined.

(* ===================================================================== *)
(** * More on file discovery *)
(* ===================================================================== *)

Lemma parseDirectory_sound tree root excludeDirs excludeFiles f :
  f ∈ (parseDirectory tree root excludeDirs excludeFiles).1 ->
  exists n, Reached excludeDirs f (File n) root tree /\
            excludedFile excludeFiles f = false /\
            sourceExtension (Filepath.Ext f) = true.
Proof.
  destruct (walk_contributes excludeDirs excludeFiles tree root [])
    as (new & E & S1 & _).
  unfold parseDirectory, Walker.Walk.
  destruct (Walker.walk _ root tree []) as [st err]. simpl in *. subst st.
  apply S1.
Qed.

Lemma parseDirectory_complete tree root excludeDirs excludeFiles f n :
  (parseDirectory tree root excludeDirs excludeFiles).2 = None ->
  Reached excludeDirs f (File n) root tree ->
  excludedFile excludeFiles f = false ->
  sourceExtension (Filepath.Ext f) = true ->
  f ∈ (parseDirectory tree root excludeDirs excludeFiles).1.
Proof.
  destruct (walk_contributes excludeDirs excludeFiles tree root [])
    as (new & E & _ & C1).
  unfold parseDirectory, Walker.Walk.
  destruct (Walker.walk _ root tree []) as [st [[|msg]|]]; simpl in *; subst st.
  - intros _ Hr. destruct C1 as (Hd & _ & Hex).
    destruct tree; try discriminate.
    apply reached_dir_inv in Hr as (_ & Hex' & _). congruence.
  - discriminate.
  - intros _. apply C1.
Qed.

Lemma HasPrefix_empty s : Strings.HasPrefix s "" = true.
Proof. unfold Strings.HasPrefix. simpl. destruct s; reflexivity. Qed.

Lemma Contains_empty s : Strings.Contains s "" = true.
Proof. destruct s; simpl; rewrite ?HasPrefix_empty; reflexivity. Qed.

Lemma excludedDir_empty_entry excludeDirs p :
  "" ∈ excludeDirs -> excludedDir excludeDirs p = true.
Proof.
  intros Hin. unfold excludedDir. apply existsb_exists.
  exists "". split; [apply list_elem_of_In; exact Hin|apply Contains_empty].
Qed.

Lemma parseDirectory_empty_entry n es root excludeDirs excludeFiles :
  "" ∈ excludeDirs ->
  parseDirectory (Dir n true es) root excludeDirs excludeFiles = ([], None).
Proof.
  intros Hin. unfold parseDirectory, Walker.Walk. simpl.
  rewrite (excludedDir_empty_entry excludeDirs root Hin). reflexivity.
Qed.

(** X5. An empty string among the excluded directories excludes
    everything: [strings.Contains(path, "")] holds for every path, so the
    root directory itself is pruned and the list is empty, without an
    error. *)
Theorem empty_exclude_prunes_everything n es root excludeDirs excludeFiles :
  "" ∈ excludeDirs ->
  parseDirectory (Dir n true es) root excludeDirs excludeFiles = ([], None) /\
  (forall p, excludedDir excludeDirs p = true).
Proof.
  intros Hin. split.
  - apply parseDirectory_empty_entry. exact Hin.
  - intros p. apply excludedDir_empty_entry. exact Hin.
Qed.

(** X5 on the sample tree. *)
Lemma empty_exclude_prunes_everything_witness :
  ("" ∈ ["dist"; ""]) /\
  parseDirectory demoTree "proj" ["dist"; ""] [] = ([], None).
Proof.
  assert (Hin : "" ∈ ["dist"; ""]) by (right; left).
  split; [exact Hin|].
  exact (proj1 (empty_exclude_prunes_everything "proj" [File "a.py"; File "b.py"]
                  "proj" ["dist"; ""] [] Hin)).
Defined.

Lemma list_ascii_of_string_app a b :
  list_ascii_of_string (a +:+ b)
  = (list_ascii_of_string a ++ list_ascii_of_string b)%list.
Proof. induction a as [|c a IH]; simpl; [reflexivity|]. rewrite IH. reflexivity. Qed.

(** A line that ends with the separator has an empty last field. *)
Lemma splitBytes_trailing sep s :
  exists init, init <> [] /\ Console.splitBytes sep (s ++ [sep]) = (init ++ [[]])%list.
Proof.
  induction s as [|c s (init & Hne & IH)]; simpl.
  - rewrite Ascii.eqb_refl. exists [[]]. split; [discriminate|reflexivity].
  - rewrite IH. destruct init as [|f init']; [contradiction|].
    destruct (Ascii.eqb c sep).
    + exists ([] :: f :: init'). split; [discriminate|reflexivity].
    + exists ((c :: f) :: init'). split; [discriminate|reflexivity].
Qed.

Lemma splitList_trailing_comma line :
  "" ∈ splitList (line +:+ ",").
Proof.
  unfold splitList, Console.Split.
  assert (Hlen : (0 <? String.length (line +:+ ","))%nat = true).
  { apply Nat.ltb_lt. induction line; simpl; lia. }
  rewrite Hlen, list_ascii_of_string_app. simpl.
  destruct (splitBytes_trailing ","%char (list_ascii_of_string line))
    as (init & _ & ->).
  rewrite !map_app. simpl. apply elem_of_app. right. left.
Qed.

(** X6. A folders line that ends with a comma gives an empty exclude
    entry, and the run then discovers no file in any directory tree:
    the whole tree is pruned without an error. Name and path are taken
    from the console as typed. *)
Theorem trailing_comma_excludes_everything c ra line n es :
  foldersLine c = line +:+ "," ->
  tree ra = Dir n true es ->
  ("" ∈ exclude (getProjectDetails c)) /\
  projectName (getProjectDetails c) = nameLine c /\
  runFiles (getProjectDetails c) ra = ([], None).
Proof.
  intros Hline Htree.
  assert (Hin : "" ∈ exclude (getProjectDetails c)).
  { simpl. rewrite Hline. apply splitList_trailing_comma. }
  split; [exact Hin|]. split; [reflexivity|].
  unfold runFiles. rewrite Htree. apply parseDirectory_empty_entry.
  apply elem_of_app. left. exact Hin.
Qed.

(** X6 for the line ["build, dist,"]. *)
Lemma trailing_comma_excludes_everything_witness :
  let c := {| nameLine := "demo"; pathLine := "proj";
              foldersLine := "build, dist" +:+ ","; filesLine := "" |} in
  let ra := demoRun hashesEdited demoLLM true in
  exclude (getProjectDetails c) = ["build"; "dist"; ""] /\
  excludeFiles (getProjectDetails c) = [] /\
  runFiles (getProjectDetails c) ra = ([], None).
Proof.
  intros c ra.
  split; [vm_compute; reflexivity|]. split; [reflexivity|].
  exact (proj2 (proj2 (trailing_comma_excludes_everything
                         c ra "build, dist" "proj" [File "a.py"; File "b.py"]
                         eq_refl eq_refl))).
Defined.

Lemma excludedDir_app dirs more p :
  excludedDir (dirs ++ more) p = false -> excludedDir dirs p = false.
Proof.
  unfold excludedDir. rewrite existsb_app. intros [H _]%orb_false_iff. exact H.
Qed.

Lemma excludedFile_app files more p :
  excludedFile (files ++ more) p = false -> excludedFile files p = false.
Proof.
  unfold excludedFile. rewrite existsb_app. intros [H _]%orb_false_iff. exact H.
Qed.

Lemma Reached_fewer_excludes dirs more q target p e :
  Reached (dirs ++ more) q target p e -> Reached dirs q target p e.
Proof.
  induction 1 as [|p n es c Hex Hc _ IH]; [constructor|].
  econstructor; eauto using excludedDir_app.
Qed.

(** X7. More excludes never add files: when the walk with the fewer
    excludes meets no error, every file listed with additional excluded
    directories and files is listed without them too. *)
Theorem more_excludes_list_fewer tree root excludeDirs excludeFiles moreDirs moreFiles :
  (parseDirectory tree root excludeDirs excludeFiles).2 = None ->
  forall f,
    f ∈ (parseDirectory tree root (excludeDirs ++ moreDirs)
                        (excludeFiles ++ moreFiles)).1 ->
    f ∈ (parseDirectory tree root excludeDirs excludeFiles).1.
Proof.
  intros Hok f (n & Hr & Hf & He)%parseDirectory_sound.
  apply (parseDirectory_complete tree root excludeDirs excludeFiles f n Hok).
  - eapply Reached_fewer_excludes. exact Hr.
  - eapply excludedFile_app. exact Hf.
  - exact He.
Qed.

(** X7 on the sample tree, excluding [b.py] in addition. *)
Lemma more_excludes_list_fewer_witness :
  (parseDirectory demoTree "proj" [] []).2 = None /\
  (parseDirectory demoTree "proj" ([] ++ ["/dist"]) ([] ++ ["b.py"])).1 = ["proj/a.py"] /\
  "proj/a.py" ∈ (parseDirectory demoTree "proj" [] []).1.
Proof.
  assert (Hok : (parseDirectory demoTree "proj" [] []).2 = None) by reflexivity.
  split; [exact Hok|]. split; [vm_compute; reflexivity|].
  apply (more_excludes_list_fewer demoTree "proj" [] [] ["/dist"] ["b.py"] Hok).
  vm_compute. left.
Defined.

(** Where the walk ends without an error, every entry it comes to could
    be examined and every directory it comes to could be listed. *)
Lemma walk_without_error excludeDirs excludeFiles e :
  forall p files,
    match (Walker.walk (parseDirectoryFn excludeDirs excludeFiles) p e files).2 with
    | Some (IOError _) => True
    | Some SkipDir => entry_is_dir e = true /\ allReadable excludeDirs p e
    | None => allReadable excludeDirs p e
    end.
Proof.
  induction e as [n|n|n r es IH] using Entry_nested_ind; intros p files.
  - simpl. unfold parseDirectoryFn. simpl.
    assert (H : allReadable excludeDirs p (File n)).
    { intros q target Hr. inversion Hr; subst. split; discriminate. }
    destruct (excludedFile excludeFiles p); [exact H|].
    destruct (sourceExtension (Filepath.Ext p)); exact H.
  - simpl. exact I.
  - simpl. unfold parseDirectoryFn at 1. destruct r; simpl; [|exact I].
    destruct (excludedDir excludeDirs p) eqn:Hex.
    + split; [reflexivity|].
      intros q target Hr. inversion Hr; subst; [split; discriminate|congruence].
    + assert (Hnames : forall names st,
          Forall (fun c => forall p files,
            match (Walker.walk (parseDirectoryFn excludeDirs excludeFiles) p c files).2 with
            | Some (IOError _) => True
            | Some SkipDir => entry_is_dir c = true /\ allReadable excludeDirs p c
            | None => allReadable excludeDirs p c
            end) names ->
          match (Walker.walkNames
                   (Walker.walk (parseDirectoryFn excludeDirs excludeFiles))
                   p names st).2 with
          | Some (IOError _) => True
          | Some SkipDir => False
          | None => forall c, c ∈ names ->
                      allReadable excludeDirs (Filepath.Join p (entry_name c)) c
          end).
      { clear. intros names st H. revert st.
        induction H as [|c rest Hc _ IHn]; intros st; simpl.
        - intros c Hin. inversion Hin.
        - specialize (Hc (Filepath.Join p (entry_name c)) st).
          destruct (Walker.walk _ (Filepath.Join p (entry_name c)) c st)
            as [st2 err2]. simpl in Hc.
          assert (Hgo :
            allReadable excludeDirs (Filepath.Join p (entry_name c)) c ->
            match (Walker.walkNames
                     (Walker.walk (parseDirectoryFn excludeDirs excludeFiles))
                     p rest st2).2 with
            | Some (IOError _) => True
            | Some SkipDir => False
            | None => forall c0, c0 ∈ c :: rest ->
                        allReadable excludeDirs (Filepath.Join p (entry_name c0)) c0
            end).
          { intros Hhere. specialize (IHn st2).
            destruct (Walker.walkNames _ p rest st2).2 as [[|msg]|]; auto.
            intros c0 [->|Hin]%elem_of_cons; eauto. }
          destruct err2 as [[|msg]|].
          + destruct Hc as [Hd Hc]. destruct c; try discriminate. apply Hgo, Hc.
          + destruct c; exact I.
          + destruct c; apply Hgo, Hc. }
      specialize (Hnames es files IH).
      destruct (Walker.walkNames _ p es files).2 as [[|msg]|]; auto; [contradiction|].
      intros q target Hr. inversion Hr; subst; [split; discriminate|].
      eapply Hnames; eauto.
Qed.

(** X8. An entry that cannot be examined, or a directory that cannot be
    listed, makes the scan fail when the walk comes to it - also when
    its own path matches an excluded directory, because the error is
    looked at before the excludes. *)
Theorem parseDirectory_unreadable_aborts tree root excludeDirs excludeFiles q target :
  Reached excludeDirs q target root tree ->
  (exists n es, target = Dir n false es) \/ (exists n, target = Broken n) ->
  exists msg,
    (parseDirectory tree root excludeDirs excludeFiles).2 = Some (IOError msg).
Proof.
  intros Hr Hbad.
  pose proof (walk_without_error excludeDirs excludeFiles tree root []) as H.
  unfold parseDirectory, Walker.Walk.
  destruct (Walker.walk _ root tree []) as [st [[|msg]|]]; simpl in *; eauto.
  - destruct H as [_ H]. destruct (H q target Hr) as [Hd Hb].
    destruct Hbad as [(n & es & ->)|(n & ->)]; exfalso;
      [eapply Hd|eapply Hb]; reflexivity.
  - destruct (H q target Hr) as [Hd Hb].
    destruct Hbad as [(n & es & ->)|(n & ->)]; exfalso;
      [eapply Hd|eapply Hb]; reflexivity.
Qed.

(** X8 for a [node_modules] directory without read permission: the
    default excludes do not save the scan. *)
Lemma parseDirectory_unreadable_aborts_witness :
  let tree := Dir "proj" true [File "a.go"; Dir "node_modules" false []] in
  Reached defaultExcludes "proj/node_modules" (Dir "node_modules" false []) "proj" tree /\
  excludedDir defaultExcludes "proj/node_modules" = true /\
  exists msg, (parseDirectory tree "proj" defaultExcludes []).2 = Some (IOError msg).
Proof.
  intros tree.
  assert (Hr : Reached defaultExcludes "proj/node_modules"
                       (Dir "node_modules" false []) "proj" tree).
  { apply (reached_below _ _ _ "proj" "proj" _ (Dir "node_modules" false [])).
    - reflexivity.
    - right. left.
    - apply reached_here. }
  split; [exact Hr|]. split; [reflexivity|].
  exact (parseDirectory_unreadable_aborts tree "proj" defaultExcludes []
           "proj/node_modules" (Dir "node_modules" false []) Hr
           (or_introl (ex_intro _ "node_modules" (ex_intro _ [] eq_refl)))).
Defined.

(* ===================================================================== *)
(** * More on the indexing run *)
(* ===================================================================== *)

Lemma cooldown_sleeps_only evs :
  Forall (fun e => isSleep e = true /\ isBatchPause e = false) evs ->
  Forall (fun e => isSleep e = true) evs.
Proof. intros H. eapply Forall_impl; [exact H|]. simpl. tauto. Qed.

Lemma progress_trans n m st1 evs1 st2 evs2 st3 :
  progress n st1 evs1 st2 -> progress m st2 evs2 st3 ->
  progress (n + m) st1 (evs1 ++ evs2) st3.
Proof.
  unfold progress. intros (U1 & P1 & F1 & G1 & H1) (U2 & P2 & F2 & G2 & H2).
  rewrite !count_app, !Nat2Z.inj_add. repeat split; lia.
Qed.

Lemma progress_sleeps st evs :
  Forall (fun e => isSleep e = true) evs -> progress 0 st evs st.
Proof.
  intros H. destruct (sleeps_only evs H) as (G & S & _).
  unfold progress. rewrite G, S. simpl. repeat split; lia.
Qed.

Lemma progress_documentFile dir file a st :
  progress 1 st (documentFile dir file a st).1.1 (documentFile dir file a st).1.2.
Proof.
  unfold progress. document_cases; unfold count; simpl; repeat split; lia.
Qed.

Lemma progress_processFile tm dir file a st :
  progress 1 st (processFile tm dir file a st).1.1 (processFile tm dir file a st).1.2.
Proof.
  unfold processFile.
  pose proof (cooldown_sleeps_only _ (preCooldown_sleeps tm a st)) as Hpre.
  destruct (preCooldown tm a st) as [evs1 returned1]. simpl in Hpre.
  destruct returned1; simpl.
  2: { pose proof (progress_sleeps st evs1 Hpre) as H. unfold progress in *. lia. }
  pose proof (progress_documentFile dir file a st) as Hdoc.
  destruct (documentFile dir file a st) as [[evs2 st2] documented]. simpl in Hdoc.
  destruct documented; simpl.
  - pose proof (cooldown_sleeps_only _ (postCooldown_sleeps tm a st2)) as Hpost.
    pose proof (postCooldown_state tm a st2) as (Ep & Ef & Eu & _).
    destruct (postCooldown tm a st2) as [[evs3 st3] returned3]. simpl in *.
    apply (progress_trans 0 1 st evs1 st); [apply progress_sleeps; exact Hpre|].
    assert (H3 : progress 0 st2 evs3 st3).
    { destruct (sleeps_only evs3 Hpost) as (G & S & _).
      unfold progress. rewrite G, S, Ep, Ef, Eu. simpl. repeat split; lia. }
    exact (progress_trans 1 0 st evs2 st2 evs3 st3 Hdoc H3).
  - apply (progress_trans 0 1 st evs1 st); [apply progress_sleeps; exact Hpre|exact Hdoc].
Qed.

Lemma progress_indexFiles tm dir work st :
  progress (Z.of_nat (length work)) st
           (indexFiles tm dir work st).1.1 (indexFiles tm dir work st).1.2.
Proof.
  revert st. induction work as [|[file a] rest IH]; intros st.
  - simpl. apply progress_sleeps. constructor.
  - cbn [indexFiles].
    pose proof (progress_processFile tm dir file a st) as Hstep.
    destruct (processFile tm dir file a st) as [[evs st1] returned]. simpl in Hstep.
    assert (Hlen : Z.of_nat (length ((file, a) :: rest))
                   = 1 + Z.of_nat (length rest)) by (simpl length; lia).
    rewrite Hlen.
    destruct returned; simpl.
    + specialize (IH st1).
      destruct (indexFiles tm dir rest st1) as [[evs' st2] done]. simpl in *.
      exact (progress_trans _ _ _ _ _ _ _ Hstep IH).
    + unfold progress in *. lia.
Qed.

(** The whole run makes the progress of its loop: the events around the
    loop are neither calls of [generateComments] nor commits of a hash. *)
Lemma run_progress cfg pd ra w :
  let r := indexCodebase cfg pd ra w in
  progress (Z.of_nat (length (runFiles pd ra).1))
           (initialState w (nowBegin ra)) (trace r) (counters r).
Proof.
  intros r. subst r. unfold progress.
  run_cases Hloop.
  1: { unfold count. simpl. lia. }
  all: match type of Hloop with
       | indexFiles ?tm ?dir ?work ?st = _ =>
           pose proof (progress_indexFiles tm dir work st) as H;
           rewrite Hloop in H; unfold progress in H; simpl in H;
           rewrite length_map in H
       end.
  all: rewrite ?count_cons_other by reflexivity; rewrite ?count_app.
  all: repeat match goal with
              | |- context [count ?k (?e :: ?t)] =>
                  let v := eval cbv in (count k (e :: t)) in
                  change (count k (e :: t)) with v
              end; lia.
Qed.

(** X9. The counters of a run: the processed files are among the
    updated ones and these among the discovered ones; the failed files
    are no more than the discovered ones; [generateComments] is called at
    most once per updated file and [setFileHash] exactly once per
    processed file. *)
Theorem run_counters_bounded cfg pd ra w :
  let r := indexCodebase cfg pd ra w in
  let n := Z.of_nat (length (runFiles pd ra).1) in
  0 <= processedFiles (counters r) <= updatedFiles (counters r) /\
  updatedFiles (counters r) <= n /\
  0 <= failedFiles (counters r) <= n /\
  Z.of_nat (count isGenerateComments (trace r)) <= updatedFiles (counters r) /\
  Z.of_nat (count isSetFileHash (trace r)) = processedFiles (counters r).
Proof.
  intros r n. subst r n.
  pose proof (run_progress cfg pd ra w) as H.
  cbv zeta in H. unfold progress in H.
  change (updatedFiles (initialState w (nowBegin ra))) with 0 in H.
  change (processedFiles (initialState w (nowBegin ra))) with 0 in H.
  change (failedFiles (initialState w (nowBegin ra))) with 0 in H.
  rewrite !Z.sub_0_r in H.
  destruct H as (Hu & Hp & Hf & Hg & Hs).
  repeat split; try assumption; lia.
Qed.

(** The hash rows after a run are those of its loop state. *)
Lemma run_tables cfg pd ra w :
  let r := indexCodebase cfg pd ra w in
  file_hashes (after r) = hashes (counters r).
Proof.
  intros r. subst r. run_cases Hloop; try reflexivity.
  all: match goal with
  | H : createVectorStore ?c ?sa ?n ?p ?w0 = _ |- _ =>
      pose proof (createVectorStore_frame c sa n p w0) as (_ & Hh & _);
      rewrite H in Hh; simpl in Hh; rewrite Hh
  end.
  all: reflexivity.
Qed.

(** The loop state of a run is the result of the loop on the discovered
    files, when the walk reported no error. *)
Lemma run_counters cfg pd ra w :
  (runFiles pd ra).2 = None ->
  counters (indexCodebase cfg pd ra w)
  = (indexFiles (runMonitor cfg ra) (Filepath.Join (DocsDir cfg) (projectName pd))
                (map (fun file => (file, perFile ra file)) (runFiles pd ra).1)
                (initialState w (nowBegin ra))).1.2.
Proof.
  intros Hwalk. run_cases Hloop; try (simpl in Hwalk; discriminate).
  all: reflexivity.
Qed.

Lemma indexFiles_hashes tm dir work st :
  let st' := (indexFiles tm dir work st).1.2 in
  forall k, hashes st' !! k <> hashes st !! k ->
            exists a h, (k, a) ∈ work /\ hashes st' !! k = Some h /\ documented a h.
Proof.
  apply (indexFiles_rel tm dir
           (fun st _ st' =>
              forall k, hashes st' !! k <> hashes st !! k ->
                        exists a h, (k, a) ∈ work /\ hashes st' !! k = Some h
                                    /\ documented a h)).
  - intros st0 k Hk. congruence.
  - intros st1 _ st2 _ st3 H12 H23 k Hk.
    destruct (decide (hashes st3 !! k = hashes st2 !! k)) as [E|E].
    + rewrite E in Hk |- *. apply H12. exact Hk.
    + apply H23. exact E.
  - intros file a st0 _ k Hk. congruence.
  - intros file a st0 Hin k. unfold documented.
    document_cases; try congruence.
    unfold setFileHash. intros Hk.
    destruct (decide (k = file)) as [->|Hne].
    + rewrite lookup_insert_eq. eexists a, _. repeat split; eauto.
      all: match goal with
           | H : negb ?b = false |- ?b = true => destruct b; [reflexivity|discriminate]
           end.
    + rewrite lookup_insert_ne in Hk by congruence. congruence.
    + unfold setFileHash. intros Hk.
      destruct (decide (k = file)) as [->|Hne].
      * rewrite lookup_insert_eq. eexists a, _. repeat split; eauto.
        all: match goal with
             | H : negb ?b = false |- ?b = true => destruct b; [reflexivity|discriminate]
             end.
      * rewrite lookup_insert_ne in Hk by congruence. congruence.
  - intros file a st0 _ k.
    pose proof (postCooldown_state tm a st0) as (_ & _ & _ & -> & _). congruence.
Qed.

(** X10. A run changes the stored hash of a path only when the path is one
    of the discovered files and every step for it succeeded - relative
    path, MD5, hash query, directory, read, [generateComments], write and
    the store of the hash - and the new stored hash is the file's MD5. *)
Theorem run_hash_changes_are_commits cfg pd ra w :
  let r := indexCodebase cfg pd ra w in
  forall k, file_hashes (after r) !! k <> file_hashes w !! k ->
            k ∈ (runFiles pd ra).1 /\
            exists h, file_hashes (after r) !! k = Some h /\
                      documented (perFile ra k) h.
Proof.
  intros r k. subst r.
  rewrite (run_tables cfg pd ra w).
  destruct (runFiles pd ra) as [files [e|]] eqn:Hfiles.
  - unfold indexCodebase. rewrite Hfiles. simpl. congruence.
  - rewrite run_counters by (rewrite Hfiles; reflexivity).
    rewrite Hfiles. simpl. intros Hk.
    destruct (indexFiles_hashes _ _ _ _ k Hk) as (a & h & Hin & Hh & Hdoc).
    apply list_elem_of_fmap in Hin as (f & [= -> ->] & Hin).
    split; [exact Hin|]. exists h. split; assumption.
Qed.

(** X10 on the sample project with [b.py] edited. *)
Lemma run_hash_changes_are_commits_witness :
  let ra := demoRun hashesEdited demoLLM true in
  let r := indexCodebase remoteConfig demoDetails ra demoWorld in
  file_hashes (after r) !! "proj/b.py" <> file_hashes demoWorld !! "proj/b.py" /\
  "proj/b.py" ∈ (runFiles demoDetails ra).1 /\
  exists h, file_hashes (after r) !! "proj/b.py" = Some h /\
            documented (perFile ra "proj/b.py") h.
Proof.
  intros ra r.
  assert (Hk : file_hashes (after r) !! "proj/b.py"
               <> file_hashes demoWorld !! "proj/b.py")
    by (vm_compute; discriminate).
  split; [exact Hk|].
  exact (run_hash_changes_are_commits remoteConfig demoDetails ra demoWorld
           "proj/b.py" Hk).
Defined.

Lemma documentFile_generates dir file a st rel h code :
  relPath a = Some rel -> md5 a = Some h -> hashQueryOk a = true ->
  hashes st !! file <> Some h ->
  mkdirOk a = true -> sourceText a = Some code ->
  exists ok, EvGenerateComments file ok ∈ (documentFile dir file a st).1.1.
Proof.
  intros Hrel Hmd5 Hq Hne Hmk Hsrc.
  unfold documentFile, getFileHash. rewrite Hrel, Hmd5, Hq, Hmk, Hsrc. simpl.
  assert (Hold : (let '(oldHash, found) :=
                    match hashes st !! file with
                    | Some h0 => (h0, true)
                    | None => ("", false)
                    end in found && String.eqb oldHash h) = false).
  { destruct (hashes st !! file) as [h0|] eqn:E; [|reflexivity]. simpl.
    apply String.eqb_neq. congruence. }
  destruct (hashes st !! file) as [h0|]; simpl in Hold |- *; rewrite ?Hold.
  all: destruct (generated a code); simpl;
    [destruct (writeOk a); simpl|]; eexists; left.
Qed.

Lemma processFile_hashes_other tm dir file a st k :
  k <> file ->
  hashes (processFile tm dir file a st).1.2 !! k = hashes st !! k.
Proof.
  intros Hne.
  apply (processFile_rel tm dir (fun st _ st' => hashes st' !! k = hashes st !! k)).
  - intros st1 _ st2 _ st3 H12 H23. congruence.
  - reflexivity.
  - intros st0. document_cases; try reflexivity.
    all: unfold setFileHash; apply lookup_insert_ne; congruence.
  - intros st0. pose proof (postCooldown_state tm a st0) as (_ & _ & _ & -> & _).
    reflexivity.
Qed.

Lemma preCooldown_returns tm a st :
  coolReturned (CoolDownOn tm (preCooling a)) = true ->
  (preCooldown tm a st).2 = true.
Proof.
  intros Hpre. unfold preCooldown.
  destruct (Since (nowCheck a) (lastCoolDown st) <? coolDownPeriod); [|reflexivity].
  destruct (useFallback tm); [reflexivity|].
  apply criticalCheck_returns. exact Hpre.
Qed.

Lemma processFile_generates tm dir file a st rel h code :
  relPath a = Some rel -> md5 a = Some h -> hashQueryOk a = true ->
  hashes st !! file <> Some h ->
  mkdirOk a = true -> sourceText a = Some code ->
  coolReturned (CoolDownOn tm (preCooling a)) = true ->
  exists ok, EvGenerateComments file ok ∈ (processFile tm dir file a st).1.1.
Proof.
  intros Hrel Hmd5 Hq Hne Hmk Hsrc Hcool.
  destruct (documentFile_generates dir file a st rel h code
              Hrel Hmd5 Hq Hne Hmk Hsrc) as [ok Hin].
  exists ok. unfold processFile.
  pose proof (preCooldown_returns tm a st Hcool) as Hpre.
  destruct (preCooldown tm a st) as [evs1 returned1]. simpl in Hpre. subst returned1.
  destruct (documentFile dir file a st) as [[evs2 st2] documented]. simpl in Hin.
  destruct documented; simpl.
  - destruct (postCooldown tm a st2) as [[evs3 st3] returned3]. simpl.
    rewrite !elem_of_app. auto.
  - rewrite elem_of_app. auto.
Qed.

Lemma indexFiles_generates tm dir answers files st f rel h code :
  f ∈ files ->
  (forall g, g ∈ files -> coolsDown tm (answers g)) ->
  relPath (answers f) = Some rel -> md5 (answers f) = Some h ->
  hashQueryOk (answers f) = true ->
  hashes st !! f <> Some h ->
  mkdirOk (answers f) = true -> sourceText (answers f) = Some code ->
  exists ok,
    EvGenerateComments f ok
    ∈ (indexFiles tm dir (map (fun g => (g, answers g)) files) st).1.1.
Proof.
  intros Hin Hcool Hrel Hmd5 Hq Hne Hmk Hsrc. revert st Hne.
  induction files as [|g rest IH]; intros st Hne; [inversion Hin|].
  cbn [map indexFiles].
  pose proof (processFile_returns tm dir g (answers g) st
                (Hcool g ltac:(left))) as Hret.
  destruct (decide (f = g)) as [<-|Hfg].
  - destruct (processFile_generates tm dir f (answers f) st rel h code
                Hrel Hmd5 Hq Hne Hmk Hsrc (proj1 (Hcool f ltac:(left)))) as [ok Hok].
    exists ok.
    destruct (processFile tm dir f (answers f) st) as [[evs st1] returned].
    simpl in *. subst returned.
    destruct (indexFiles tm dir _ st1) as [[evs' st2] done]. simpl.
    rewrite elem_of_app. auto.
  - pose proof (processFile_hashes_other tm dir g (answers g) st f Hfg) as Hsame.
    destruct (processFile tm dir g (answers g) st) as [[evs st1] returned].
    simpl in *. subst returned.
    apply elem_of_cons in Hin as [Hin|Hin]; [contradiction|].
    destruct (IH Hin (fun g0 Hg0 => Hcool g0 ltac:(right; exact Hg0)) st1
                 ltac:(rewrite Hsame; exact Hne)) as [ok Hok].
    exists ok.
    destruct (indexFiles tm dir _ st1) as [[evs' st2] done]. simpl in *.
    rewrite elem_of_app. auto.
Qed.

(** X11. A discovered file whose MD5 differs from its stored hash (or that
    has none stored) is sent to [generateComments] in every run that gets
    through its loop, provided its relative path, MD5, hash query,
    documentation directory and read succeed: no change of content goes
    unnoticed. *)
Theorem changed_file_is_regenerated cfg pd ra w f h :
  (runFiles pd ra).2 = None ->
  f ∈ (runFiles pd ra).1 ->
  (forall g, coolsDown (runMonitor cfg ra) (perFile ra g)) ->
  is_Some (relPath (perFile ra f)) -> md5 (perFile ra f) = Some h ->
  hashQueryOk (perFile ra f) = true ->
  file_hashes w !! f <> Some h ->
  mkdirOk (perFile ra f) = true -> is_Some (sourceText (perFile ra f)) ->
  let r := indexCodebase cfg pd ra w in
  (exists ok, EvGenerateComments f ok ∈ trace r) /\
  0 < updatedFiles (counters r).
Proof.
  intros Hwalk Hin Hcool [rel Hrel] Hmd5 Hq Hne Hmk [code Hsrc] r. subst r.
  destruct (indexFiles_generates (runMonitor cfg ra)
              (Filepath.Join (DocsDir cfg) (projectName pd)) (perFile ra)
              (runFiles pd ra).1 (initialState w (nowBegin ra)) f rel h code
              Hin (fun g _ => Hcool g) Hrel Hmd5 Hq Hne Hmk Hsrc) as [ok Hok].
  assert (Hgen : (exists ok, EvGenerateComments f ok ∈ trace (indexCodebase cfg pd ra w))).
  { exists ok. revert Hok. clear -Hwalk.
    run_cases Hloop; try (simpl in Hwalk; discriminate).
    all: intros Hok; rewrite ?elem_of_cons, ?elem_of_app; auto. }
  split; [exact Hgen|].
  destruct Hgen as [ok' Hok'].
  pose proof (run_progress cfg pd ra w) as Hcount.
  cbv zeta in Hcount. unfold progress in Hcount.
  change (updatedFiles (initialState w (nowBegin ra))) with 0 in Hcount.
  assert (0 < count isGenerateComments (trace (indexCodebase cfg pd ra w)))%nat.
  { apply list_elem_of_split in Hok' as (l1 & l2 & ->).
    rewrite count_app. unfold count at 2. simpl. lia. }
  lia.
Qed.

(** X11 on the sample project with [b.py] edited. *)
Lemma changed_file_is_regenerated_witness :
  let ra := demoRun hashesEdited demoLLM true in
  let r := indexCodebase remoteConfig demoDetails ra demoWorld in
  file_hashes demoWorld !! "proj/b.py" <> Some "H2'" /\
  (exists ok, EvGenerateComments "proj/b.py" ok ∈ trace r) /\
  0 < updatedFiles (counters r).
Proof.
  intros ra r.
  assert (Hne : file_hashes demoWorld !! "proj/b.py" <> Some "H2'")
    by (vm_compute; discriminate).
  split; [exact Hne|].
  apply (changed_file_is_regenerated remoteConfig demoDetails ra demoWorld
           "proj/b.py" "H2'").
  - reflexivity.
  - vm_compute. right. left.
  - intros g. split; reflexivity.
  - eexists. reflexivity.
  - reflexivity.
  - reflexivity.
  - exact Hne.
  - reflexivity.
  - eexists. reflexivity.
Defined.

Lemma documentFile_commits dir file a st h :
  documented a h ->
  hashes (documentFile dir file a st).1.2 !! file = Some h.
Proof.
  intros ([rel Hrel] & Hmd5 & Hq & Hmk & (code & comments & Hsrc & Hgen) & Hw & Hs).
  unfold documentFile, getFileHash.
  rewrite Hrel, Hmd5, Hq, Hmk, Hsrc, Hgen, Hw, Hs. simpl.
  destruct (hashes st !! file) as [h0|] eqn:E; simpl.
  - destruct (String.eqb_spec h0 h) as [->|Hne]; simpl; [exact E|].
    unfold setFileHash. apply lookup_insert_eq.
  - unfold setFileHash. apply lookup_insert_eq.
Qed.

Lemma processFile_commits tm dir file a st h :
  documented a h ->
  coolReturned (CoolDownOn tm (preCooling a)) = true ->
  hashes (processFile tm dir file a st).1.2 !! file = Some h.
Proof.
  intros Hdoc Hcool. unfold processFile.
  pose proof (preCooldown_returns tm a st Hcool) as Hpre.
  destruct (preCooldown tm a st) as [evs1 returned1]. simpl in Hpre. subst returned1.
  pose proof (documentFile_commits dir file a st h Hdoc) as Hh.
  destruct (documentFile dir file a st) as [[evs2 st2] documented]. simpl in Hh.
  destruct documented; simpl; [|exact Hh].
  pose proof (postCooldown_state tm a st2) as (_ & _ & _ & Hp & _).
  destruct (postCooldown tm a st2) as [[evs3 st3] returned3]. simpl in *.
  rewrite Hp. exact Hh.
Qed.

(** After a loop in which every step of every file succeeds, each file's
    stored hash is its MD5. *)
Lemma indexFiles_commits tm dir answers files st f h :
  (forall g, g ∈ files -> coolsDown tm (answers g) /\ exists hg, documented (answers g) hg) ->
  md5 (answers f) = Some h ->
  f ∈ files \/ hashes st !! f = Some h ->
  hashes (indexFiles tm dir (map (fun g => (g, answers g)) files) st).1.2 !! f = Some h.
Proof.
  intros Hall Hmd5. revert st.
  induction files as [|g rest IH]; intros st Hf.
  - destruct Hf as [Hf|Hf]; [inversion Hf|exact Hf].
  - cbn [map indexFiles].
    destruct (Hall g ltac:(left)) as [Hcool [hg Hdoc]].
    pose proof (processFile_returns tm dir g (answers g) st Hcool) as Hret.
    assert (Hnext : f ∈ rest \/ hashes (processFile tm dir g (answers g) st).1.2 !! f = Some h).
    { destruct (decide (f = g)) as [->|Hfg].
      - right. rewrite (processFile_commits tm dir g (answers g) st hg Hdoc (proj1 Hcool)).
        destruct Hdoc as (_ & Hg & _). congruence.
      - rewrite processFile_hashes_other by exact Hfg.
        destruct Hf as [Hf|Hf]; [|right; exact Hf].
        apply elem_of_cons in Hf as [Hf|Hf]; [contradiction|left; exact Hf]. }
    destruct (processFile tm dir g (answers g) st) as [[evs st1] returned].
    simpl in *. subst returned.
    specialize (IH (fun g0 Hg0 => Hall g0 ltac:(right; exact Hg0)) st1 Hnext).
    destruct (indexFiles tm dir _ st1) as [[evs' st2] done]. simpl in *. exact IH.
Qed.

(** A run over files that are all unchanged does no work. *)
Lemma unchanged_run cfg pd ra w :
  (forall file, file ∈ (runFiles pd ra).1 ->
                unchangedFile (file_hashes w) file (perFile ra file)) ->
  let r := indexCodebase cfg pd ra w in
  count isGenerateComments (trace r) = 0%nat /\
  count isSetFileHash (trace r) = 0%nat /\
  count isWriteFile (trace r) = 0%nat /\
  count isRemoveAll (trace r) = 0%nat /\
  updatedFiles (counters r) = 0 /\
  docFiles (after r) = docFiles w /\ file_hashes (after r) = file_hashes w /\
  vectorDB (after r) = vectorDB w /\ storeDir (after r) = storeDir w.
Proof.
  intros Hsame r. subst r.
  run_cases Hloop.
  1: { repeat split; reflexivity. }
  all: match type of Hloop with
       | indexFiles ?tm ?dir ?work ?st = _ =>
           assert (Hwork : Forall (fun fa => unchangedFile (hashes st) fa.1 fa.2) work)
             by (apply Forall_forall;
                 intros [f b] (f0 & [= -> ->] & Hin)%list_elem_of_fmap;
                 apply Hsame; exact Hin);
           pose proof (indexFiles_unchanged tm dir work st Hwork) as [Hst Hsl];
           rewrite Hloop in Hst, Hsl; simpl in Hst, Hsl; subst
       end.
  all: try (simpl in *; discriminate).
  all: destruct (sleeps_only _ Hsl) as (C1 & C2 & C3 & C4 & C5).
  all: repeat split; try reflexivity;
    rewrite ?count_cons_other by reflexivity;
    rewrite ?count_app, ?C1, ?C2, ?C3, ?C4, ?C5;
    reflexivity.
Qed.

(** X12. Indexing is idempotent: after a run in which every step of every
    discovered file succeeded, a second run over the same files with the
    same content hashes calls [generateComments] for no file, commits no
    hash, removes no store, and leaves hash table, documentation files and
    vector store as the first run left them. *)
Theorem rerun_after_success_does_nothing cfg pd ra ra' w :
  (runFiles pd ra).2 = None ->
  (forall f, f ∈ (runFiles pd ra).1 ->
             coolsDown (runMonitor cfg ra) (perFile ra f) /\
             exists h, documented (perFile ra f) h) ->
  runFiles pd ra' = runFiles pd ra ->
  (forall f, f ∈ (runFiles pd ra).1 ->
             md5 (perFile ra' f) = md5 (perFile ra f) /\
             is_Some (relPath (perFile ra' f)) /\
             hashQueryOk (perFile ra' f) = true) ->
  let r1 := indexCodebase cfg pd ra w in
  let r2 := indexCodebase cfg pd ra' (after r1) in
  count isGenerateComments (trace r2) = 0%nat /\
  count isSetFileHash (trace r2) = 0%nat /\
  count isWriteFile (trace r2) = 0%nat /\
  count isRemoveAll (trace r2) = 0%nat /\
  updatedFiles (counters r2) = 0 /\
  docFiles (after r2) = docFiles (after r1) /\
  file_hashes (after r2) = file_hashes (after r1) /\
  vectorDB (after r2) = vectorDB (after r1) /\
  storeDir (after r2) = storeDir (after r1).
Proof.
  intros Hwalk Hall Hfiles Hsame r1 r2. subst r1 r2.
  apply unchanged_run. intros file Hin. rewrite Hfiles in Hin.
  destruct (Hsame file Hin) as (Hmd5 & Hrel & Hq).
  destruct (Hall file Hin) as [_ [h Hdoc]].
  split; [exact Hrel|]. split; [exact Hq|]. exists h.
  split; [rewrite Hmd5; exact (proj1 (proj2 Hdoc))|].
  rewrite (run_tables cfg pd ra w), run_counters by exact Hwalk.
  apply indexFiles_commits.
  - exact Hall.
  - exact (proj1 (proj2 Hdoc)).
  - left. exact Hin.
Qed.

(** X12 on the sample project: [b.py] edited, then the run repeated with a
    model server that would fail. *)
Lemma rerun_after_success_does_nothing_witness :
  let ra := demoRun hashesEdited demoLLM true in
  let ra' := demoRun hashesEdited failingLLM true in
  let r1 := indexCodebase remoteConfig demoDetails ra demoWorld in
  let r2 := indexCodebase remoteConfig demoDetails ra' (after r1) in
  updatedFiles (counters r1) = 1 /\
  count isGenerateComments (trace r2) = 0%nat /\
  file_hashes (after r2) = file_hashes (after r1).
Proof.
  intros ra ra' r1 r2.
  split; [reflexivity|].
  assert (Hfiles : (runFiles demoDetails ra).1 = ["proj/a.py"; "proj/b.py"])
    by (vm_compute; reflexivity).
  destruct (rerun_after_success_does_nothing remoteConfig demoDetails ra ra' demoWorld)
    as (Hgen & _ & _ & _ & _ & _ & Hh & _).
  - reflexivity.
  - intros f Hf. split; [split; reflexivity|].
    rewrite Hfiles in Hf.
    apply elem_of_cons in Hf as [->|Hf]; [|apply list_elem_of_singleton in Hf as ->].
    + exists "H1". unfold documented. simpl. repeat split; eauto.
    + exists "H2'". unfold documented. simpl. repeat split; eauto.
  - reflexivity.
  - intros f Hf. simpl. repeat split; eauto.
  - split; [exact Hgen|exact Hh].
Defined.

Lemma run_saves_config cfg pd ra w :
  (runFiles pd ra).2 = None ->
  (forall file, coolsDown (runMonitor cfg ra) (perFile ra file)) ->
  let r := indexCodebase cfg pd ra w in
  projectConfig (after r) = savedConfig pd ra (counters r) /\
  (saveLastOk ra = true ->
   inside (storePath cfg) (configPath cfg (projectName pd)) = false ->
   configFiles (after r) !! projectName pd = Some (savedConfig pd ra (counters r))).
Proof.
  intros Hwalk Hcool r. subst r.
  run_cases Hloop; try (simpl in Hwalk; discriminate).
  all: match type of Hloop with
       | indexFiles ?tm ?dir ?work ?st = _ =>
           pose proof (indexFiles_returns tm dir work st
                         (run_work_cools _ _ _ Hcool)) as Hret;
           rewrite Hloop in Hret; simpl in Hret; try discriminate
       end.
  all: try match goal with
       | H : createVectorStore ?c ?sa ?n ?p ?w0 = _ |- _ =>
           pose proof (createVectorStore_files c sa n p w0) as (_ & Hp & Hc);
           rewrite H in Hp, Hc; simpl in Hp, Hc; rewrite Hp, Hc
       end.
  all: split; [reflexivity|]; intros -> Hout; simpl.
  all: rewrite ?(lookup_removed
                   (fun name => removedFile cfg (store ra) (configPath cfg name))).
  all: unfold removedFile; rewrite ?Hout; simpl; apply lookup_insert_eq.
Qed.



(** X14. When files were updated and the store directory was removed but
    cannot be opened anew, the run ends with an error and without
    [createVectorStore]: the store on disk is empty, while the vector
    store in memory is still the one from before the run. *)
Theorem failed_reopen_leaves_store_empty cfg pd ra w :
  (forall file, coolsDown (runMonitor cfg ra) (perFile ra file)) ->
  0 < updatedFiles (counters (indexCodebase cfg pd ra w)) ->
  removeOk (store ra) = true ->
  reopenOk (store ra) = false ->
  let r := indexCodebase cfg pd ra w in
  storeDir (after r) = ∅ /\ vectorDB (after r) = vectorDB w /\
  outcome r = Done (Some "failed to add document to vector DB") /\
  count isCreateVectorStore (trace r) = 0%nat.
Proof.
  intros Hcool Hupd Hrm Hre r. subst r. revert Hupd.
  run_cases Hloop; simpl; try lia.
  all: match type of Hloop with
       | indexFiles ?tm ?dir ?work ?st = _ =>
           pose proof (indexFiles_returns tm dir work st
                         (run_work_cools _ _ _ Hcool)) as Hret;
           pose proof (loop_has_no_store_events _ (indexFiles_events tm dir work st)) as Hno;
           rewrite Hloop in Hret, Hno; simpl in Hret, Hno; try discriminate
       end.
  all: try congruence.
  all: intros Hupd; try (apply Z.ltb_lt in Hupd; congruence).
  all: unfold removeStore; rewrite Hrm; repeat split; try reflexivity.
  all: rewrite ?count_cons_other by reflexivity; rewrite ?count_app.
  all: destruct Hno as (_ & _ & ->); reflexivity.
Qed.

(** X14 on the sample project with [b.py] edited and a store directory
    that cannot be opened again. *)
Lemma failed_reopen_leaves_store_empty_witness :
  let ra := demoRun hashesEdited demoLLM false in
  let r := indexCodebase remoteConfig demoDetails ra demoWorld in
  0 < updatedFiles (counters r) /\
  is_Some (storeDir demoWorld !! "other") /\
  storeDir (after r) = ∅ /\
  vectorDB (after r) = vectorDB demoWorld /\
  outcome r = Done (Some "failed to add document to vector DB").
Proof.
  intros ra r.
  assert (Hupd : 0 < updatedFiles (counters r)) by (vm_compute; reflexivity).
  split; [exact Hupd|]. split; [vm_compute; eauto|].
  destruct (failed_reopen_leaves_store_empty remoteConfig demoDetails ra demoWorld)
    as (Hdisk & Hmem & Hout & _).
  - intros file. split; reflexivity.
  - exact Hupd.
  - reflexivity.
  - reflexivity.
  - split; [exact Hdisk|]. split; [exact Hmem|exact Hout].
Defined.

(* ===================================================================== *)
(** * More on the vector store and the query path *)
(* ===================================================================== *)

Lemma addDocuments_sound embeds documents c id doc :
  (addDocuments embeds documents c).1 !! id = Some doc ->
  c !! id = Some doc \/ (doc ∈ documents /\ ID doc = id).
Proof.
  revert c. induction documents as [|d rest IH]; intros c; simpl; [auto|].
  destruct (embeds d); simpl; [|auto].
  intros [Hc|[Hin Hid]]%IH.
  - destruct (decide (ID d = id)) as [<-|Hne].
    + rewrite lookup_insert_eq in Hc. injection Hc as <-. right. split; [left|reflexivity].
    + rewrite lookup_insert_ne in Hc by exact Hne. auto.
  - right. split; [right; exact Hin|exact Hid].
Qed.

Lemma addDocuments_keeps embeds documents c id :
  is_Some (c !! id) -> is_Some ((addDocuments embeds documents c).1 !! id).
Proof.
  revert c. induction documents as [|d rest IH]; intros c Hc; simpl; [exact Hc|].
  destruct (embeds d); simpl; [|exact Hc].
  apply IH. destruct (decide (ID d = id)) as [<-|Hne].
  - rewrite lookup_insert_eq. eauto.
  - rewrite lookup_insert_ne by exact Hne. exact Hc.
Qed.

Lemma addDocuments_complete embeds documents c doc :
  (addDocuments embeds documents c).2 = true ->
  doc ∈ documents ->
  is_Some ((addDocuments embeds documents c).1 !! ID doc).
Proof.
  revert c. induction documents as [|d rest IH]; intros c Hok Hin; [inversion Hin|].
  simpl in *. destruct (embeds d); simpl in *; [|discriminate].
  apply elem_of_cons in Hin as [->|Hin].
  - apply addDocuments_keeps. rewrite lookup_insert_eq. eauto.
  - apply IH; assumption.
Qed.

Lemma collectDocuments_elem dir codebasePath files doc :
  doc ∈ collectDocuments dir codebasePath files <->
  exists p content, files !! p = Some content /\ below dir p = true /\
                    Strings.HasSuffix p ".txt" = true /\
                    doc = documentOf dir codebasePath (p, content).
Proof.
  unfold collectDocuments. rewrite list_elem_of_fmap. split.
  - intros ([p content] & -> & Hin).
    apply list_elem_of_In, filter_In in Hin as [Hin Hf].
    apply list_elem_of_In, elem_of_map_to_list in Hin.
    apply andb_true_iff in Hf as [Hb Hs]. simpl in *. eauto 8.
  - intros (p & content & Hp & Hb & Hs & ->).
    exists (p, content). split; [reflexivity|].
    apply list_elem_of_In, filter_In. split.
    + apply list_elem_of_In, elem_of_map_to_list. exact Hp.
    + simpl. rewrite Hb, Hs. reflexivity.
Qed.



(** A query panics only on a project without a collection. *)
Lemma searchCodebase_panic_inv qa w name query msg :
  searchCodebase qa w name query = Panic msg ->
  clientOk qa = true /\ vectorDB w !! name = None /\ query <> "".
Proof.
  unfold searchCodebase, GetCollection, Query.
  destruct (clientOk qa); simpl; [|discriminate].
  destruct (String.eqb_spec query "") as [->|Hq]; simpl; [discriminate|].
  destruct (vectorDB w !! name) as [c|]; simpl; [|auto].
  destruct (embedQueryOk qa); simpl; [|discriminate].
  destruct (Z.of_nat (size c) <? 1); simpl; [discriminate|].
  destruct (chat qa _); discriminate.
Qed.

(** X16. [searchCodebase] panics exactly when the client could be made,
    the project has no collection and the query text is not empty; it
    returns an answer only for a non-empty query against a collection
    that exists and holds at least one document. *)
Theorem searchCodebase_outcomes qa w name query :
  ((exists msg, searchCodebase qa w name query = Panic msg) <->
   clientOk qa = true /\ vectorDB w !! name = None /\ query <> "") /\
  (forall text, searchCodebase qa w name query = Answer text ->
     query <> "" /\ exists c, vectorDB w !! name = Some c /\ (0 < size c)%nat).
Proof.
  split.
  - split.
    + intros [msg H]. exact (searchCodebase_panic_inv qa w name query msg H).
    + intros (Hc & Hn & Hq). eexists.
      apply searchCodebase_without_collection; assumption.
  - unfold searchCodebase, GetCollection, Query.
    destruct (clientOk qa); simpl; [|discriminate].
    destruct (String.eqb_spec query "") as [->|Hq]; simpl; [discriminate|].
    destruct (vectorDB w !! name) as [c|]; simpl; [|discriminate].
    intros text.
    destruct (embedQueryOk qa); simpl; [|discriminate].
    destruct (Z.of_nat (size c) <? 1) eqn:E; simpl; [discriminate|].
    intros _. split; [exact Hq|]. exists c. split; [reflexivity|].
    apply Z.ltb_ge in E. lia.
Qed.

Lemma createVectorStore_creates cfg sa name codebasePath w :
  (createVectorStore cfg sa name codebasePath w).2 = None ->
  is_Some (vectorDB (createVectorStore cfg sa name codebasePath w).1 !! name).
Proof.
  unfold createVectorStore.
  destruct (docsWalkOk sa); simpl; [|discriminate].
  destruct (createOk sa); simpl; [|discriminate].
  destruct (addDocuments _ _ ∅) as [collec added].
  destruct (addDocuments _ _ (default ∅ _)) as [persisted ?]. simpl.
  intros _. rewrite lookup_insert_eq. eauto.
Qed.

(** X17. After a run that updated at least one file and returned nil, the
    project has a collection in the vector store, so that a query against
    the project returns an answer or an error value and does not panic. *)
Theorem search_after_rebuild_does_not_panic cfg pd ra w qa query :
  0 < updatedFiles (counters (indexCodebase cfg pd ra w)) ->
  outcome (indexCodebase cfg pd ra w) = Done None ->
  let r := indexCodebase cfg pd ra w in
  is_Some (vectorDB (after r) !! projectName pd) /\
  forall msg, searchCodebase qa (after r) (projectName pd) query <> Panic msg.
Proof.
  intros Hupd Hout r. subst r.
  assert (Hsome : is_Some (vectorDB (after (indexCodebase cfg pd ra w)) !! projectName pd)).
  { revert Hupd Hout. run_cases Hloop; simpl; try lia; try discriminate.
    all: try (intros Hupd _; apply Z.ltb_ge in Hupd; lia).
    all: match goal with
         | H : createVectorStore ?c ?sa ?n ?p ?w0 = _ |- _ =>
             pose proof (createVectorStore_creates c sa n p w0) as Hc;
             rewrite H in Hc; simpl in Hc
         end.
    all: intros _ [= ->]; apply Hc; reflexivity. }
  split; [exact Hsome|].
  intros msg Hpanic.
  apply searchCodebase_panic_inv in Hpanic as (_ & Hnone & _).
  rewrite Hnone in Hsome. destruct Hsome as [c Hc]. discriminate.
Qed.

(** X17 on the sample project with [b.py] edited. *)
Lemma search_after_rebuild_does_not_panic_witness :
  let r := indexCodebase remoteConfig demoDetails
                         (demoRun hashesEdited demoLLM true) demoWorld in
  0 < updatedFiles (counters r) /\ outcome r = Done None /\
  is_Some (vectorDB (after r) !! "demo") /\
  forall msg, searchCodebase demoQuery (after r) "demo" "what does b do?" <> Panic msg.
Proof.
  intros r.
  assert (Hupd : 0 < updatedFiles (counters r)) by (vm_compute; reflexivity).
  assert (Hout : outcome r = Done None) by (vm_compute; reflexivity).
  split; [exact Hupd|]. split; [exact Hout|].
  exact (search_after_rebuild_does_not_panic remoteConfig demoDetails
           (demoRun hashesEdited demoLLM true) demoWorld demoQuery
           "what does b do?" Hupd Hout).
Defined.

(* ===================================================================== *)
(** * Re-indexing a project: [reindexCodebase] *)
(* ===================================================================== *)

Lemma removeConfigs_selected project files :
  removeConfigs project files !! project = None.
Proof.
  unfold removeConfigs. apply map_lookup_filter_None. right.
  intros pc _ [_ H]. simpl in H. contradiction.
Qed.

Lemma removeTree_below docsPath files p :
  below docsPath p = true -> removeTree docsPath files !! p = None.
Proof.
  intros Hb. unfold removeTree. apply map_lookup_filter_None. right.
  intros content _ [H _]. simpl in H. congruence.
Qed.

Lemma selection_in_range (projects : list string) index :
  1 <= index <= Z.of_nat (length projects) ->
  (index <? 1) || (Z.of_nat (length projects) <? index) = false.
Proof.
  intros H. apply orb_false_iff. split; apply Z.ltb_ge; lia.
Qed.

(** A call for a project whose configuration file does not exist works
    on the empty project name and the empty path, and ends at the walk
    when the empty path cannot be examined. *)
Lemma indexCodebaseCall_without_config cfg project ia w :
  project <> "" ->
  configFiles w !! project = None ->
  fileSystem ia "" = Broken "" ->
  let r := indexCodebaseCall cfg project ia w in
  outcome r = Done (Some "walk") /\ trace r = [] /\
  configFiles (after r) = configFiles w /\ docFiles (after r) = docFiles w /\
  file_hashes (after r) = file_hashes w.
Proof.
  intros Hname Hcfg Hfs. unfold indexCodebaseCall, loadProjectConfig, resolveProject.
  rewrite Hcfg. destruct (String.eqb_spec project "") as [->|_]; [contradiction|].
  simpl. unfold indexCodebase, runFiles. simpl. rewrite Hfs. simpl.
  repeat split; reflexivity.
Qed.

(** X18. A confirmed re-index deletes the project's documentation
    directory, and with it the project configuration stored there, before
    [indexCodebase] loads that configuration: the run then works on the
    empty project path, the walk fails on it, and the call returns the
    error with the documentation deleted and nothing indexed. *)
Theorem confirmed_reindex_deletes_then_fails like cfg a w projects :
  listed a = Some projects ->
  1 <= selectedIndex a <= Z.of_nat (length projects) ->
  confirmed (confirmLine a) = true ->
  removeDocsOk a = true -> deleteHashesOk a = true ->
  nth (Z.to_nat (selectedIndex a - 1)) projects "" <> "" ->
  fileSystem (indexing a) "" = Broken "" ->
  let selected := nth (Z.to_nat (selectedIndex a - 1)) projects "" in
  exists before r,
    reindexCodebase like cfg a w = Reindexed selected before r /\
    outcome r = Done (Some "walk") /\ trace r = [] /\
    configFiles (after r) !! selected = None /\
    (forall p, below (Filepath.Join (DocsDir cfg) selected) p = true ->
               docFiles (after r) !! p = None).
Proof.
  intros Hlist Hrange Hyes Hrm Hdel Hname Hfs selected.
  unfold reindexCodebase. rewrite Hlist.
  destruct projects as [|first more]; [simpl in Hrange; lia|].
  rewrite (selection_in_range _ _ Hrange), Hyes, Hrm, Hdel. simpl negb. cbv iota.
  fold selected.
  match goal with
  | |- context [indexCodebaseCall cfg selected ?ia ?w2] =>
      destruct (indexCodebaseCall_without_config cfg selected ia w2 Hname
                  (removeConfigs_selected selected (configFiles w)) Hfs)
        as (Hout & Htrace & Hc & Hd & _)
  end.
  eexists _, _. split; [reflexivity|].
  split; [exact Hout|]. split; [exact Htrace|]. split.
  - rewrite Hc. apply removeConfigs_selected.
  - intros p Hp. rewrite Hd. apply removeTree_below. exact Hp.
Qed.

(** X18 on the sample project: project 1 chosen, answer [y]. *)
Lemma confirmed_reindex_deletes_then_fails_witness :
  is_Some (docFiles demoIndexed !! "docs/demo/a.py.txt") /\
  is_Some (configFiles demoIndexed !! "demo") /\
  exists before r,
    reindexCodebase demoLike remoteConfig (demoReindex 1 "y") demoIndexed
    = Reindexed "demo" before r /\
    outcome r = Done (Some "walk") /\ trace r = [] /\
    configFiles (after r) !! "demo" = None /\
    docFiles (after r) !! "docs/demo/a.py.txt" = None.
Proof.
  split; [vm_compute; eauto|]. split; [vm_compute; eauto|].
  destruct (confirmed_reindex_deletes_then_fails demoLike remoteConfig
              (demoReindex 1 "y") demoIndexed ["demo"; "other"])
    as (before & r & Hr & Hout & Htrace & Hcfg & Hdocs).
  - reflexivity.
  - simpl. lia.
  - reflexivity.
  - reflexivity.
  - reflexivity.
  - discriminate.
  - reflexivity.
  - exists before, r. split; [exact Hr|]. split; [exact Hout|].
    split; [exact Htrace|]. split; [exact Hcfg|].
    apply Hdocs. vm_compute. reflexivity.
Defined.

(** X19. The hash rows a confirmed re-index deletes are chosen by the
    project path of the configuration the assistant holds, whatever
    project is selected: a row survives exactly when its path does not
    match that path joined with [%]. When no configuration is held (the
    path is empty) the pattern is [%], and with a [LIKE] for which [%]
    matches every text the whole hash table is emptied, other projects'
    rows included. *)
Theorem reindex_deletes_hashes_by_held_path like cfg a w projects :
  listed a = Some projects ->
  1 <= selectedIndex a <= Z.of_nat (length projects) ->
  confirmed (confirmLine a) = true ->
  removeDocsOk a = true -> deleteHashesOk a = true ->
  exists selected before r,
    reindexCodebase like cfg a w = Reindexed selected before r /\
    (forall k h,
        file_hashes before !! k = Some h <->
        file_hashes w !! k = Some h /\
        like (Filepath.Join (ProjectPath (projectConfig w)) "%") k = false) /\
    (ProjectPath (projectConfig w) = "" -> (forall s, like "%" s = true) ->
     file_hashes before = ∅).
Proof.
  intros Hlist Hrange Hyes Hrm Hdel.
  unfold reindexCodebase. rewrite Hlist.
  destruct projects as [|first more]; [simpl in Hrange; lia|].
  rewrite (selection_in_range _ _ Hrange), Hyes, Hrm, Hdel. simpl negb. cbv iota.
  eexists _, _, _. split; [reflexivity|]. simpl. unfold deleteLike. split.
  - intros k h. rewrite map_lookup_filter_Some. simpl. reflexivity.
  - intros Hpath Hall. rewrite Hpath. apply map_empty. intros k.
    apply map_lookup_filter_None. right. intros h _. simpl.
    change (Filepath.Join "" "%") with "%". rewrite Hall. discriminate.
Qed.

(** X19 on the sample project at start-up, where no configuration is
    held: re-indexing [other] deletes the hash rows of [demo]. *)
Lemma reindex_deletes_hashes_by_held_path_witness :
  ProjectPath (projectConfig demoWorld) = "" /\
  is_Some (file_hashes demoWorld !! "proj/a.py") /\
  exists selected before r,
    reindexCodebase demoLike remoteConfig (demoReindex 2 "Y") demoWorld
    = Reindexed selected before r /\
    selected = "other" /\ file_hashes before = ∅.
Proof.
  split; [reflexivity|]. split; [vm_compute; eauto|].
  destruct (reindex_deletes_hashes_by_held_path demoLike remoteConfig
              (demoReindex 2 "Y") demoWorld ["demo"; "other"])
    as (selected & before & r & Hr & _ & Hempty).
  - reflexivity.
  - simpl. lia.
  - reflexivity.
  - reflexivity.
  - reflexivity.
  - exists selected, before, r. split; [exact Hr|]. split.
    + vm_compute in Hr. congruence.
    + apply Hempty; [reflexivity|]. intros s. unfold demoLike. simpl.
      destruct s; reflexivity.
Defined.
